(** * pyocr.builders: regions, hOCR parsers and builders

    A shallow embedding of [src/pyocr/builders.py].

    - Python integers are [Z]; [&], [<<] and [^] are [Z.land], [Z.shiftl]
      and [Z.lxor] (Python integers are unbounded two's complement).
    - Text is [string]; a character is an [ascii] code point.
    - [None] is [option]'s [None]; a raised exception is [Raise e].
    - The two parser classes subclass the standard library's [HTMLParser].
      [feed] scans the markup text and calls [handle_starttag],
      [handle_data] and [handle_endtag] in document order; the scanner
      itself is not part of this repository.  A document is therefore
      represented by the sequence of events that [feed] dispatches
      (Python 3 [html.parser], where character references arrive
      decoded inside the data events), and the handlers are the code
      of the two classes. *)

From Stdlib Require Import ZArith String Ascii List Bool Lia.
From Stdlib Require Import Decimal DecimalString DecimalPos DecimalZ.
Import ListNotations.

Open Scope string_scope.
Open Scope Z_scope.

(** ** Exceptions *)

Inductive exn : Type :=
| IndexError
| ValueError
| TypeError
| AttributeError
| InvalidHocrPosition (title : string).

Inductive result (A : Type) : Type :=
| Return (a : A)
| Raise (e : exn).

Arguments Return {A} a.
Arguments Raise {A} e.

Definition bind {A B : Type} (m : result A) (k : A -> result B) : result B :=
  match m with
  | Return a => k a
  | Raise e => Raise e
  end.

Notation "x <- m ;; k" := (bind m (fun x => k))
  (at level 61, m at next level, right associativity).

Definition raised {A : Type} (m : result A) : bool :=
  match m with
  | Return _ => false
  | Raise _ => true
  end.

Fixpoint mapM {A B : Type} (f : A -> result B) (l : list A) : result (list B) :=
  match l with
  | [] => Return []
  | a :: l' => b <- f a ;; bs <- mapM f l' ;; Return (b :: bs)
  end.

(** ** Python string operations used by the module *)

(** [str.isspace] on the code points below 256. *)
Definition isspace (c : ascii) : bool :=
  let n := nat_of_ascii c in
  ((9 <=? n) && (n <=? 13) || (28 <=? n) && (n <=? 32)
   || (n =? 133) || (n =? 160))%nat.

Fixpoint lstrip (s : string) : string :=
  match s with
  | EmptyString => EmptyString
  | String c s' => if isspace c then lstrip s' else s
  end.

Fixpoint rstrip (s : string) : string :=
  match s with
  | EmptyString => EmptyString
  | String c s' =>
      match rstrip s' with
      | EmptyString => if isspace c then EmptyString else String c EmptyString
      | r => String c r
      end
  end.

(** [s.strip()] *)
Definition strip (s : string) : string := rstrip (lstrip s).

(** [s.startswith(p)] *)
Definition startswith (s p : string) : bool := prefix p s.

Definition cons_head (c : ascii) (l : list string) : list string :=
  match l with
  | [] => [String c EmptyString]
  | w :: ws => String c w :: ws
  end.

(** [s.split(" ")] *)
Fixpoint split_space (s : string) : list string :=
  match s with
  | EmptyString => [EmptyString]
  | String c s' =>
      if (c =? " ")%char then EmptyString :: split_space s'
      else cons_head c (split_space s')
  end.

(** [s.split("; ")] *)
Fixpoint split_semi_space (s : string) : list string :=
  match s with
  | EmptyString => [EmptyString]
  | String c s' =>
      match s' with
      | String c' s'' =>
          if ((c =? ";") && (c' =? " "))%char
          then EmptyString :: split_semi_space s''
          else cons_head c (split_semi_space s')
      | EmptyString => cons_head c (split_semi_space s')
      end
  end.

(** [sep.join(l)] *)
Fixpoint join (sep : string) (l : list string) : string :=
  match l with
  | [] => EmptyString
  | [w] => w
  | w :: ws => w ++ sep ++ join sep ws
  end.

(** [len(s)] *)
Definition len (s : string) : Z := Z.of_nat (String.length s).

(** The ["%d"] conversion of an integer. *)
Definition format_d (z : Z) : string := NilZero.string_of_int (Z.to_int z).

Definition digit_val (c : ascii) : option Z :=
  let n := Z.of_nat (nat_of_ascii c) in
  if (48 <=? n) && (n <=? 57) then Some (n - 48) else None.

(** The digits of an integer literal: decimal digits, with single
    underscores allowed between two digits. *)
Fixpoint int_digits (s : string) (acc : Z) (after_digit : bool) : option Z :=
  match s with
  | EmptyString => if after_digit then Some acc else None
  | String c s' =>
      match digit_val c with
      | Some d => int_digits s' (10 * acc + d) true
      | None =>
          if (c =? "_")%char && after_digit then int_digits s' acc false
          else None
      end
  end.

(** The characters [int] skips around a number: the blanks of the C
    locale (tab to carriage return, and the space) and, of the other code
    points below 256, U+0085 and U+00A0.  Unlike [str.strip], [int] does
    not skip the separators U+001C to U+001F. *)
Definition int_blank (c : ascii) : bool :=
  let n := nat_of_ascii c in
  ((9 <=? n) && (n <=? 13) || (n =? 32) || (n =? 133) || (n =? 160))%nat.

Fixpoint int_lstrip (s : string) : string :=
  match s with
  | EmptyString => EmptyString
  | String c s' => if int_blank c then int_lstrip s' else s
  end.

Fixpoint int_rstrip (s : string) : string :=
  match s with
  | EmptyString => EmptyString
  | String c s' =>
      match int_rstrip s' with
      | EmptyString => if int_blank c then EmptyString else String c EmptyString
      | r => String c r
      end
  end.

Definition int_strip (s : string) : string := int_rstrip (int_lstrip s).

(** [int(s)]: the blanks around the number are skipped, one sign is
    accepted, anything else raises [ValueError]. *)
Definition int (s : string) : result Z :=
  let s := int_strip s in
  let '(negative, body) :=
    match s with
    | String c r =>
        if (c =? "-")%char then (true, r)
        else if (c =? "+")%char then (false, r)
        else (false, s)
    | EmptyString => (false, s)
    end in
  match int_digits body 0 false with
  | Some n => Return (if negative then - n else n)
  | None => Raise ValueError
  end.

(** [l[i]] for [i >= 0] *)
Definition getitem {A : Type} (l : list A) (i : nat) : result A :=
  match nth_error l i with
  | Some a => Return a
  | None => Raise IndexError
  end.

(** [l.pop()]: the last element and the list without it. *)
Definition pop {A : Type} (l : list A) : result (A * list A) :=
  match List.rev l with
  | [] => Raise IndexError
  | a :: r => Return (a, List.rev r)
  end.

(** Modelled from the spec: [pyocr.util.to_unicode] is imported from a
    module that is not among the sources.  The specification treats every
    text buffer as already decoded Unicode text, on which the conversion
    changes nothing. *)
Definition to_unicode (s : string) : string := s.

(** ** Rectangles *)

Definition point : Type := Z * Z.
Definition rect : Type := point * point.

(** ** class Box *)

Module Box.

Record t : Type := new {
  content : string;
  position : rect;
  confidence : Z
}.

(** [Box(content, position, confidence=0)] *)
Definition __init__ (content : string) (position : rect) (confidence : Z) : t :=
  new (to_unicode content) position confidence.

Definition default_confidence : Z := 0.

(** The [for (x, y) in (...)] loop of [__box_cmp]. *)
Fixpoint cmp_loop (pairs : list (Z * Z)) : Z :=
  match pairs with
  | [] => 0
  | (x, y) :: rest =>
      if x <? y then -1
      else if x >? y then 1
      else cmp_loop rest
  end.

Definition __box_cmp (self : t) (other : option t) : Z :=
  match other with
  | None => -1
  | Some other =>
      cmp_loop [ (snd (fst (position self)), snd (fst (position other)));
                 (snd (snd (position self)), snd (snd (position other)));
                 (fst (fst (position self)), fst (fst (position other)));
                 (fst (snd (position self)), fst (snd (position other))) ]
  end.

Definition __lt__ (self : t) (other : option t) : bool := __box_cmp self other <? 0.
Definition __gt__ (self : t) (other : option t) : bool := __box_cmp self other >? 0.
Definition __eq__ (self : t) (other : option t) : bool := __box_cmp self other =? 0.
Definition __le__ (self : t) (other : option t) : bool := __box_cmp self other <=? 0.
Definition __ge__ (self : t) (other : option t) : bool := __box_cmp self other >=? 0.
Definition __ne__ (self : t) (other : option t) : bool := negb (__box_cmp self other =? 0).

(** [hash] is Python's built-in hash of a string. *)
Definition __hash__ (hash : string -> Z) (self : t) : Z :=
  let position_hash := 0 in
  let position_hash := position_hash + Z.shiftl (Z.land (fst (fst (position self))) 255) 0 in
  let position_hash := position_hash + Z.shiftl (Z.land (snd (fst (position self))) 255) 8 in
  let position_hash := position_hash + Z.shiftl (Z.land (fst (snd (position self))) 255) 16 in
  let position_hash := position_hash + Z.shiftl (Z.land (snd (snd (position self))) 255) 24 in
  Z.lxor (Z.lxor position_hash (hash (content self))) (hash (content self)).

(** The title attribute written by [get_xml_tag]. *)
Definition xml_title (self : t) : string :=
  "bbox " ++ format_d (fst (fst (position self))) ++ " "
          ++ format_d (snd (fst (position self))) ++ " "
          ++ format_d (fst (snd (position self))) ++ " "
          ++ format_d (snd (snd (position self)))
          ++ "; x_wconf " ++ format_d (confidence self).

End Box.

(** ** class LineBox *)

Module LineBox.

Record t : Type := new {
  word_boxes : list Box.t;
  position : rect
}.

Definition __get_content (self : t) : string :=
  let txt := to_unicode "" in
  let txt :=
    fold_left (fun txt box => txt ++ (Box.content box ++ to_unicode " "))
              (word_boxes self) txt in
  strip txt.

(** [content = property(__get_content)] *)
Definition content (self : t) : string := __get_content self.

Fixpoint cmp_loop (pairs : list (Z * Z)) : Z :=
  match pairs with
  | [] => 0
  | (x, y) :: rest =>
      if x <? y then -1
      else if x >? y then 1
      else cmp_loop rest
  end.

Definition __box_cmp (self : t) (other : option t) : Z :=
  match other with
  | None => -1
  | Some other =>
      cmp_loop [ (snd (fst (position self)), snd (fst (position other)));
                 (snd (snd (position self)), snd (snd (position other)));
                 (fst (fst (position self)), fst (fst (position other)));
                 (fst (snd (position self)), fst (snd (position other))) ]
  end.

Definition __lt__ (self : t) (other : option t) : bool := __box_cmp self other <? 0.
Definition __gt__ (self : t) (other : option t) : bool := __box_cmp self other >? 0.
Definition __eq__ (self : t) (other : option t) : bool := __box_cmp self other =? 0.
Definition __le__ (self : t) (other : option t) : bool := __box_cmp self other <=? 0.
Definition __ge__ (self : t) (other : option t) : bool := __box_cmp self other >=? 0.
Definition __ne__ (self : t) (other : option t) : bool := negb (__box_cmp self other =? 0).

Definition __hash__ (hash : string -> Z) (self : t) : Z :=
  let content := content self in
  let position_hash := 0 in
  let position_hash := position_hash + Z.shiftl (Z.land (fst (fst (position self))) 255) 0 in
  let position_hash := position_hash + Z.shiftl (Z.land (snd (fst (position self))) 255) 8 in
  let position_hash := position_hash + Z.shiftl (Z.land (fst (snd (position self))) 255) 16 in
  let position_hash := position_hash + Z.shiftl (Z.land (snd (snd (position self))) 255) 24 in
  Z.lxor (Z.lxor position_hash (hash content)) (hash content).

End LineBox.

(** ** Markup events and DOM nodes *)

(** An attribute as [HTMLParser] reports it: a name and a value, the
    value being [None] for an attribute written without one. *)
Definition attr : Type := string * option string.

Inductive event : Type :=
| StartTag (tag : string) (attrs : list attr)
| Data (data : string)
| EndTag (tag : string).

(** The [xml.dom.minidom] nodes the serializer builds. *)
#[warnings="-register-all"]
Inductive node : Type :=
| Element (tag : string) (attrs : list (string * string)) (children : list node)
| Text (data : string).

Definition nl : string := String (ascii_of_nat 10) EmptyString.
Definition tab : string := String (ascii_of_nat 9) EmptyString.

(** ** class _WordHTMLParser *)

Module WordHTMLParser.

Record t : Type := mk {
  tag_types : list string;
  current_box_position : option rect;
  current_box_text : option string;
  current_box_confidence : option Z;
  boxes : list Box.t;
  current_line_position : option rect;
  current_line_content : list Box.t;
  lines : list LineBox.t
}.

Definition __init__ : t := mk [] None None None [] None [] [].

(** The [for piece in title.split("; ")] loop of [__parse_confidence];
    falling out of the loop logs a note and returns 0. *)
Fixpoint parse_confidence_loop (pieces : list string) : result Z :=
  match pieces with
  | [] => Return 0
  | piece :: rest =>
      let piece := strip piece in
      if negb (startswith piece "x_wconf") then parse_confidence_loop rest
      else
        confidence <- getitem (split_space piece) 1 ;;
        int confidence
  end.

Definition __parse_confidence (title : string) : result Z :=
  parse_confidence_loop (split_semi_space title).

Fixpoint parse_position_loop (title : string) (pieces : list string) : result rect :=
  match pieces with
  | [] => Raise (InvalidHocrPosition title)
  | piece :: rest =>
      let piece := strip piece in
      if negb (startswith piece "bbox") then parse_position_loop title rest
      else
        let piece := split_space piece in
        p1 <- getitem piece 1 ;; x1 <- int p1 ;;
        p2 <- getitem piece 2 ;; y1 <- int p2 ;;
        p3 <- getitem piece 3 ;; x2 <- int p3 ;;
        p4 <- getitem piece 4 ;; y2 <- int p4 ;;
        Return ((x1, y1), (x2, y2))
  end.

Definition __parse_position (title : string) : result rect :=
  parse_position_loop title (split_semi_space title).

(** The [for attr in attrs] loop of [handle_starttag]: the last [title]
    and the last [class] attribute win. *)
Definition scan_attrs (attrs : list attr) : option string * option string :=
  fold_left
    (fun (acc : option string * option string) (a : attr) =>
       let '(position, tag_type) := acc in
       let tag_type := if (fst a =? "class")%string then snd a else tag_type in
       let position := if (fst a =? "title")%string then snd a else position in
       (position, tag_type))
    attrs (None, None).

Definition handle_starttag (self : t) (tag : string) (attrs : list attr) : result t :=
  if negb (tag =? "span")%string then Return self
  else
    match scan_attrs attrs with
    | (Some position, Some tag_type) =>
        if (tag_type =? "ocr_word")%string || (tag_type =? "ocrx_word")%string then
          match (confidence <- __parse_confidence position ;;
                 position <- __parse_position position ;;
                 Return (confidence, position)) with
          | Return (confidence, position) =>
              Return (mk (tag_types self ++ [tag_type])
                         (Some position)
                         (Some (to_unicode ""))
                         (Some confidence)
                         (boxes self)
                         (current_line_position self)
                         (current_line_content self)
                         (lines self))
          | Raise _ =>
              (* invalid position --> old format --> we ignore this tag *)
              Return (mk (tag_types self ++ ["ignore"])
                         (current_box_position self)
                         (current_box_text self)
                         (current_box_confidence self)
                         (boxes self)
                         (current_line_position self)
                         (current_line_content self)
                         (lines self))
          end
        else if (tag_type =? "ocr_line")%string then
          position <- __parse_position position ;;
          Return (mk (tag_types self ++ [tag_type])
                     (current_box_position self)
                     (current_box_text self)
                     (current_box_confidence self)
                     (boxes self)
                     (Some position)
                     []
                     (lines self))
        else
          Return (mk (tag_types self ++ [tag_type])
                     (current_box_position self)
                     (current_box_text self)
                     (current_box_confidence self)
                     (boxes self)
                     (current_line_position self)
                     (current_line_content self)
                     (lines self))
    | _ => Return self
    end.

Definition handle_data (self : t) (data : string) : t :=
  match current_box_text self with
  | None => self
  | Some text =>
      let data := to_unicode data in
      mk (tag_types self)
         (current_box_position self)
         (Some (text ++ data))
         (current_box_confidence self)
         (boxes self)
         (current_line_position self)
         (current_line_content self)
         (lines self)
  end.

(** A word buffer is only ever opened together with its position and
    confidence, and ["ocr_line"] is only pushed together with a line
    position (lemmas [feed_wellformed] and [endtag_no_TypeError]); the
    [Raise TypeError] branches below stand for states the parser never
    reaches. *)
Definition handle_endtag (self : t) (tag : string) : result t :=
  if negb (tag =? "span")%string then Return self
  else
    popped <- pop (tag_types self) ;;
    let '(tag_type, tag_types') := popped in
    if (tag_type =? "ocr_word")%string || (tag_type =? "ocrx_word")%string then
      match current_box_text self with
      | None =>
          Return (mk tag_types'
                     (current_box_position self)
                     (current_box_text self)
                     (current_box_confidence self)
                     (boxes self)
                     (current_line_position self)
                     (current_line_content self)
                     (lines self))
      | Some text =>
          match current_box_position self, current_box_confidence self with
          | Some box_position, Some confidence =>
              let box := Box.__init__ text box_position confidence in
              Return (mk tag_types'
                         (current_box_position self)
                         None
                         (current_box_confidence self)
                         (boxes self ++ [box])
                         (current_line_position self)
                         (current_line_content self ++ [box])
                         (lines self))
          | _, _ => Raise TypeError
          end
      end
    else if (tag_type =? "ocr_line")%string then
      match current_line_position self with
      | Some line_position =>
          let line := LineBox.new (current_line_content self) line_position in
          Return (mk tag_types'
                     (current_box_position self)
                     (current_box_text self)
                     (current_box_confidence self)
                     (boxes self)
                     (current_line_position self)
                     []
                     (lines self ++ [line]))
      | None => Raise TypeError
      end
    else
      Return (mk tag_types'
                 (current_box_position self)
                 (current_box_text self)
                 (current_box_confidence self)
                 (boxes self)
                 (current_line_position self)
                 (current_line_content self)
                 (lines self)).

Definition dispatch (self : t) (ev : event) : result t :=
  match ev with
  | StartTag tag attrs => handle_starttag self tag attrs
  | Data data => Return (handle_data self data)
  | EndTag tag => handle_endtag self tag
  end.

(** [feed]: the handlers run in document order; the first exception
    ends the scan. *)
Fixpoint feed (self : t) (html : list event) : result t :=
  match html with
  | [] => Return self
  | ev :: rest => self' <- dispatch self ev ;; feed self' rest
  end.

End WordHTMLParser.

(** ** class _LineHTMLParser *)

(** [l.remove(x)]: drops the first occurrence, [ValueError] without one. *)
Fixpoint list_remove (x : string) (l : list string) : result (list string) :=
  match l with
  | [] => Raise ValueError
  | y :: r =>
      if (y =? x)%string then Return r
      else r' <- list_remove x r ;; Return (y :: r')
  end.

(** [min(l)] and [max(l)]; both raise [ValueError] on an empty list. *)
Definition py_min (l : list Z) : result Z :=
  match l with
  | [] => Raise ValueError
  | x :: r => Return (fold_left Z.min r x)
  end.

Definition py_max (l : list Z) : result Z :=
  match l with
  | [] => Raise ValueError
  | x :: r => Return (fold_left Z.max r x)
  end.

(** [range(start, 4 * n, 4)] for [start < 4]. *)
Definition range4 (start n : nat) : list nat :=
  map (fun k => (start + 4 * k)%nat) (seq 0 n).

Module LineHTMLParser.

Record t : Type := mk {
  boxes : list Box.t;
  line_text : option string;
  char_positions : option (list string)
}.

Definition __init__ : t := mk [] None None.

Definition TAG_TYPE_CONTENT : Z := 0.
Definition TAG_TYPE_POSITIONS : Z := 1.

(** The first [for attr in attrs] loop of [handle_starttag]. *)
Definition scan_class (attrs : list attr) : Z :=
  fold_left
    (fun (tag_type : Z) (a : attr) =>
       if (fst a =? "class")%string then
         match snd a with
         | Some v =>
             if (v =? "ocr_line")%string then TAG_TYPE_CONTENT
             else if (v =? "ocr_cinfo")%string then TAG_TYPE_POSITIONS
             else tag_type
         | None => tag_type
         end
       else tag_type)
    attrs (-1).

(** The second loop: every [title] attribute overwrites the list. *)
Fixpoint scan_title (attrs : list attr) (char_positions : option (list string))
  : result (option (list string)) :=
  match attrs with
  | [] => Return char_positions
  | a :: rest =>
      if (fst a =? "title")%string then
        match snd a with
        | Some v => scan_title rest (Some (split_space v))
        | None => Raise AttributeError
        end
      else scan_title rest char_positions
  end.

(** [while True: l.remove("-1")] until [ValueError]; every round
    shortens the list, so [fuel = length l] rounds are enough
    (lemma [remove_sentinels_filter]). *)
Fixpoint remove_sentinels (fuel : nat) (l : list string) : list string :=
  match fuel with
  | O => l
  | S fuel' =>
      match list_remove "-1" l with
      | Return l' => remove_sentinels fuel' l'
      | Raise _ => l
      end
  end.

Definition handle_starttag (self : t) (tag : string) (attrs : list attr) : result t :=
  if negb (tag =? "span")%string then Return self
  else
    let tag_type := scan_class attrs in
    if tag_type =? TAG_TYPE_CONTENT then
      Return (mk (boxes self) (Some (to_unicode "")) (Some []))
    else if tag_type =? TAG_TYPE_POSITIONS then
      char_positions <- scan_title attrs (char_positions self) ;;
      (* strip x_bboxes *)
      match char_positions with
      | None => Raise TypeError
      | Some char_positions =>
          let char_positions := tl char_positions in
          last <- match char_positions with
                  | [] => Raise IndexError
                  | _ => Return (List.last char_positions EmptyString)
                  end ;;
          (* the slice [char_positions[:-1]] is evaluated and dropped *)
          let _unused := if (last =? "")%string
                         then removelast char_positions
                         else char_positions in
          let char_positions :=
            remove_sentinels (length char_positions) char_positions in
          Return (mk (boxes self) (line_text self) (Some char_positions))
      end
    else Return self.

Definition handle_data (self : t) (data : string) : t :=
  match line_text self with
  | None => self
  | Some text => mk (boxes self) (Some (text ++ data)) (char_positions self)
  end.

(** [[int(positions[x]) for x in range(start, 4 * len(word), 4)]] *)
Definition column (positions : list string) (start n : nat) : result (list Z) :=
  mapM (fun x => p <- getitem positions x ;; int p) (range4 start n).

(** The [for word in words] loop of [handle_endtag]. *)
Fixpoint words_loop (words : list string) (char_positions : option (list string))
         (boxes : list Box.t) : result (option (list string) * list Box.t) :=
  match words with
  | [] => Return (char_positions, boxes)
  | word :: rest =>
      if (word =? "")%string then words_loop rest char_positions boxes
      else
        match char_positions with
        | None => Raise TypeError
        | Some cp =>
            let n := String.length word in
            let positions := firstn (4 * n) cp in
            let cp := skipn (4 * n) cp in
            lefts <- column positions 0 n ;; left_pos <- py_min lefts ;;
            tops <- column positions 1 n ;; top_pos <- py_min tops ;;
            rights <- column positions 2 n ;; right_pos <- py_max rights ;;
            bottoms <- column positions 3 n ;; bottom_pos <- py_max bottoms ;;
            let box_pos := ((left_pos, top_pos), (right_pos, bottom_pos)) in
            let box := Box.__init__ word box_pos Box.default_confidence in
            words_loop rest (Some cp) (boxes ++ [box])
        end
  end.

Definition positions_empty (char_positions : option (list string)) : bool :=
  match char_positions with
  | Some [] => true
  | _ => false
  end.

Definition handle_endtag (self : t) (tag : string) : result t :=
  match line_text self with
  | None => Return self
  | Some text =>
      if positions_empty (char_positions self) then Return self
      else
        let words := split_space text in
        r <- words_loop words (char_positions self) (boxes self) ;;
        let '(char_positions, boxes) := r in
        Return (mk boxes None char_positions)
  end.

Definition dispatch (self : t) (ev : event) : result t :=
  match ev with
  | StartTag tag attrs => handle_starttag self tag attrs
  | Data data => Return (handle_data self data)
  | EndTag tag => handle_endtag self tag
  end.

Fixpoint feed (self : t) (html : list event) : result t :=
  match html with
  | [] => Return self
  | ev :: rest => self' <- dispatch self ev ;; feed self' rest
  end.

End LineHTMLParser.

(** ** Serialization *)

(** [Box.get_xml_tag] *)
Definition Box_get_xml_tag (self : Box.t) : node :=
  Element "span"
          [("class", "ocrx_word"); ("title", Box.xml_title self)]
          [Text (Box.content self)].

(** What [feed] dispatches for the text [n.toxml()]: the open tag with its
    attributes, the children in order, the close tag.  An empty text node
    writes nothing and so yields no event. *)
Fixpoint node_events (n : node) : list event :=
  match n with
  | Element tag attrs children =>
      (StartTag tag (map (fun a => (fst a, Some (snd a))) attrs)
       :: flat_map node_events children ++ [EndTag tag])%list
  | Text data =>
      if (data =? "")%string then [] else [Data data]
  end.

(** What [feed] dispatches for the constant [_XHTML_HEADER]: the doctype
    declaration reaches no handler, [<meta ... />] is an open tag followed
    by a close tag. *)
Definition _XHTML_HEADER : list event :=
  [ Data nl;
    StartTag "html" [("xmlns", Some "http://www.w3.org/1999/xhtml")]; Data nl;
    StartTag "head" []; Data (nl ++ tab);
    StartTag "meta" [("http-equiv", Some "content-type");
                     ("content", Some "text/html; charset=utf-8")];
    EndTag "meta"; Data (nl ++ tab);
    StartTag "title" []; Data "OCR output"; EndTag "title"; Data nl;
    EndTag "head"; Data nl ].

(** The body of [if len(p.boxes) > 0:] in both [read_file] methods, up to
    the [return]: [p.boxes.pop(-1)] when the last box has empty content. *)
Definition pop_empty_last (boxes : list Box.t) : list Box.t :=
  match pop boxes with
  | Return (last_box, boxes') =>
      if (Box.content last_box =? to_unicode "")%string then boxes' else boxes
  | Raise _ => boxes
  end.

Module WordBoxBuilder.

Definition read_file (html_str : list event) : result (list Box.t) :=
  p <- WordHTMLParser.feed WordHTMLParser.__init__ html_str ;;
  if (0 <? length (WordHTMLParser.boxes p))%nat then
    Return (pop_empty_last (WordHTMLParser.boxes p))
  else
    p <- LineHTMLParser.feed LineHTMLParser.__init__ html_str ;;
    if (0 <? length (LineHTMLParser.boxes p))%nat then
      Return (pop_empty_last (LineHTMLParser.boxes p))
    else Return [].

(** The written file, as the event sequence it is read back as. *)
Definition write_file (boxes : list Box.t) : list event :=
  (_XHTML_HEADER
   ++ [StartTag "body" []; Data nl]
   ++ flat_map (fun box =>
                  [StartTag "p" []] ++ node_events (Box_get_xml_tag box)
                  ++ [EndTag "p"; Data nl])
               boxes
   ++ [EndTag "body"; Data nl; EndTag "html"; Data nl])%list.

End WordBoxBuilder.

Module LineBoxBuilder.

Definition read_file (html_str : list event) : result (list LineBox.t) :=
  parser <- WordHTMLParser.feed WordHTMLParser.__init__ html_str ;;
  if (0 <? length (WordHTMLParser.boxes parser))%nat then
    let _popped := pop_empty_last (WordHTMLParser.boxes parser) in
    Return (WordHTMLParser.lines parser)
  else
    parser <- LineHTMLParser.feed LineHTMLParser.__init__ html_str ;;
    if (0 <? length (LineHTMLParser.boxes parser))%nat then
      let boxes := pop_empty_last (LineHTMLParser.boxes parser) in
      Return (map (fun box => LineBox.new [box] (Box.position box)) boxes)
    else Return [].

End LineBoxBuilder.

(** ** class TextBuilder *)

Module TextBuilder.

Record t : Type := mk {
  file_extensions : list string;
  tesseract_flags : list string;
  tesseract_configs : list string;
  cuneiform_args : list string;
  tesseract_layout : Z;
  built_text : list string
}.

(** The [for par, arg in [...]] loop of [__init__]. *)
Definition add_cuneiform_args (cun_args : list string)
           (switches : list (bool * string)) : list string :=
  fold_left (fun (cun_args : list string) (sw : bool * string) =>
               if fst sw then (cun_args ++ [snd sw])%list else cun_args)
            switches cun_args.

Definition __init__ (tesseract_layout : Z)
           (cuneiform_dotmatrix cuneiform_fax cuneiform_singlecolumn : bool) : t :=
  let file_ext := ["txt"] in
  let tess_flags := ["-psm"; format_d tesseract_layout] in
  let cun_args := ["-f"; "text"] in
  let cun_args :=
    add_cuneiform_args cun_args
      [ (cuneiform_dotmatrix, "--dotmatrix");
        (cuneiform_fax, "--fax");
        (cuneiform_singlecolumn, "--singlecolumn") ] in
  mk file_ext tess_flags [] cun_args tesseract_layout [].

(** [read_file]: the whole content of the file, stripped. *)
Definition read_file (content : string) : string := strip content.

(** [write_file]: the content of the file after the write. *)
Definition write_file (text : string) : string := text.

Definition with_built_text (self : t) (built_text : list string) : t :=
  mk (file_extensions self) (tesseract_flags self) (tesseract_configs self)
     (cuneiform_args self) (tesseract_layout self) built_text.

Definition start_line (self : t) (box : rect) : t :=
  with_built_text self (built_text self ++ [""]).

(** [built_text[-1]] is read and updated in place; on an empty list the
    index raises. *)
Definition add_word (self : t) (word : string) (box : rect) (confidence : Z)
  : result t :=
  popped <- pop (built_text self) ;;
  let '(last, before) := popped in
  let last := if negb (last =? "")%string then last ++ " " else last in
  let last := last ++ word in
  Return (with_built_text self (before ++ [last])).

Definition end_line (self : t) : t := self.

Definition get_output (self : t) : string := join nl (built_text self).

End TextBuilder.

(** [DigitBuilder.__init__] *)
Definition DigitBuilder__init__ (tesseract_layout : Z) : TextBuilder.t :=
  let self := TextBuilder.__init__ tesseract_layout false false false in
  TextBuilder.mk (TextBuilder.file_extensions self)
                 (TextBuilder.tesseract_flags self)
                 (TextBuilder.tesseract_configs self ++ ["digits"])
                 (TextBuilder.cuneiform_args self)
                 (TextBuilder.tesseract_layout self)
                 (TextBuilder.built_text self).

(** ** The line builder's output interface *)

(** [LineBoxBuilder.start_line] on the builder's [lines]: no new line while
    the last one has empty content. *)
Definition LineBoxBuilder_start_line (lines : list LineBox.t) (box : rect)
  : list LineBox.t :=
  if (0 <? length lines)%nat
     && (match pop lines with
         | Return (last, _) => (LineBox.content last =? to_unicode "")%string
         | Raise _ => false
         end)
  then lines
  else (lines ++ [LineBox.new [] box])%list.

(** [LineBoxBuilder.add_word]: the word goes to the end of the last line. *)
Definition LineBoxBuilder_add_word (lines : list LineBox.t)
           (word : string) (box : rect) (confidence : Z)
  : result (list LineBox.t) :=
  popped <- pop lines ;;
  let '(last, before) := popped in
  Return (before
            ++ [LineBox.new (LineBox.word_boxes last
                               ++ [Box.__init__ word box confidence])
                            (LineBox.position last)])%list.

(** [WordBoxBuilder.add_word] on the builder's [word_boxes]. *)
Definition WordBoxBuilder_add_word (word_boxes : list Box.t)
           (word : string) (box : rect) (confidence : Z) : list Box.t :=
  (word_boxes ++ [Box.__init__ word box confidence])%list.

(** A call of the output interface ("used with Libtesseract"). *)
Inductive call : Type :=
| StartLine (box : rect)
| AddWord (word : string) (box : rect) (confidence : Z)
| EndLine.

(** A sequence of interface calls on a text builder. *)
Fixpoint TextBuilder_run (self : TextBuilder.t) (calls : list call)
  : result TextBuilder.t :=
  match calls with
  | [] => Return self
  | StartLine box :: rest => TextBuilder_run (TextBuilder.start_line self box) rest
  | AddWord word box confidence :: rest =>
      self' <- TextBuilder.add_word self word box confidence ;;
      TextBuilder_run self' rest
  | EndLine :: rest => TextBuilder_run (TextBuilder.end_line self) rest
  end.

(** A sequence of interface calls on a line builder's [lines]. *)
Fixpoint LineBoxBuilder_run (lines : list LineBox.t) (calls : list call)
  : result (list LineBox.t) :=
  match calls with
  | [] => Return lines
  | StartLine box :: rest =>
      LineBoxBuilder_run (LineBoxBuilder_start_line lines box) rest
  | AddWord word box confidence :: rest =>
      lines' <- LineBoxBuilder_add_word lines word box confidence ;;
      LineBoxBuilder_run lines' rest
  | EndLine :: rest => LineBoxBuilder_run lines rest
  end.

(** The calls that hand over one line of words: [start_line], one
    [add_word] per word, [end_line]. *)
Definition line_calls (box : rect) (words : list string) : list call :=
  (StartLine box :: map (fun w => AddWord w box 0) words ++ [EndLine])%list.

(** ** Serialization of lines and boxes *)

(** [Box.get_unicode_string]: ["%s %d %d %d %d"]. *)
Definition Box_get_unicode_string (self : Box.t) : string :=
  Box.content self ++ " "
    ++ format_d (fst (fst (Box.position self))) ++ " "
    ++ format_d (snd (fst (Box.position self))) ++ " "
    ++ format_d (fst (snd (Box.position self))) ++ " "
    ++ format_d (snd (snd (Box.position self))).

(** [LineBox.get_unicode_string] *)
Definition LineBox_get_unicode_string (self : LineBox.t) : string :=
  let txt := "[" ++ nl in
  let txt :=
    fold_left (fun txt box => txt ++ ("  " ++ Box_get_unicode_string box ++ nl))
              (LineBox.word_boxes self) txt in
  txt ++ "] "
      ++ format_d (fst (fst (LineBox.position self))) ++ " "
      ++ format_d (snd (fst (LineBox.position self))) ++ " "
      ++ format_d (fst (snd (LineBox.position self))) ++ " "
      ++ format_d (snd (snd (LineBox.position self))).

(** The title attribute written by [LineBox.get_xml_tag]. *)
Definition LineBox_xml_title (self : LineBox.t) : string :=
  "bbox " ++ format_d (fst (fst (LineBox.position self))) ++ " "
          ++ format_d (snd (fst (LineBox.position self))) ++ " "
          ++ format_d (fst (snd (LineBox.position self))) ++ " "
          ++ format_d (snd (snd (LineBox.position self))).

(** [LineBox.get_xml_tag]: a space text node before every word span. *)
Definition LineBox_get_xml_tag (self : LineBox.t) : node :=
  Element "span"
          [("class", "ocr_line"); ("title", LineBox_xml_title self)]
          (flat_map (fun box => [Text " "; Box_get_xml_tag box])
                    (LineBox.word_boxes self)).

(** [LineBoxBuilder.write_file], as the event sequence the written file is
    read back as. *)
Definition LineBoxBuilder_write_file (boxes : list LineBox.t) : list event :=
  (_XHTML_HEADER
   ++ [StartTag "body" []; Data nl]
   ++ flat_map (fun box =>
                  [StartTag "p" []] ++ node_events (LineBox_get_xml_tag box)
                  ++ [EndTag "p"; Data nl])
               boxes
   ++ [EndTag "body"; Data nl; EndTag "html"; Data nl])%list.

(** ** Reference definitions the code is compared with *)

(** The ordering key of a rectangle: [(top.y, bottom.y, top.x, bottom.x)]. *)
Definition sort_key (p : rect) : Z * Z * Z * Z :=
  (snd (fst p), snd (snd p), fst (fst p), fst (snd p)).

(** Lexicographic comparison of two 4-tuples of integers. *)
Definition tuple_compare (k1 k2 : Z * Z * Z * Z) : comparison :=
  let '(a1, a2, a3, a4) := k1 in
  let '(b1, b2, b3, b4) := k2 in
  match a1 ?= b1 with
  | Eq => match a2 ?= b2 with
          | Eq => match a3 ?= b3 with
                  | Eq => a4 ?= b4
                  | c => c
                  end
          | c => c
          end
  | c => c
  end.

Definition is_lt (c : comparison) : bool := match c with Lt => true | _ => false end.
Definition is_eq (c : comparison) : bool := match c with Eq => true | _ => false end.
Definition is_gt (c : comparison) : bool := match c with Gt => true | _ => false end.

(** The integer a comparator returns for an order. *)
Definition cmp_value (c : comparison) : Z :=
  match c with Lt => -1 | Eq => 0 | Gt => 1 end.

Definition exactly_one (a b c : bool) : Prop :=
  (a = true /\ b = false /\ c = false)
  \/ (a = false /\ b = true /\ c = false)
  \/ (a = false /\ b = false /\ c = true).

(** Four coordinates, each reduced to one byte, laid side by side in a
    32-bit value: [left] in bits 0-7, [top] in 8-15, [right] in 16-23,
    [bottom] in 24-31. *)
Definition pack_bytes (p : rect) : Z :=
  (fst (fst p) mod 256)
  + 256 * (snd (fst p) mod 256)
  + 65536 * (fst (snd p) mod 256)
  + 16777216 * (snd (snd p) mod 256).

(** No attribute of the list is named [title]. *)
Definition no_title (attrs : list attr) : bool :=
  forallb (fun a : attr => negb (fst a =? "title")%string) attrs.

(** A coordinate token other than the sentinel ["-1"]. *)
Definition not_sentinel (tok : string) : bool := negb (tok =? "-1")%string.

(** Some piece of [title.split("; ")], once stripped, starts with
    ["bbox"]: the title carries a bbox token. *)
Definition has_bbox (title : string) : bool :=
  existsb (fun piece => startswith (strip piece) "bbox") (split_semi_space title).

(** The word parser after a tag was pushed as ["ignore"]. *)
Definition push_ignore (self : WordHTMLParser.t) : WordHTMLParser.t :=
  WordHTMLParser.mk (WordHTMLParser.tag_types self ++ ["ignore"])
                    (WordHTMLParser.current_box_position self)
                    (WordHTMLParser.current_box_text self)
                    (WordHTMLParser.current_box_confidence self)
                    (WordHTMLParser.boxes self)
                    (WordHTMLParser.current_line_position self)
                    (WordHTMLParser.current_line_content self)
                    (WordHTMLParser.lines self).

(** The fields the close handlers read are set: an open word buffer comes
    with a position and a confidence, a pushed ["ocr_line"] with a line
    position. *)
Definition wellformed (st : WordHTMLParser.t) : Prop :=
  (WordHTMLParser.current_box_text st <> None ->
   WordHTMLParser.current_box_position st <> None
   /\ WordHTMLParser.current_box_confidence st <> None)
  /\ (In "ocr_line" (WordHTMLParser.tag_types st) ->
      WordHTMLParser.current_line_position st <> None).

(** Two lines, the second holding one word with empty text:
[[
<span class="ocr_line" title="bbox 0 0 100 20"><span class="ocrx_word"
 title="bbox 0 0 40 20; x_wconf 90">Hello</span></span><span
 class="ocr_line" title="bbox 0 30 100 50"><span class="ocrx_word"
 title="bbox 0 30 40 50; x_wconf 0"></span></span>
]] *)
Definition doc_empty_last_word : list event :=
  [ StartTag "span" [("class", Some "ocr_line"); ("title", Some "bbox 0 0 100 20")];
    StartTag "span" [("class", Some "ocrx_word");
                     ("title", Some "bbox 0 0 40 20; x_wconf 90")];
    Data "Hello"; EndTag "span"; EndTag "span";
    StartTag "span" [("class", Some "ocr_line"); ("title", Some "bbox 0 30 100 50")];
    StartTag "span" [("class", Some "ocrx_word");
                     ("title", Some "bbox 0 30 40 50; x_wconf 0")];
    EndTag "span"; EndTag "span" ].

(** The coordinates of one character: [(x1, y1, x2, y2)]. *)
Definition quad : Type := Z * Z * Z * Z.

Definition qx1 (q : quad) : Z := let '(x1, _, _, _) := q in x1.
Definition qy1 (q : quad) : Z := let '(_, y1, _, _) := q in y1.
Definition qx2 (q : quad) : Z := let '(_, _, x2, _) := q in x2.
Definition qy2 (q : quad) : Z := let '(_, _, _, y2) := q in y2.

Definition quad_list (q : quad) : list Z := [qx1 q; qy1 q; qx2 q; qy2 q].

(** The rectangle around the characters [q :: rest]: smallest [x1] and
    [y1], largest [x2] and [y2]. *)
Definition bounding_box (q : quad) (rest : list quad) : rect :=
  ((fold_right Z.min (qx1 q) (map qx1 rest),
    fold_right Z.min (qy1 q) (map qy1 rest)),
   (fold_right Z.max (qx2 q) (map qx2 rest),
    fold_right Z.max (qy2 q) (map qy2 rest))).

(** One box per non-empty word, each taking as many quadruples as it has
    characters from the front of what the words before it left. *)
Fixpoint word_boxes_spec (words : list string) (quads : list quad) : list Box.t :=
  match words with
  | [] => []
  | w :: ws =>
      match firstn (String.length w) quads with
      | [] => word_boxes_spec ws quads
      | q :: qs =>
          Box.new w (bounding_box q qs) 0
          :: word_boxes_spec ws (skipn (String.length w) quads)
      end
  end.

(** The number of characters of a text other than the space. *)
Fixpoint nonspace_count (s : string) : nat :=
  match s with
  | EmptyString => 0
  | String c s' => if (c =? " ")%char then nonspace_count s'
                   else S (nonspace_count s')
  end.

(** The number of characters in a list of words. *)
Definition letters (words : list string) : nat :=
  fold_right (fun w n => (String.length w + n)%nat) 0%nat words.

Definition nonempty (w : string) : bool := negb (w =? "")%string.

(** A line whose positions region holds sentinels only, so that no
    quadruple is left for the two characters of the text:
[[
<span class="ocr_line" title="bbox 0 0 10 10">Hi<span class="ocr_cinfo"
 title="x_bboxes -1 -1 -1 -1 -1 -1 -1 -1"></span></span>
]] *)
Definition doc_no_quadruple : list event :=
  [ StartTag "span" [("class", Some "ocr_line"); ("title", Some "bbox 0 0 10 10")];
    Data "Hi";
    StartTag "span" [("class", Some "ocr_cinfo");
                     ("title", Some "x_bboxes -1 -1 -1 -1 -1 -1 -1 -1")];
    EndTag "span"; EndTag "span" ].

(** A line of three characters with the quadruples of two:
[[
<span class="ocr_line" title="bbox 0 0 10 10">Hi x<span class="ocr_cinfo"
 title="x_bboxes 1 2 3 4 5 6 7 8 -1 -1 -1 -1"></span></span>
]] *)
Definition doc_short_open : list event :=
  [ StartTag "span" [("class", Some "ocr_line"); ("title", Some "bbox 0 0 10 10")];
    Data "Hi x";
    StartTag "span" [("class", Some "ocr_cinfo");
                     ("title", Some "x_bboxes 1 2 3 4 5 6 7 8 -1 -1 -1 -1")] ].

(** Every character of a string passes a test. *)
Fixpoint all_chars (p : ascii -> bool) (s : string) : bool :=
  match s with
  | EmptyString => true
  | String c s' => p c && all_chars p s'
  end.

Definition is_digit (c : ascii) : bool :=
  match digit_val c with
  | Some _ => true
  | None => false
  end.

(** The characters ["%d"] can write: a digit or the minus sign. *)
Definition is_num_char (c : ascii) : bool := is_digit c || (c =? "-")%char.

Definition not_space (c : ascii) : bool := negb (c =? " ")%char.
Definition not_semicolon (c : ascii) : bool := negb (c =? ";")%char.
Definition not_isspace (c : ascii) : bool := negb (isspace c).

(** [l1 == l2] on lists of boxes: same length and [==] element by
    element, which looks at the rectangles only. *)
Fixpoint boxes_eq (l1 l2 : list Box.t) : bool :=
  match l1, l2 with
  | [], [] => true
  | a :: r1, b :: r2 => Box.__eq__ a (Some b) && boxes_eq r1 r2
  | _, _ => false
  end.

(** The trailing-empty-region rule: a last box with empty text is left
    out, everything else is kept. *)
Fixpoint drop_empty_last (boxes : list Box.t) : list Box.t :=
  match boxes with
  | [] => []
  | [b] => if (Box.content b =? "")%string then [] else [b]
  | b :: rest => b :: drop_empty_last rest
  end.

(** The events one box is written as: [<p>], the span, [</p>] and the
    line break. *)
Definition box_events (box : Box.t) : list event :=
  ([StartTag "p" []] ++ node_events (Box_get_xml_tag box)
   ++ [EndTag "p"; Data nl])%list.

(** The word parser after one more word box was closed. *)
Definition after_box (st : WordHTMLParser.t) (b : Box.t) : WordHTMLParser.t :=
  WordHTMLParser.mk (WordHTMLParser.tag_types st)
                    (Some (Box.position b))
                    None
                    (Some (Box.confidence b))
                    (WordHTMLParser.boxes st ++ [b])
                    (WordHTMLParser.current_line_position st)
                    (WordHTMLParser.current_line_content st ++ [b])
                    (WordHTMLParser.lines st).

(** The strict lexicographic order on keys, spelled out. *)
Definition lex_lt (k1 k2 : Z * Z * Z * Z) : Prop :=
  let '(a1, a2, a3, a4) := k1 in
  let '(b1, b2, b3, b4) := k2 in
  a1 < b1
  \/ (a1 = b1
      /\ (a2 < b2
          \/ (a2 = b2
              /\ (a3 < b3
                  \/ (a3 = b3 /\ a4 < b4))))).

(** The text of one line after the words were added to it one by one. *)
Fixpoint glue (acc : string) (words : list string) : string :=
  match words with
  | [] => acc
  | w :: ws =>
      glue ((if negb (acc =? "")%string then acc ++ " " else acc) ++ w) ws
  end.

(** Every line before the last one has text. *)
Definition earlier_lines_nonempty (lines : list LineBox.t) : Prop :=
  Forall (fun l => LineBox.content l <> "") (removelast lines).

(** Some piece of [title.split("; ")], once stripped, starts with
    ["x_wconf"]: the title carries a confidence. *)
Definition has_wconf (title : string) : bool :=
  existsb (fun piece => startswith (strip piece) "x_wconf")
          (split_semi_space title).

(** An event that is not the open or close tag of a [span]. *)
Definition non_span (ev : event) : Prop :=
  match ev with
  | StartTag tag _ | EndTag tag => (tag =? "span")%string = false
  | Data _ => True
  end.

(** The line a word becomes in [LineBoxBuilder.read_file] for the
    character dialect. *)
Definition one_word_line (box : Box.t) : LineBox.t :=
  LineBox.new [box] (Box.position box).

(** The character-dialect line ["Hi x"] with a quadruple per letter:
[[
<span class="ocr_line" title="bbox 0 0 20 10">Hi x<span class="ocr_cinfo"
 title="x_bboxes 1 2 3 4 5 1 7 9 -1 -1 -1 -1 10 11 12 13"></span></span>
]] *)
Definition doc_hi_x : list event :=
  [ StartTag "span" [("class", Some "ocr_line"); ("title", Some "bbox 0 0 20 10")];
    Data "Hi x";
    StartTag "span"
             [("class", Some "ocr_cinfo");
              ("title", Some "x_bboxes 1 2 3 4 5 1 7 9 -1 -1 -1 -1 10 11 12 13")];
    EndTag "span"; EndTag "span" ].

(** Every word held by a closed line or by the line being built is in the
    flat list of boxes. *)
Definition line_words_in_boxes (st : WordHTMLParser.t) : Prop :=
  forall b : Box.t,
    In b (flat_map LineBox.word_boxes (WordHTMLParser.lines st))
    \/ In b (WordHTMLParser.current_line_content st) ->
    In b (WordHTMLParser.boxes st).

(** What a box made by the character dialect looks like: text that is not
    empty and has no space, confidence 0. *)
Definition char_dialect_box (b : Box.t) : Prop :=
  Box.content b <> ""
  /\ all_chars not_space (Box.content b) = true
  /\ Box.confidence b = 0.

(** The events one line is written as: [<p>], the line span with its
    words, [</p>] and the line break. *)
Definition line_events (l : LineBox.t) : list event :=
  ([StartTag "p" []] ++ node_events (LineBox_get_xml_tag l)
   ++ [EndTag "p"; Data nl])%list.

(** The events of the children of a line span. *)
Definition line_children_events (word_boxes : list Box.t) : list event :=
  flat_map node_events
           (flat_map (fun box => [Text " "; Box_get_xml_tag box]) word_boxes).

(** An event that is not the open tag of a positions region. *)
Definition not_cinfo (ev : event) : Prop :=
  match ev with
  | StartTag tag attrs =>
      (tag =? "span")%string = false
      \/ LineHTMLParser.scan_class attrs <> LineHTMLParser.TAG_TYPE_POSITIONS
  | _ => True
  end.

(** The character-dialect parser has made no box and cannot make one at
    the next close tag. *)
Definition line_idle (st : LineHTMLParser.t) : Prop :=
  LineHTMLParser.boxes st = []
  /\ (LineHTMLParser.line_text st = None
      \/ LineHTMLParser.char_positions st = Some []).

(** A sequence of interface calls on a word builder's [word_boxes];
    [start_line] and [end_line] do nothing there. *)
Fixpoint WordBoxBuilder_run (word_boxes : list Box.t) (calls : list call)
  : list Box.t :=
  match calls with
  | [] => word_boxes
  | AddWord word box confidence :: rest =>
      WordBoxBuilder_run (WordBoxBuilder_add_word word_boxes word box confidence)
                         rest
  | _ :: rest => WordBoxBuilder_run word_boxes rest
  end.

(** ** Properties *)

(** *** Strings *)

Lemma rstrip_app_space (s : string) : rstrip (s ++ " ") = rstrip s.
Proof.
  induction s as [|c s IH]; simpl.
  - reflexivity.
  - now rewrite IH.
Qed.

Lemma strip_app_space (s : string) : strip (s ++ " ") = strip s.
Proof.
  unfold strip.
  induction s as [|c s IH]; simpl.
  - reflexivity.
  - destruct (isspace c).
    + exact IH.
    + change (String c (s ++ " ")) with (String c s ++ " ").
      apply rstrip_app_space.
Qed.

Lemma append_assoc (a b c : string) : (a ++ b) ++ c = a ++ (b ++ c).
Proof.
  induction a as [|x a IH]; simpl; [reflexivity | now rewrite IH].
Qed.

Lemma append_empty_r (a : string) : a ++ "" = a.
Proof.
  induction a as [|x a IH]; simpl; [reflexivity | now rewrite IH].
Qed.

(** *** Ordering and equality of regions *)

Lemma cmp_step (x y r : Z) :
  (if x <? y then -1 else if x >? y then 1 else r)
  = match x ?= y with Lt => -1 | Gt => 1 | Eq => r end.
Proof.
  unfold Z.ltb, Z.gtb. now destruct (x ?= y).
Qed.

Lemma Box_cmp_tuple (a b : Box.t) :
  Box.__box_cmp a (Some b)
  = cmp_value (tuple_compare (sort_key (Box.position a)) (sort_key (Box.position b))).
Proof.
  unfold Box.__box_cmp, sort_key, tuple_compare, Box.cmp_loop.
  rewrite !cmp_step.
  repeat match goal with |- context [?x ?= ?y] => destruct (x ?= y) end;
    reflexivity.
Qed.

Lemma LineBox_cmp_tuple (a b : LineBox.t) :
  LineBox.__box_cmp a (Some b)
  = cmp_value (tuple_compare (sort_key (LineBox.position a))
                             (sort_key (LineBox.position b))).
Proof.
  unfold LineBox.__box_cmp, sort_key, tuple_compare, LineBox.cmp_loop.
  rewrite !cmp_step.
  repeat match goal with |- context [?x ?= ?y] => destruct (x ?= y) end;
    reflexivity.
Qed.

Lemma tuple_compare_eq (p q : rect) :
  tuple_compare (sort_key p) (sort_key q) = Eq <-> p = q.
Proof.
  destruct p as [[x0 y0] [x1 y1]], q as [[u0 v0] [u1 v1]].
  unfold sort_key, tuple_compare; simpl.
  split.
  - destruct (Z.compare_spec y0 v0); try discriminate.
    destruct (Z.compare_spec y1 v1); try discriminate.
    destruct (Z.compare_spec x0 u0); try discriminate.
    destruct (Z.compare_spec x1 u1); try discriminate.
    intros _. congruence.
  - intros E. injection E as -> -> -> ->.
    now rewrite !Z.compare_refl.
Qed.

(** C1, as the code has it: comparing any region with [None] answers
    [-1], so [region < None] and [region <= None] are true,
    [region > None], [region >= None] and [region == None] are false,
    and [region != None] is true. *)
Theorem region_vs_None (b : Box.t) (l : LineBox.t) :
  (Box.__lt__ b None = true /\ Box.__gt__ b None = false
   /\ Box.__ne__ b None = true /\ Box.__eq__ b None = false
   /\ Box.__le__ b None = true /\ Box.__ge__ b None = false)
  /\ (LineBox.__lt__ l None = true /\ LineBox.__gt__ l None = false
      /\ LineBox.__ne__ l None = true /\ LineBox.__eq__ l None = false
      /\ LineBox.__le__ l None = true /\ LineBox.__ge__ l None = false).
Proof.
  repeat split; reflexivity.
Qed.

(** C1 as stated fails: for the box ["a"] at [((0,0),(1,1))],
    [box < None] is true and [box > None] is false. *)
Lemma region_vs_None_counterexample :
  ~ (Box.__lt__ (Box.new "a" ((0, 0), (1, 1)) 0) None = false
     /\ Box.__gt__ (Box.new "a" ((0, 0), (1, 1)) 0) None = true
     /\ Box.__ne__ (Box.new "a" ((0, 0), (1, 1)) 0) None = true).
Proof.
  intros [H _]. discriminate H.
Qed.

Lemma cmp_value_ops (c : comparison) :
  (cmp_value c <? 0) = is_lt c
  /\ (cmp_value c =? 0) = is_eq c
  /\ (cmp_value c >? 0) = is_gt c
  /\ (cmp_value c <=? 0) = negb (is_gt c)
  /\ (cmp_value c >=? 0) = negb (is_lt c).
Proof.
  destruct c; repeat split; reflexivity.
Qed.

Lemma exactly_one_comparison (c : comparison) :
  exactly_one (is_lt c) (is_eq c) (is_gt c).
Proof.
  unfold exactly_one. destruct c; simpl; tauto.
Qed.

(** C2: between two regions, every comparison operator answers as the
    lexicographic order of the keys [(top.y, bottom.y, top.x, bottom.x)]
    does, and exactly one of [a < b], [a == b], [a > b] is true.  The same
    holds for [Box] and for [LineBox]. *)
Theorem region_order_lexicographic (a b : Box.t) (la lb : LineBox.t) :
  let c := tuple_compare (sort_key (Box.position a)) (sort_key (Box.position b)) in
  let lc := tuple_compare (sort_key (LineBox.position la))
                          (sort_key (LineBox.position lb)) in
  (Box.__lt__ a (Some b) = is_lt c
   /\ Box.__eq__ a (Some b) = is_eq c
   /\ Box.__gt__ a (Some b) = is_gt c
   /\ Box.__le__ a (Some b) = negb (is_gt c)
   /\ Box.__ge__ a (Some b) = negb (is_lt c)
   /\ Box.__ne__ a (Some b) = negb (is_eq c)
   /\ exactly_one (Box.__lt__ a (Some b)) (Box.__eq__ a (Some b))
                  (Box.__gt__ a (Some b)))
  /\ (LineBox.__lt__ la (Some lb) = is_lt lc
      /\ LineBox.__eq__ la (Some lb) = is_eq lc
      /\ LineBox.__gt__ la (Some lb) = is_gt lc
      /\ LineBox.__le__ la (Some lb) = negb (is_gt lc)
      /\ LineBox.__ge__ la (Some lb) = negb (is_lt lc)
      /\ LineBox.__ne__ la (Some lb) = negb (is_eq lc)
      /\ exactly_one (LineBox.__lt__ la (Some lb)) (LineBox.__eq__ la (Some lb))
                     (LineBox.__gt__ la (Some lb))).
Proof.
  intros c lc.
  unfold Box.__lt__, Box.__eq__, Box.__gt__, Box.__le__, Box.__ge__, Box.__ne__,
    LineBox.__lt__, LineBox.__eq__, LineBox.__gt__, LineBox.__le__,
    LineBox.__ge__, LineBox.__ne__.
  rewrite Box_cmp_tuple, LineBox_cmp_tuple.
  fold c lc.
  destruct (cmp_value_ops c) as (L & E & G & LE & GE).
  destruct (cmp_value_ops lc) as (L' & E' & G' & LE' & GE').
  rewrite L, E, G, LE, GE, L', E', G', LE', GE'.
  repeat split; auto using exactly_one_comparison.
Qed.

(** *** Hashing *)

Lemma land_255 (x : Z) : Z.land x 255 = x mod 256.
Proof.
  change 255 with (Z.ones 8). now rewrite Z.land_ones by lia.
Qed.

Lemma position_hash_pack (p : rect) :
  0 + Z.shiftl (Z.land (fst (fst p)) 255) 0
    + Z.shiftl (Z.land (snd (fst p)) 255) 8
    + Z.shiftl (Z.land (fst (snd p)) 255) 16
    + Z.shiftl (Z.land (snd (snd p)) 255) 24
  = pack_bytes p.
Proof.
  unfold pack_bytes. rewrite !land_255, !Z.shiftl_mul_pow2 by lia.
  change (2 ^ 0) with 1. change (2 ^ 8) with 256.
  change (2 ^ 16) with 65536. change (2 ^ 24) with 16777216. lia.
Qed.

Lemma pack_bytes_range (p : rect) : 0 <= pack_bytes p < 2 ^ 32.
Proof.
  unfold pack_bytes.
  pose proof (Z.mod_pos_bound (fst (fst p)) 256 ltac:(lia)).
  pose proof (Z.mod_pos_bound (snd (fst p)) 256 ltac:(lia)).
  pose proof (Z.mod_pos_bound (fst (snd p)) 256 ltac:(lia)).
  pose proof (Z.mod_pos_bound (snd (snd p)) 256 ltac:(lia)).
  change (2 ^ 32) with 4294967296. lia.
Qed.

Lemma lxor_twice (x h : Z) : Z.lxor (Z.lxor x h) h = x.
Proof.
  now rewrite Z.lxor_assoc, Z.lxor_nilpotent, Z.lxor_0_r.
Qed.

Section Hashing.

(** Python's built-in [hash] on strings; nothing is assumed of it. *)
Variable hash : string -> Z.

Lemma Box_hash_pack (a : Box.t) :
  Box.__hash__ hash a = pack_bytes (Box.position a).
Proof.
  unfold Box.__hash__. cbv zeta.
  now rewrite lxor_twice, position_hash_pack.
Qed.

Lemma LineBox_hash_pack (a : LineBox.t) :
  LineBox.__hash__ hash a = pack_bytes (LineBox.position a).
Proof.
  unfold LineBox.__hash__. cbv zeta.
  now rewrite lxor_twice, position_hash_pack.
Qed.

(** C3: two regions with the same rectangle are equal under [==] and
    have the same hash, whatever their text; the hash is the 32-bit
    value that packs the four coordinates, each masked to one byte,
    and the hash of the content cancels out.  The same holds for [Box]
    and for [LineBox]. *)
Theorem equality_and_hash_geometric
        (a b : Box.t) (la lb : LineBox.t)
        (Hbox : Box.position a = Box.position b)
        (Hline : LineBox.position la = LineBox.position lb) :
  (Box.__eq__ a (Some b) = true
   /\ Box.__hash__ hash a = Box.__hash__ hash b
   /\ Box.__hash__ hash a = pack_bytes (Box.position a)
   /\ 0 <= Box.__hash__ hash a < 2 ^ 32)
  /\ (LineBox.__eq__ la (Some lb) = true
      /\ LineBox.__hash__ hash la = LineBox.__hash__ hash lb
      /\ LineBox.__hash__ hash la = pack_bytes (LineBox.position la)
      /\ 0 <= LineBox.__hash__ hash la < 2 ^ 32).
Proof.
  assert (Eb : Box.__eq__ a (Some b) = true).
  { unfold Box.__eq__. rewrite Box_cmp_tuple.
    apply tuple_compare_eq in Hbox. now rewrite Hbox. }
  assert (El : LineBox.__eq__ la (Some lb) = true).
  { unfold LineBox.__eq__. rewrite LineBox_cmp_tuple.
    apply tuple_compare_eq in Hline. now rewrite Hline. }
  rewrite !Box_hash_pack, !LineBox_hash_pack, Hbox, Hline.
  repeat split; auto; apply pack_bytes_range.
Qed.

End Hashing.

Lemma equality_and_hash_geometric_witness :
  let hash := fun s : string => Z.of_nat (String.length s) + 7 in
  let a := Box.new "left" ((1, 2), (300, 4)) 90 in
  let b := Box.new "right!" ((1, 2), (300, 4)) 10 in
  let la := LineBox.new [a] ((0, -2), (300, 4)) in
  let lb := LineBox.new [b; a] ((0, -2), (300, 4)) in
  (Box.position a = Box.position b /\ LineBox.position la = LineBox.position lb)
  /\ (Box.__eq__ a (Some b) = true
      /\ Box.__hash__ hash a = Box.__hash__ hash b
      /\ Box.__hash__ hash a = pack_bytes (Box.position a)
      /\ 0 <= Box.__hash__ hash a < 2 ^ 32)
  /\ (LineBox.__eq__ la (Some lb) = true
      /\ LineBox.__hash__ hash la = LineBox.__hash__ hash lb
      /\ LineBox.__hash__ hash la = pack_bytes (LineBox.position la)
      /\ 0 <= LineBox.__hash__ hash la < 2 ^ 32).
Proof.
  intros hash a b la lb.
  split; [split; reflexivity |].
  apply (equality_and_hash_geometric hash a b la lb); reflexivity.
Defined.

(** *** The derived content of a line *)

Lemma fold_left_append_content (l : list Box.t) (acc : string) :
  l <> [] ->
  fold_left (fun txt box => txt ++ (Box.content box ++ to_unicode " ")) l acc
  = acc ++ join " " (map Box.content l) ++ " ".
Proof.
  revert acc. induction l as [|b l IH]; intros acc Hne; [congruence |].
  destruct l as [|b' l].
  - reflexivity.
  - change (fold_left (fun txt box => txt ++ (Box.content box ++ to_unicode " "))
                      (b :: b' :: l) acc)
      with (fold_left (fun txt box => txt ++ (Box.content box ++ to_unicode " "))
                      (b' :: l) (acc ++ (Box.content b ++ to_unicode " "))).
    rewrite IH by discriminate.
    change (join " " (map Box.content (b :: b' :: l)))
      with (Box.content b ++ " " ++ join " " (map Box.content (b' :: l))).
    unfold to_unicode. now rewrite !append_assoc.
Qed.

(** C9: reading [content] of a line gives the children's contents joined
    by single spaces and then stripped.  The value is a function of the
    current [word_boxes] alone (the record has no stored content and no
    way to assign one), so after a word is appended the next read joins
    the longer sequence. *)
Theorem linebox_content_join (l : LineBox.t) (b : Box.t) :
  LineBox.content l = strip (join " " (map Box.content (LineBox.word_boxes l)))
  /\ LineBox.content (LineBox.new (LineBox.word_boxes l ++ [b]) (LineBox.position l))
     = strip (join " " (map Box.content (LineBox.word_boxes l) ++ [Box.content b])).
Proof.
  assert (G : forall wbs pos,
             LineBox.content (LineBox.new wbs pos)
             = strip (join " " (map Box.content wbs))).
  { intros wbs pos. unfold LineBox.content, LineBox.__get_content; simpl.
    destruct wbs as [|w wbs]; [reflexivity |].
    rewrite fold_left_append_content by discriminate.
    unfold to_unicode. rewrite <- append_assoc.
    apply strip_app_space. }
  split.
  - destruct l as [wbs pos]. apply G.
  - rewrite G, map_app. reflexivity.
Qed.

(** *** The positions region of the character dialect *)

Lemma list_remove_raise (x : string) (l : list string) (e : exn) :
  list_remove x l = Raise e ->
  filter (fun t => negb (t =? x)%string) l = l.
Proof.
  revert e. induction l as [|y l IH]; simpl; intros e H; [reflexivity |].
  destruct (y =? x)%string; [discriminate |]. simpl.
  destruct (list_remove x l) as [r|e'] eqn:E; [discriminate |].
  f_equal. now apply (IH e').
Qed.

Lemma list_remove_return (x : string) (l l' : list string) :
  list_remove x l = Return l' ->
  length l = S (length l')
  /\ filter (fun t => negb (t =? x)%string) l'
     = filter (fun t => negb (t =? x)%string) l.
Proof.
  revert l'. induction l as [|y l IH]; simpl; intros l' H; [discriminate |].
  destruct (y =? x)%string eqn:Eyx.
  - injection H as <-. simpl. split; reflexivity.
  - destruct (list_remove x l) as [r|e'] eqn:E; [|discriminate].
    injection H as <-. destruct (IH r eq_refl) as [Hl Hf].
    simpl. rewrite Eyx, Hf, Hl. simpl. split; reflexivity.
Qed.

(** With at least [length l] rounds the removal loop ends on its own
    [ValueError] and leaves exactly the tokens other than ["-1"]. *)
Lemma remove_sentinels_filter (fuel : nat) (l : list string) :
  (length l <= fuel)%nat ->
  LineHTMLParser.remove_sentinels fuel l = filter not_sentinel l.
Proof.
  revert l. induction fuel as [|fuel IH]; intros l Hlen.
  - destruct l; [reflexivity | simpl in Hlen; lia].
  - simpl. destruct (list_remove "-1" l) as [l'|e] eqn:E.
    + destruct (list_remove_return _ _ _ E) as [Hl Hf].
      rewrite IH by lia. exact Hf.
    + symmetry. exact (list_remove_raise _ _ _ E).
Qed.

Lemma scan_title_none (attrs : list attr) (cp : option (list string)) :
  no_title attrs = true ->
  LineHTMLParser.scan_title attrs cp = Return cp.
Proof.
  induction attrs as [|a attrs IH]; simpl; intros H; [reflexivity |].
  apply andb_prop in H as [Ha H].
  destruct (fst a =? "title")%string; [discriminate |]. now apply IH.
Qed.

Lemma scan_title_one (pre post : list attr) (title : string)
      (cp : option (list string)) :
  no_title pre = true -> no_title post = true ->
  LineHTMLParser.scan_title (pre ++ ("title", Some title) :: post) cp
  = Return (Some (split_space title)).
Proof.
  intros Hpre Hpost. induction pre as [|a pre IH]; simpl.
  - now apply scan_title_none.
  - simpl in Hpre. apply andb_prop in Hpre as [Ha Hpre].
    destruct (fst a =? "title")%string; [discriminate |]. now apply IH.
Qed.

Lemma split_space_nonempty (s : string) : split_space s <> [].
Proof.
  destruct s as [|c s]; simpl; [discriminate |].
  destruct (c =? " ")%char; [discriminate |].
  destruct (split_space s); discriminate.
Qed.

Lemma split_space_app_space (s : string) :
  split_space (s ++ " ") = (split_space s ++ [""])%list.
Proof.
  induction s as [|c s IH]; simpl; [reflexivity |].
  rewrite IH. destruct (c =? " ")%char; [reflexivity |].
  pose proof (split_space_nonempty s).
  destruct (split_space s); [congruence | reflexivity].
Qed.

Lemma cinfo_starttag (self : LineHTMLParser.t) (attrs : list attr)
      (toks : list string) :
  LineHTMLParser.scan_class attrs = LineHTMLParser.TAG_TYPE_POSITIONS ->
  LineHTMLParser.scan_title attrs (LineHTMLParser.char_positions self)
  = Return (Some toks) ->
  LineHTMLParser.handle_starttag self "span" attrs
  = match tl toks with
    | [] => Raise IndexError
    | rest =>
        Return (LineHTMLParser.mk (LineHTMLParser.boxes self)
                                  (LineHTMLParser.line_text self)
                                  (Some (filter not_sentinel rest)))
    end.
Proof.
  intros Hc Ht. unfold LineHTMLParser.handle_starttag.
  rewrite Hc, Ht. simpl.
  destruct (tl toks) as [|t rest] eqn:E; [reflexivity |].
  cbv zeta. unfold bind.
  now rewrite remove_sentinels_filter by lia.
Qed.

(** C10: on a positions-region open tag whose title attribute is [title],
    the coordinate list becomes the tokens of [title.split(" ")] after the
    first, with every ["-1"] removed and nothing else: the slice meant to
    drop a trailing empty token has no effect.  (A title without any space
    leaves no token after the first, and the look at the last token raises
    [IndexError].)  So for a title that ends in a space the list ends with
    the empty token, on which [int] raises [ValueError]. *)
Theorem cinfo_positions_keep_trailing_empty
        (self : LineHTMLParser.t) (pre post : list attr) (title : string)
        (Hpre : no_title pre = true) (Hpost : no_title post = true)
        (Hclass : LineHTMLParser.scan_class (pre ++ ("title", Some title) :: post)
                  = LineHTMLParser.TAG_TYPE_POSITIONS) :
  LineHTMLParser.handle_starttag self "span" (pre ++ ("title", Some title) :: post)
  = match tl (split_space title) with
    | [] => Raise IndexError
    | rest =>
        Return (LineHTMLParser.mk (LineHTMLParser.boxes self)
                                  (LineHTMLParser.line_text self)
                                  (Some (filter not_sentinel rest)))
    end
  /\ (forall t : string,
        title = t ++ " " ->
        LineHTMLParser.handle_starttag self "span"
                                       (pre ++ ("title", Some title) :: post)
        = Return (LineHTMLParser.mk
                    (LineHTMLParser.boxes self)
                    (LineHTMLParser.line_text self)
                    (Some (filter not_sentinel (tl (split_space t)) ++ [""])%list))
        /\ int "" = Raise ValueError).
Proof.
  assert (G := cinfo_starttag self _ _ Hclass
                 (scan_title_one pre post title _ Hpre Hpost)).
  split; [exact G |].
  intros t ->. split; [| reflexivity].
  rewrite G, split_space_app_space.
  pose proof (split_space_nonempty t) as Hne.
  destruct (split_space t) as [|w ws]; [congruence |].
  change (tl ((w :: ws) ++ [""])%list) with (ws ++ [""])%list.
  change (tl (w :: ws)) with ws.
  destruct ws as [|w' ws]; [reflexivity |].
  replace (filter not_sentinel (w' :: ws) ++ [""])%list
    with (filter not_sentinel ((w' :: ws) ++ [""]))%list
    by (rewrite filter_app; reflexivity).
  reflexivity.
Qed.

Lemma cinfo_positions_keep_trailing_empty_witness :
  let self := LineHTMLParser.mk [] (Some "Hi") (Some []) in
  let pre : list attr := [("class", Some "ocr_cinfo")] in
  let title := "x_bboxes 1 2 3 4 -1 -1 -1 -1 5 6 7 8 " in
  LineHTMLParser.handle_starttag self "span" (pre ++ [("title", Some title)])
  = Return (LineHTMLParser.mk [] (Some "Hi")
              (Some ["1"; "2"; "3"; "4"; "5"; "6"; "7"; "8"; ""])).
Proof.
  intros self pre title.
  destruct (cinfo_positions_keep_trailing_empty self pre [] title
              eq_refl eq_refl eq_refl) as [_ H].
  destruct (H "x_bboxes 1 2 3 4 -1 -1 -1 -1 5 6 7 8" eq_refl) as [H1 _].
  exact H1.
Defined.

(** *** Word tags without a bbox token *)

Lemma pop_app_last {A : Type} (l : list A) (x : A) :
  pop (l ++ [x]) = Return (x, l).
Proof.
  unfold pop. rewrite rev_app_distr. simpl. now rewrite rev_involutive.
Qed.

Lemma parse_position_loop_no_bbox (title : string) (pieces : list string) :
  existsb (fun piece => startswith (strip piece) "bbox") pieces = false ->
  WordHTMLParser.parse_position_loop title pieces
  = Raise (InvalidHocrPosition title).
Proof.
  induction pieces as [|p pieces IH]; simpl; intros H; [reflexivity |].
  apply orb_false_elim in H as [Hp H]. rewrite Hp. simpl. now apply IH.
Qed.

Lemma parse_position_no_bbox (title : string) :
  has_bbox title = false ->
  WordHTMLParser.__parse_position title = Raise (InvalidHocrPosition title).
Proof.
  apply parse_position_loop_no_bbox.
Qed.

Lemma word_starttag_ignored (self : WordHTMLParser.t) (attrs : list attr)
      (title tag_type : string) :
  WordHTMLParser.scan_attrs attrs = (Some title, Some tag_type) ->
  tag_type = "ocr_word" \/ tag_type = "ocrx_word" ->
  has_bbox title = false ->
  WordHTMLParser.handle_starttag self "span" attrs = Return (push_ignore self).
Proof.
  intros Hscan Hword Hbbox. unfold WordHTMLParser.handle_starttag.
  rewrite Hscan. simpl.
  assert (Ht : ((tag_type =? "ocr_word")%string
                || (tag_type =? "ocrx_word")%string) = true)
    by (destruct Hword as [-> | ->]; reflexivity).
  rewrite Ht, (parse_position_no_bbox _ Hbbox).
  now destruct (WordHTMLParser.__parse_confidence title).
Qed.

Lemma endtag_pops_ignore (self : WordHTMLParser.t) :
  WordHTMLParser.handle_endtag (push_ignore self) "span" = Return self.
Proof.
  unfold WordHTMLParser.handle_endtag, push_ignore. simpl.
  rewrite pop_app_last. simpl. now destruct self.
Qed.

(** C6: a word tag (class [ocr_word] or [ocrx_word]) whose title has no
    bbox token raises nothing: the open tag only pushes ["ignore"] on the
    tag stack and the scan goes on with the rest of the document; the
    matching close tag pops the marker and adds no box and no line.  With
    text inside the tag, the parser ends where that text alone would have
    left it, so no [Box] is made for the tag. *)
Theorem word_tag_without_bbox_ignored
        (self : WordHTMLParser.t) (attrs : list attr) (title tag_type : string)
        (Hscan : WordHTMLParser.scan_attrs attrs = (Some title, Some tag_type))
        (Hword : tag_type = "ocr_word" \/ tag_type = "ocrx_word")
        (Hbbox : has_bbox title = false) :
  WordHTMLParser.handle_starttag self "span" attrs = Return (push_ignore self)
  /\ WordHTMLParser.boxes (push_ignore self) = WordHTMLParser.boxes self
  /\ WordHTMLParser.lines (push_ignore self) = WordHTMLParser.lines self
  /\ (forall rest : list event,
        WordHTMLParser.feed self (StartTag "span" attrs :: rest)
        = WordHTMLParser.feed (push_ignore self) rest)
  /\ WordHTMLParser.handle_endtag (push_ignore self) "span" = Return self
  /\ (forall (data : string) (rest : list event),
        WordHTMLParser.feed
          self (StartTag "span" attrs :: Data data :: EndTag "span" :: rest)
        = WordHTMLParser.feed (WordHTMLParser.handle_data self data) rest)
  /\ (forall rest : list event,
        WordHTMLParser.feed self (StartTag "span" attrs :: EndTag "span" :: rest)
        = WordHTMLParser.feed self rest).
Proof.
  pose proof (word_starttag_ignored self attrs title tag_type Hscan Hword Hbbox)
    as Hstart.
  repeat split.
  - exact Hstart.
  - intros rest. simpl. now rewrite Hstart.
  - apply endtag_pops_ignore.
  - intros data rest. simpl. rewrite Hstart. simpl.
    assert (E : WordHTMLParser.handle_data (push_ignore self) data
                = push_ignore (WordHTMLParser.handle_data self data)).
    { destruct self as [tts pos [text|] conf bs lpos lcont ls]; reflexivity. }
    now rewrite E, endtag_pops_ignore.
  - intros rest. simpl. rewrite Hstart. simpl.
    now rewrite endtag_pops_ignore.
Qed.

Lemma word_tag_without_bbox_ignored_witness :
  let attrs : list attr :=
    [("class", Some "ocrx_word"); ("title", Some "x_wconf 90")] in
  WordHTMLParser.feed WordHTMLParser.__init__
    [StartTag "span" attrs; Data "old"; EndTag "span";
     StartTag "span" [("class", Some "ocrx_word");
                      ("title", Some "bbox 1 2 3 4; x_wconf 80")];
     Data "new"; EndTag "span"]
  = WordHTMLParser.feed WordHTMLParser.__init__
      [StartTag "span" [("class", Some "ocrx_word");
                        ("title", Some "bbox 1 2 3 4; x_wconf 80")];
       Data "new"; EndTag "span"].
Proof.
  intros attrs.
  destruct (word_tag_without_bbox_ignored
              WordHTMLParser.__init__ attrs "x_wconf 90" "ocrx_word"
              eq_refl (or_intror eq_refl) eq_refl)
    as (_ & _ & _ & _ & _ & H & _).
  exact (H "old" _).
Defined.

(** *** Reachable states of the word parser *)

Lemma pop_inv {A : Type} (l l' : list A) (x : A) :
  pop l = Return (x, l') -> l = (l' ++ [x])%list.
Proof.
  unfold pop. destruct (List.rev l) as [|a r] eqn:E; [discriminate |].
  intros H. injection H as <- <-.
  rewrite <- (rev_involutive l), E. reflexivity.
Qed.

Lemma init_wellformed : wellformed WordHTMLParser.__init__.
Proof.
  split; simpl; [congruence | tauto].
Qed.

Lemma starttag_wellformed (st st' : WordHTMLParser.t) (tag : string)
      (attrs : list attr) :
  wellformed st ->
  WordHTMLParser.handle_starttag st tag attrs = Return st' ->
  wellformed st'.
Proof.
  intros [Hw Hl]. unfold WordHTMLParser.handle_starttag.
  destruct (negb (tag =? "span")%string); [now intros [= <-] |].
  destruct (WordHTMLParser.scan_attrs attrs) as [[title|] [tag_type|]];
    try (now intros [= <-]).
  destruct ((tag_type =? "ocr_word")%string || (tag_type =? "ocrx_word")%string)
    eqn:Eword.
  - assert (Hne : tag_type <> "ocr_line").
    { intros ->. discriminate Eword. }
    destruct (confidence <- WordHTMLParser.__parse_confidence title;;
              position <- WordHTMLParser.__parse_position title;;
              Return (confidence, position)) as [[c p]|e];
      intros [= <-]; split; simpl; try (intros _; split; congruence); auto;
      intros Hin; apply in_app_or in Hin as [Hin | [Hin | []]];
      auto; congruence.
  - destruct (tag_type =? "ocr_line")%string eqn:Eline.
    + destruct (WordHTMLParser.__parse_position title) as [p|e]; simpl;
        [| discriminate].
      intros [= <-]; split; simpl; [exact Hw | congruence].
    + apply String.eqb_neq in Eline.
      intros [= <-]; split; simpl; [exact Hw |].
      intros Hin; apply in_app_or in Hin as [Hin | [Hin | []]];
        auto; congruence.
Qed.

Lemma endtag_wellformed (st st' : WordHTMLParser.t) (tag : string) :
  wellformed st ->
  WordHTMLParser.handle_endtag st tag = Return st' ->
  wellformed st'.
Proof.
  intros [Hw Hl]. unfold WordHTMLParser.handle_endtag.
  destruct (negb (tag =? "span")%string); [now intros [= <-] |].
  destruct (pop (WordHTMLParser.tag_types st)) as [[tag_type tts]|e] eqn:Epop;
    simpl; [| discriminate].
  apply pop_inv in Epop.
  assert (Hl' : In "ocr_line" tts -> WordHTMLParser.current_line_position st <> None).
  { intros Hin. apply Hl. rewrite Epop. apply in_or_app. now left. }
  destruct ((tag_type =? "ocr_word")%string || (tag_type =? "ocrx_word")%string).
  - destruct (WordHTMLParser.current_box_text st) as [text|] eqn:Etext.
    + destruct (WordHTMLParser.current_box_position st),
        (WordHTMLParser.current_box_confidence st); try discriminate.
      intros [= <-]; split; simpl; [congruence | exact Hl'].
    + intros [= <-]; split; simpl; [congruence | exact Hl'].
  - destruct (tag_type =? "ocr_line")%string.
    + destruct (WordHTMLParser.current_line_position st) eqn:Elp; [| discriminate].
      intros [= <-]; split; simpl; [exact Hw | congruence].
    + intros [= <-]; split; simpl; [exact Hw | exact Hl'].
Qed.

Lemma data_wellformed (st : WordHTMLParser.t) (data : string) :
  wellformed st -> wellformed (WordHTMLParser.handle_data st data).
Proof.
  intros [Hw Hl]. unfold WordHTMLParser.handle_data.
  destruct (WordHTMLParser.current_box_text st) eqn:E; [| now split].
  split; simpl; [| exact Hl].
  intros _. apply Hw. congruence.
Qed.

(** Every state the word parser reaches from a fresh instance is
    well formed. *)
Lemma feed_wellformed (html : list event) (st st' : WordHTMLParser.t) :
  wellformed st ->
  WordHTMLParser.feed st html = Return st' ->
  wellformed st'.
Proof.
  revert st. induction html as [|ev html IH]; simpl; intros st Hst.
  - now intros [= <-].
  - destruct (WordHTMLParser.dispatch st ev) as [st1|e] eqn:E; simpl;
      [| discriminate].
    apply IH. destruct ev as [tag attrs|data|tag]; simpl in E.
    + eapply starttag_wellformed; eauto.
    + injection E as <-. now apply data_wellformed.
    + eapply endtag_wellformed; eauto.
Qed.

(** On a well-formed state the close handler never takes a branch that
    stands for a missing field. *)
Lemma endtag_no_TypeError (st : WordHTMLParser.t) (tag : string) :
  wellformed st ->
  WordHTMLParser.handle_endtag st tag <> Raise TypeError.
Proof.
  intros [Hw Hl]. unfold WordHTMLParser.handle_endtag.
  destruct (negb (tag =? "span")%string); [discriminate |].
  destruct (pop (WordHTMLParser.tag_types st)) as [[tag_type tts]|e] eqn:Epop.
  2:{ unfold pop in Epop. destruct (List.rev (WordHTMLParser.tag_types st));
      [injection Epop as <- | discriminate Epop]. simpl. discriminate. }
  simpl. apply pop_inv in Epop.
  destruct ((tag_type =? "ocr_word")%string || (tag_type =? "ocrx_word")%string).
  - destruct (WordHTMLParser.current_box_text st) as [text|] eqn:Etext;
      [| discriminate].
    destruct Hw as [Hp Hc]; [congruence |].
    destruct (WordHTMLParser.current_box_position st),
      (WordHTMLParser.current_box_confidence st); try congruence; discriminate.
  - destruct (tag_type =? "ocr_line")%string eqn:Eline; [| discriminate].
    apply String.eqb_eq in Eline. subst tag_type.
    destruct (WordHTMLParser.current_line_position st) eqn:Elp; [discriminate |].
    exfalso. apply Hl; [| reflexivity].
    rewrite Epop. apply in_or_app. right. now left.
Qed.

(** *** Dropping an empty last box *)

Lemma pop_empty_last_drops (bs : list Box.t) (b : Box.t) :
  Box.content b = "" -> pop_empty_last (bs ++ [b]) = bs.
Proof.
  intros Hb. unfold pop_empty_last. rewrite pop_app_last, Hb. reflexivity.
Qed.

Lemma pop_empty_last_keeps (bs : list Box.t) (b : Box.t) :
  Box.content b <> "" -> pop_empty_last (bs ++ [b]) = (bs ++ [b])%list.
Proof.
  intros Hb. unfold pop_empty_last. rewrite pop_app_last.
  apply String.eqb_neq in Hb. unfold to_unicode. now rewrite Hb.
Qed.

(** [WordBoxBuilder.read_file] returns the boxes of the word-tag parser
    without an empty last box. *)
Lemma WordBoxBuilder_read_file_drops (html : list event) (p : WordHTMLParser.t)
      (bs : list Box.t) (b : Box.t) :
  WordHTMLParser.feed WordHTMLParser.__init__ html = Return p ->
  WordHTMLParser.boxes p = (bs ++ [b])%list ->
  Box.content b = "" ->
  WordBoxBuilder.read_file html = Return bs.
Proof.
  intros Hfeed Hboxes Hb. unfold WordBoxBuilder.read_file.
  rewrite Hfeed. simpl. rewrite Hboxes, pop_empty_last_drops by exact Hb.
  rewrite length_app. simpl.
  destruct (0 <? length bs + 1)%nat eqn:E; [reflexivity |].
  apply Nat.ltb_ge in E. lia.
Qed.

(** C5 at [doc_empty_last_word]: the word-tag parser ends with the boxes
    ["Hello"] and [""].  [WordBoxBuilder.read_file] returns the first
    alone.  [LineBoxBuilder.read_file] pops the same empty box from the
    parser's word list and then returns the parser's lines, which the pop
    does not reach: the second line, whose content is empty, is still
    there with its empty word. *)
Theorem linebox_read_file_keeps_empty_last :
  WordBoxBuilder.read_file doc_empty_last_word
  = Return [Box.new "Hello" ((0, 0), (40, 20)) 90]
  /\ LineBoxBuilder.read_file doc_empty_last_word
     = Return [ LineBox.new [Box.new "Hello" ((0, 0), (40, 20)) 90]
                            ((0, 0), (100, 20));
                LineBox.new [Box.new "" ((0, 30), (40, 50)) 0]
                            ((0, 30), (100, 50)) ]
  /\ LineBox.content (LineBox.new [Box.new "" ((0, 30), (40, 50)) 0]
                                  ((0, 30), (100, 50))) = "".
Proof.
  repeat split; vm_compute; reflexivity.
Qed.

(** *** Words of the character dialect *)

Lemma mapM_cons_inv {A B : Type} (f : A -> result B) (l : list A)
      (b : B) (bs : list B) :
  mapM f l = Return (b :: bs) ->
  exists a l', l = a :: l' /\ f a = Return b /\ mapM f l' = Return bs.
Proof.
  destruct l as [|a l']; simpl; [discriminate |].
  destruct (f a) as [b'|e] eqn:Ea; simpl; [| discriminate].
  destruct (mapM f l') as [bs'|e] eqn:El; simpl; [| discriminate].
  intros [= <- <-]. now exists a, l'.
Qed.

Lemma mapM_nil_inv {A B : Type} (f : A -> result B) (l : list A) :
  mapM f l = Return [] -> l = [].
Proof.
  destruct l as [|a l']; simpl; [reflexivity |].
  destruct (f a) as [b'|e]; simpl; [| discriminate].
  destruct (mapM f l') as [bs'|e]; simpl; discriminate.
Qed.

Lemma mapM_app_inv {A B : Type} (f : A -> result B) (bs1 bs2 : list B) :
  forall l : list A,
    mapM f l = Return (bs1 ++ bs2)%list ->
    exists l1 l2,
      l = (l1 ++ l2)%list /\ mapM f l1 = Return bs1 /\ mapM f l2 = Return bs2.
Proof.
  induction bs1 as [|b bs1 IH]; intros l H.
  - exists [], l. auto.
  - apply mapM_cons_inv in H as (a & l' & -> & Ha & H).
    destruct (IH _ H) as (l1 & l2 & -> & H1 & H2).
    exists (a :: l1), l2. simpl. rewrite Ha, H1. auto.
Qed.

Lemma mapM_length {A B : Type} (f : A -> result B) (bs : list B) :
  forall l : list A, mapM f l = Return bs -> length l = length bs.
Proof.
  induction bs as [|b bs IH]; intros l H.
  - now rewrite (mapM_nil_inv _ _ H).
  - apply mapM_cons_inv in H as (a & l' & -> & _ & H).
    simpl. now rewrite (IH _ H).
Qed.

Lemma mapM_map {A B C : Type} (f : B -> result C) (g : A -> B) (l : list A) :
  mapM f (map g l) = mapM (fun x => f (g x)) l.
Proof.
  induction l as [|a l IH]; simpl; [reflexivity | now rewrite IH].
Qed.

Lemma range4_succ (k n : nat) :
  range4 k (S n) = k :: map (fun x => 4 + x)%nat (range4 k n).
Proof.
  unfold range4. change (seq 0 (S n)) with (0%nat :: seq 1 n).
  rewrite <- (seq_shift n 0). cbn [map]. rewrite !map_map.
  f_equal; [lia |]. apply map_ext. intros i. lia.
Qed.

(** Reading one column of a run of well-formed quadruples. *)
Lemma column_quads (k : nat) (qs : list quad) :
  (k < 4)%nat ->
  forall toks : list string,
    mapM int toks = Return (flat_map quad_list qs) ->
    LineHTMLParser.column toks k (length qs)
    = Return (map (fun q => nth k (quad_list q) 0) qs).
Proof.
  intros Hk. unfold LineHTMLParser.column.
  induction qs as [|q qs IH]; intros toks H; [reflexivity |].
  simpl flat_map in H. unfold quad_list at 1 in H. cbn [List.app] in H.
  apply mapM_cons_inv in H as (t1 & l1 & -> & H1 & H).
  apply mapM_cons_inv in H as (t2 & l2 & -> & H2 & H).
  apply mapM_cons_inv in H as (t3 & l3 & -> & H3 & H).
  apply mapM_cons_inv in H as (t4 & l4 & -> & H4 & H).
  cbn [length]. rewrite range4_succ. cbn [mapM map].
  rewrite mapM_map.
  change (mapM (fun x => p <- getitem (t1 :: t2 :: t3 :: t4 :: l4) (4 + x);; int p)
               (range4 k (length qs)))
    with (mapM (fun x => p <- getitem l4 x;; int p) (range4 k (length qs))).
  rewrite (IH _ H).
  assert (E : (p <- getitem (t1 :: t2 :: t3 :: t4 :: l4) k;; int p)
              = Return (nth k (quad_list q) 0)).
  { destruct k as [|[|[|[|k]]]]; try lia; simpl; assumption. }
  rewrite E. reflexivity.
Qed.

Lemma fold_min_symmetric (x : Z) (l : list Z) :
  fold_left Z.min l x = fold_right Z.min x l.
Proof.
  apply fold_symmetric; intros; [apply Z.min_assoc | apply Z.min_comm].
Qed.

Lemma fold_max_symmetric (x : Z) (l : list Z) :
  fold_left Z.max l x = fold_right Z.max x l.
Proof.
  apply fold_symmetric; intros; [apply Z.max_assoc | apply Z.max_comm].
Qed.

Lemma letters_split_space (s : string) :
  letters (split_space s) = nonspace_count s.
Proof.
  induction s as [|c s IH]; simpl; [reflexivity |].
  destruct (c =? " ")%char; simpl; [exact IH |].
  pose proof (split_space_nonempty s) as Hne.
  destruct (split_space s) as [|w ws]; [congruence |].
  simpl in *. now rewrite <- IH.
Qed.

Lemma flat_quads_length (qs : list quad) :
  length (flat_map quad_list qs) = (4 * length qs)%nat.
Proof.
  induction qs as [|q qs IH]; simpl; [reflexivity | rewrite IH; lia].
Qed.

Lemma firstn_exact {A : Type} (n : nat) (l1 l2 : list A) :
  length l1 = n -> firstn n (l1 ++ l2) = l1.
Proof.
  intros <-. rewrite firstn_app, firstn_all, Nat.sub_diag. simpl.
  apply app_nil_r.
Qed.

Lemma skipn_exact {A : Type} (n : nat) (l1 l2 : list A) :
  length l1 = n -> skipn n (l1 ++ l2) = l2.
Proof.
  intros <-. rewrite skipn_app, skipn_all, Nat.sub_diag. reflexivity.
Qed.

Lemma string_length_zero (w : string) : String.length w = 0%nat -> w = "".
Proof.
  destruct w; [reflexivity | discriminate].
Qed.

(** The word loop on a coordinate list that starts with the well-formed
    quadruples of all the characters. *)
Lemma words_loop_spec (words : list string) :
  forall (quads : list quad) (used extra : list string) (boxes : list Box.t),
    mapM int used = Return (flat_map quad_list quads) ->
    length quads = letters words ->
    LineHTMLParser.words_loop words (Some (used ++ extra)%list) boxes
    = Return (Some extra, (boxes ++ word_boxes_spec words quads)%list).
Proof.
  induction words as [|w ws IH]; intros quads used extra boxes Hint Hlen.
  - simpl in Hlen. destruct quads; [| discriminate].
    rewrite (mapM_nil_inv _ _ Hint). simpl. now rewrite app_nil_r.
  - simpl in Hlen. cbn [LineHTMLParser.words_loop word_boxes_spec].
    destruct (w =? "")%string eqn:Ew.
    + apply String.eqb_eq in Ew. subst w. simpl in *. now apply IH.
    + apply String.eqb_neq in Ew.
      set (n := String.length w) in *.
      assert (Hn : (0 < n)%nat).
      { destruct (Nat.eq_dec n 0) as [E|E]; [| lia].
        apply string_length_zero in E. contradiction. }
      assert (H1 : length (firstn n quads) = n) by (rewrite length_firstn; lia).
      rewrite <- (firstn_skipn n quads), flat_map_app in Hint.
      apply mapM_app_inv in Hint as (u1 & u2 & -> & Hu1 & Hu2).
      assert (Lu1 : length u1 = (4 * n)%nat).
      { rewrite (mapM_length _ _ _ Hu1), flat_quads_length, H1. reflexivity. }
      rewrite <- app_assoc.
      rewrite (firstn_exact _ _ _ Lu1), (skipn_exact _ _ _ Lu1).
      pose proof (column_quads 0 _ ltac:(lia) _ Hu1) as C0.
      pose proof (column_quads 1 _ ltac:(lia) _ Hu1) as C1.
      pose proof (column_quads 2 _ ltac:(lia) _ Hu1) as C2.
      pose proof (column_quads 3 _ ltac:(lia) _ Hu1) as C3.
      rewrite H1 in C0, C1, C2, C3.
      destruct (firstn n quads) as [|q qs] eqn:Eq; [simpl in H1; lia |].
      cbn [map nth quad_list] in C0, C1, C2, C3.
      rewrite C0. cbn [bind py_min]. rewrite C1. cbn [bind py_min].
      rewrite C2. cbn [bind py_max]. rewrite C3. cbn [bind py_max].
      rewrite !fold_min_symmetric, !fold_max_symmetric.
      rewrite (IH (skipn n quads) u2 extra); [| exact Hu2 |].
      * rewrite <- app_assoc. reflexivity.
      * rewrite length_skipn. lia.
Qed.

Lemma word_boxes_spec_nil (words : list string) : word_boxes_spec words [] = [].
Proof.
  induction words as [|w ws IH]; simpl; [reflexivity |].
  now rewrite firstn_nil.
Qed.

Lemma word_boxes_spec_contents (words : list string) :
  forall quads : list quad,
    (letters words <= length quads)%nat ->
    map Box.content (word_boxes_spec words quads) = filter nonempty words.
Proof.
  induction words as [|w ws IH]; intros quads Hlen; [reflexivity |].
  simpl in Hlen. cbn [word_boxes_spec filter].
  destruct w as [|c w].
  - simpl. apply IH. simpl in Hlen. lia.
  - cbn [nonempty String.eqb negb String.length] in *.
    destruct quads as [|q quads]; [simpl in Hlen; lia |].
    cbn [firstn skipn map Box.content]. f_equal.
    apply IH. rewrite length_skipn. simpl in Hlen. lia.
Qed.

Lemma word_boxes_spec_confidence (words : list string) :
  forall quads : list quad,
    Forall (fun b => Box.confidence b = 0) (word_boxes_spec words quads).
Proof.
  induction words as [|w ws IH]; intros quads; simpl; [constructor |].
  destruct (firstn (String.length w) quads); [apply IH |].
  constructor; [reflexivity | apply IH].
Qed.

Lemma fold_min_spec (x : Z) (l : list Z) :
  In (fold_right Z.min x l) (x :: l)
  /\ Forall (fun y => fold_right Z.min x l <= y) (x :: l).
Proof.
  induction l as [|a l [Hin Hall]]; simpl.
  - split; [now left | constructor; [lia | constructor]].
  - apply Forall_cons_iff in Hall as [Hx Hall]. split.
    + destruct (Z.min_spec a (fold_right Z.min x l)) as [[_ ->] | [_ ->]].
      * right. now left.
      * destruct Hin as [Hin | Hin]; [now left | right; now right].
    + constructor; [lia |]. constructor; [lia |].
      eapply Forall_impl; [| exact Hall]. simpl. intros; lia.
Qed.

Lemma fold_max_spec (x : Z) (l : list Z) :
  In (fold_right Z.max x l) (x :: l)
  /\ Forall (fun y => y <= fold_right Z.max x l) (x :: l).
Proof.
  induction l as [|a l [Hin Hall]]; simpl.
  - split; [now left | constructor; [lia | constructor]].
  - apply Forall_cons_iff in Hall as [Hx Hall]. split.
    + destruct (Z.max_spec a (fold_right Z.max x l)) as [[_ ->] | [_ ->]].
      * destruct Hin as [Hin | Hin]; [now left | right; now right].
      * right. now left.
    + constructor; [lia |]. constructor; [lia |].
      eapply Forall_impl; [| exact Hall]. simpl. intros; lia.
Qed.

(** The corners of [bounding_box] are the least [x1], the least [y1], the
    greatest [x2] and the greatest [y2] among the characters. *)
Lemma bounding_box_extremal (q : quad) (rest : list quad) :
  (In (fst (fst (bounding_box q rest))) (map qx1 (q :: rest))
   /\ Forall (fun c => fst (fst (bounding_box q rest)) <= qx1 c) (q :: rest))
  /\ (In (snd (fst (bounding_box q rest))) (map qy1 (q :: rest))
      /\ Forall (fun c => snd (fst (bounding_box q rest)) <= qy1 c) (q :: rest))
  /\ (In (fst (snd (bounding_box q rest))) (map qx2 (q :: rest))
      /\ Forall (fun c => qx2 c <= fst (snd (bounding_box q rest))) (q :: rest))
  /\ (In (snd (snd (bounding_box q rest))) (map qy2 (q :: rest))
      /\ Forall (fun c => qy2 c <= snd (snd (bounding_box q rest))) (q :: rest)).
Proof.
  unfold bounding_box. cbn [fst snd].
  destruct (fold_min_spec (qx1 q) (map qx1 rest)) as [I1 A1].
  destruct (fold_min_spec (qy1 q) (map qy1 rest)) as [I2 A2].
  destruct (fold_max_spec (qx2 q) (map qx2 rest)) as [I3 A3].
  destruct (fold_max_spec (qy2 q) (map qy2 rest)) as [I4 A4].
  change (qx1 q :: map qx1 rest) with (map qx1 (q :: rest)) in A1.
  change (qy1 q :: map qy1 rest) with (map qy1 (q :: rest)) in A2.
  change (qx2 q :: map qx2 rest) with (map qx2 (q :: rest)) in A3.
  change (qy2 q :: map qy2 rest) with (map qy2 (q :: rest)) in A4.
  rewrite Forall_map in A1, A2, A3, A4.
  repeat split; assumption.
Qed.

(** C7: when the coordinate list starts with the well-formed quadruples of
    every non-space character of the line, the close event adds one box per
    non-empty word, in order.  Each word takes as many quadruples as it has
    characters from the front of the list, left to right; its box spans
    from the least [x1] and [y1] to the greatest [x2] and [y2] of them, and
    its confidence is 0.  What follows the used tokens stays in the list. *)
Theorem line_close_word_boxes
        (self : LineHTMLParser.t) (tag text : string)
        (used extra : list string) (quads : list quad)
        (Htext : LineHTMLParser.line_text self = Some text)
        (Hpos : LineHTMLParser.char_positions self = Some (used ++ extra)%list)
        (Hint : mapM int used = Return (flat_map quad_list quads))
        (Hlen : length quads = nonspace_count text) :
  exists st' : LineHTMLParser.t,
    LineHTMLParser.handle_endtag self tag = Return st'
    /\ LineHTMLParser.boxes st'
       = (LineHTMLParser.boxes self
          ++ word_boxes_spec (split_space text) quads)%list
    /\ LineHTMLParser.char_positions st' = Some extra
    /\ map Box.content (word_boxes_spec (split_space text) quads)
       = filter nonempty (split_space text)
    /\ Forall (fun b => Box.confidence b = 0)
              (word_boxes_spec (split_space text) quads).
Proof.
  rewrite <- letters_split_space in Hlen.
  assert (Hc := word_boxes_spec_contents (split_space text) quads ltac:(lia)).
  assert (Hz := word_boxes_spec_confidence (split_space text) quads).
  unfold LineHTMLParser.handle_endtag. rewrite Htext, Hpos.
  destruct (LineHTMLParser.positions_empty (Some (used ++ extra)%list)) eqn:Eempty.
  - exists self.
    assert (E : (used ++ extra)%list = []).
    { simpl in Eempty. destruct (used ++ extra)%list; [reflexivity | discriminate]. }
    apply app_eq_nil in E as [-> ->].
    assert (Hq : quads = []).
    { apply mapM_length in Hint. rewrite flat_quads_length in Hint.
      destruct quads; [reflexivity | simpl in Hint; lia]. }
    subst quads. rewrite word_boxes_spec_nil, app_nil_r in *.
    repeat split; auto.
  - rewrite (words_loop_spec _ _ _ _ _ Hint Hlen). simpl.
    eexists. repeat split; auto.
Qed.

Lemma line_close_word_boxes_witness :
  let self := LineHTMLParser.mk [] (Some "Hi x")
                (Some ["1"; "2"; "3"; "4"; "5"; "1"; "7"; "9";
                       "10"; "11"; "12"; "13"; "99"]) in
  exists st' : LineHTMLParser.t,
    LineHTMLParser.handle_endtag self "span" = Return st'
    /\ LineHTMLParser.boxes st'
       = [Box.new "Hi" ((1, 1), (7, 9)) 0; Box.new "x" ((10, 11), (12, 13)) 0]
    /\ LineHTMLParser.char_positions st' = Some ["99"].
Proof.
  intros self.
  destruct (line_close_word_boxes
              self "span" "Hi x"
              ["1"; "2"; "3"; "4"; "5"; "1"; "7"; "9"; "10"; "11"; "12"; "13"]
              ["99"]
              [(1, 2, 3, 4); (5, 1, 7, 9); (10, 11, 12, 13)]
              eq_refl eq_refl eq_refl eq_refl)
    as (st' & H1 & H2 & H3 & _).
  exists st'. repeat split; assumption.
Defined.

(** *** Running out of coordinates *)

Lemma raised_bind {A B : Type} (m : result A) (k : A -> result B) :
  raised m = true -> raised (bind m k) = true.
Proof.
  destruct m; [discriminate | reflexivity].
Qed.

Lemma mapM_raise_in {A B : Type} (f : A -> result B) (x : A) (l : list A) :
  In x l -> raised (f x) = true -> raised (mapM f l) = true.
Proof.
  intros Hin Hx. induction l as [|a l IH]; [contradiction |].
  simpl. destruct Hin as [-> | Hin].
  - now apply raised_bind.
  - destruct (f a); [| reflexivity]. simpl.
    apply raised_bind. now apply IH.
Qed.

Lemma column_short (positions : list string) (k n : nat) :
  (0 < n)%nat -> (length positions <= k + 4 * (n - 1))%nat ->
  raised (LineHTMLParser.column positions k n) = true.
Proof.
  intros Hn Hlen. unfold LineHTMLParser.column.
  apply mapM_raise_in with (x := (k + 4 * (n - 1))%nat).
  - unfold range4. apply in_map_iff. exists (n - 1)%nat.
    split; [reflexivity |]. apply in_seq. lia.
  - unfold getitem.
    destruct (nth_error positions (k + 4 * (n - 1))) eqn:E; [| reflexivity].
    assert (Hs : nth_error positions (k + 4 * (n - 1)) <> None) by congruence.
    apply nth_error_Some in Hs. lia.
Qed.

(** With fewer tokens than four per character the word loop raises, in
    the word where the tokens end if not before. *)
Lemma words_loop_exhausted (words : list string) :
  forall (toks : list string) (boxes : list Box.t),
    (length toks < 4 * letters words)%nat ->
    raised (LineHTMLParser.words_loop words (Some toks) boxes) = true.
Proof.
  induction words as [|w ws IH]; intros toks boxes Hshort.
  - simpl in Hshort. lia.
  - simpl in Hshort. cbn [LineHTMLParser.words_loop].
    destruct (w =? "")%string eqn:Ew.
    + apply String.eqb_eq in Ew. subst w. simpl in Hshort. now apply IH.
    + apply String.eqb_neq in Ew.
      set (n := String.length w) in *.
      assert (Hn : (0 < n)%nat).
      { destruct (Nat.eq_dec n 0) as [E|E]; [| lia].
        apply string_length_zero in E. contradiction. }
      destruct (LineHTMLParser.column (firstn (4 * n) toks) 0 n) as [lefts|e];
        [| reflexivity].
      cbn [bind]. destruct (py_min lefts); [| reflexivity].
      cbn [bind].
      destruct (LineHTMLParser.column (firstn (4 * n) toks) 1 n) as [tops|e];
        [| reflexivity].
      cbn [bind]. destruct (py_min tops); [| reflexivity].
      cbn [bind].
      destruct (LineHTMLParser.column (firstn (4 * n) toks) 2 n) as [rights|e];
        [| reflexivity].
      cbn [bind]. destruct (py_max rights); [| reflexivity].
      cbn [bind].
      destruct (LineHTMLParser.column (firstn (4 * n) toks) 3 n) as [bottoms|e]
        eqn:Ebottom; [| reflexivity].
      cbn [bind]. destruct (py_max bottoms); [| reflexivity].
      cbn [bind].
      destruct (Nat.lt_ge_cases (length toks) (4 * n)) as [Hlt | Hge].
      * pose proof (column_short (firstn (4 * n) toks) 3 n Hn) as Hraise.
        rewrite Ebottom in Hraise. rewrite length_firstn in Hraise.
        discriminate Hraise. lia.
      * apply IH. rewrite length_skipn. lia.
Qed.

Lemma handle_endtag_exhausted (self : LineHTMLParser.t) (tag text : string)
      (toks : list string) :
  LineHTMLParser.line_text self = Some text ->
  LineHTMLParser.char_positions self = Some toks ->
  toks <> [] ->
  (length toks < 4 * nonspace_count text)%nat ->
  raised (LineHTMLParser.handle_endtag self tag) = true.
Proof.
  intros Htext Hpos Hne Hshort. unfold LineHTMLParser.handle_endtag.
  rewrite Htext, Hpos.
  destruct toks as [|t toks]; [congruence |]. cbn [LineHTMLParser.positions_empty].
  apply raised_bind, words_loop_exhausted.
  now rewrite letters_split_space.
Qed.

Lemma LineHTMLParser_feed_app (l1 l2 : list event) :
  forall st : LineHTMLParser.t,
    LineHTMLParser.feed st (l1 ++ l2)
    = (st' <- LineHTMLParser.feed st l1 ;; LineHTMLParser.feed st' l2).
Proof.
  induction l1 as [|ev l1 IH]; intros st; simpl; [reflexivity |].
  destruct (LineHTMLParser.dispatch st ev); simpl; [apply IH | reflexivity].
Qed.

(** C8, as the code has it: when a close event finds the line text set
    and a coordinate list that is not empty and holds fewer than four
    tokens per non-space character of the line text, the handler raises,
    the scan of the document ends with that exception, and both
    [read_file] methods raise instead of returning boxes (the character
    dialect is reached when the word-tag parser finds no box).  A close
    event that finds the coordinate list empty raises nothing and leaves
    the parser as it was. *)
Theorem coordinate_exhaustion_raises
        (pre post : list event) (tag text : string)
        (st : LineHTMLParser.t) (toks : list string)
        (Hpre : LineHTMLParser.feed LineHTMLParser.__init__ pre = Return st)
        (Htext : LineHTMLParser.line_text st = Some text)
        (Hpos : LineHTMLParser.char_positions st = Some toks)
        (Hne : toks <> [])
        (Hshort : (length toks < 4 * nonspace_count text)%nat) :
  raised (LineHTMLParser.handle_endtag st tag) = true
  /\ raised (LineHTMLParser.feed LineHTMLParser.__init__
                                 (pre ++ EndTag tag :: post)) = true
  /\ (forall p : WordHTMLParser.t,
        WordHTMLParser.feed WordHTMLParser.__init__ (pre ++ EndTag tag :: post)
        = Return p ->
        WordHTMLParser.boxes p = [] ->
        raised (WordBoxBuilder.read_file (pre ++ EndTag tag :: post)) = true
        /\ raised (LineBoxBuilder.read_file (pre ++ EndTag tag :: post)) = true)
  /\ (forall (st0 : LineHTMLParser.t) (tag0 : string),
        LineHTMLParser.char_positions st0 = Some [] ->
        LineHTMLParser.handle_endtag st0 tag0 = Return st0).
Proof.
  pose proof (handle_endtag_exhausted st tag text toks Htext Hpos Hne Hshort)
    as Hend.
  assert (Hfeed : raised (LineHTMLParser.feed LineHTMLParser.__init__
                                              (pre ++ EndTag tag :: post)) = true).
  { rewrite LineHTMLParser_feed_app, Hpre. simpl.
    now apply raised_bind. }
  split; [exact Hend |]. split; [exact Hfeed |]. split.
  - intros p Hword Hnone. split.
    + unfold WordBoxBuilder.read_file. rewrite Hword. cbn [bind].
      rewrite Hnone. cbn [length Nat.ltb Nat.leb]. now apply raised_bind.
    + unfold LineBoxBuilder.read_file. rewrite Hword. cbn [bind].
      rewrite Hnone. cbn [length Nat.ltb Nat.leb]. now apply raised_bind.
  - intros st0 tag0 Hempty. unfold LineHTMLParser.handle_endtag.
    rewrite Hempty. now destruct (LineHTMLParser.line_text st0).
Qed.

Lemma coordinate_exhaustion_raises_witness :
  raised (WordBoxBuilder.read_file
            (doc_short_open ++ [EndTag "span"; EndTag "span"])) = true
  /\ raised (LineBoxBuilder.read_file
               (doc_short_open ++ [EndTag "span"; EndTag "span"])) = true.
Proof.
  destruct (coordinate_exhaustion_raises
              doc_short_open [EndTag "span"] "span" "Hi x"
              (LineHTMLParser.mk [] (Some "Hi x")
                 (Some ["1"; "2"; "3"; "4"; "5"; "6"; "7"; "8"]))
              ["1"; "2"; "3"; "4"; "5"; "6"; "7"; "8"]
              eq_refl eq_refl eq_refl ltac:(discriminate) ltac:(simpl; lia))
    as (_ & _ & H & _).
  exact (H _ eq_refl eq_refl).
Defined.

(** C8 as stated fails at [doc_no_quadruple]: before the first close tag
    the line text is ["Hi"] and the coordinate list is empty, so the two
    characters have no quadruple at all; yet the scan raises nothing and
    [read_file] returns the empty collection. *)
Lemma coordinate_exhaustion_counterexample :
  LineHTMLParser.feed LineHTMLParser.__init__ (firstn 3 doc_no_quadruple)
  = Return (LineHTMLParser.mk [] (Some "Hi") (Some []))
  /\ (4 * length (@nil string) < 4 * nonspace_count "Hi")%nat
  /\ ~ raised (LineHTMLParser.feed LineHTMLParser.__init__ doc_no_quadruple)
       = true
  /\ WordBoxBuilder.read_file doc_no_quadruple = Return []
  /\ LineBoxBuilder.read_file doc_no_quadruple = Return [].
Proof.
  repeat split; try (vm_compute; reflexivity).
  - simpl. lia.
  - vm_compute. discriminate.
Qed.

(** *** Writing and reading back an integer *)

Lemma all_chars_app (p : ascii -> bool) (s t : string) :
  all_chars p (s ++ t) = all_chars p s && all_chars p t.
Proof.
  induction s as [|c s IH]; simpl; [reflexivity |].
  now rewrite IH, andb_assoc.
Qed.

Lemma all_chars_impl (p q : ascii -> bool) (s : string) :
  (forall c, p c = true -> q c = true) ->
  all_chars p s = true -> all_chars q s = true.
Proof.
  intros Hpq. induction s as [|c s IH]; simpl; [reflexivity |].
  intros H. apply andb_prop in H as [Hc Hs].
  now rewrite (Hpq _ Hc), IH.
Qed.

Lemma num_char_plain (c : ascii) :
  is_num_char c = true ->
  not_space c = true /\ not_semicolon c = true /\ not_isspace c = true.
Proof.
  destruct c as [[] [] [] [] [] [] [] []]; vm_compute; intros H;
    try discriminate H; repeat split.
Qed.

Lemma uint_digits (d : Decimal.uint) :
  all_chars is_digit (NilEmpty.string_of_uint d) = true.
Proof.
  induction d; simpl; auto.
Qed.

Lemma format_d_chars (z : Z) : all_chars is_num_char (format_d z) = true.
Proof.
  assert (Hd : forall d, all_chars is_num_char (NilZero.string_of_uint d) = true).
  { intros d. apply all_chars_impl with (p := is_digit).
    - intros c Hc. unfold is_num_char. now rewrite Hc.
    - destruct d; try reflexivity; apply (uint_digits (_ _)). }
  unfold format_d. destruct z as [|p|p]; simpl; auto.
Qed.

Lemma format_d_nonempty (z : Z) : format_d z <> "".
Proof.
  assert (Hd : forall d, NilZero.string_of_uint d <> "").
  { intros d. destruct d; discriminate. }
  unfold format_d. destruct z as [|p|p]; simpl; auto; discriminate.
Qed.

Lemma rstrip_plain (s : string) :
  all_chars not_isspace s = true -> rstrip s = s.
Proof.
  induction s as [|c s IH]; simpl; [reflexivity |].
  intros H. apply andb_prop in H as [Hc Hs]. rewrite (IH Hs).
  unfold not_isspace in Hc. apply negb_true_iff in Hc. rewrite Hc.
  now destruct s.
Qed.

Lemma strip_plain (s : string) :
  all_chars not_isspace s = true -> strip s = s.
Proof.
  intros H. unfold strip.
  assert (E : lstrip s = s).
  { destruct s as [|c s]; [reflexivity |]. simpl in *.
    apply andb_prop in H as [Hc _].
    unfold not_isspace in Hc. apply negb_true_iff in Hc. now rewrite Hc. }
  rewrite E. now apply rstrip_plain.
Qed.

Lemma int_digits_step (c : ascii) (k : Z) (s : string) (acc : Z) (b : bool) :
  digit_val c = Some k ->
  int_digits (String c s) acc b = int_digits s (10 * acc + k) true.
Proof.
  intros H. cbn [int_digits]. now rewrite H.
Qed.

Ltac digit_step :=
  cbn [NilEmpty.string_of_uint Pos.of_uint_acc Pos.of_uint];
  match goal with
  | |- int_digits (String ?c ?s) ?acc ?b = _ =>
      let v := eval vm_compute in (digit_val c) in
      match v with
      | Some ?k => rewrite (int_digits_step c k s acc b eq_refl)
      end
  end.

Lemma int_digits_acc (d : Decimal.uint) :
  forall p : positive,
    int_digits (NilEmpty.string_of_uint d) (Z.pos p) true
    = Some (Z.pos (Pos.of_uint_acc d p)).
Proof.
  induction d; intros p; [reflexivity | ..]; digit_step;
    match goal with
    | |- int_digits _ ?acc true = Some (Z.pos (Pos.of_uint_acc _ ?q)) =>
        replace acc with (Z.pos q) by lia; apply IHd
    end.
Qed.

Lemma int_digits_uint (d : Decimal.uint) :
  int_digits (NilEmpty.string_of_uint d) 0 true
  = Some (Z.of_N (Pos.of_uint d)).
Proof.
  induction d; [reflexivity | ..]; digit_step;
    [exact IHd | apply int_digits_acc ..].
Qed.

Lemma int_digits_start (d : Decimal.uint) :
  d <> Decimal.Nil ->
  int_digits (NilEmpty.string_of_uint d) 0 false
  = int_digits (NilEmpty.string_of_uint d) 0 true.
Proof.
  destruct d; intros H; [contradiction | reflexivity ..].
Qed.

Lemma int_digits_pos (p : positive) :
  int_digits (NilZero.string_of_uint (Pos.to_uint p)) 0 false = Some (Z.pos p).
Proof.
  pose proof (DecimalPos.Unsigned.to_uint_nonnil p) as Hnil.
  assert (E : NilZero.string_of_uint (Pos.to_uint p)
              = NilEmpty.string_of_uint (Pos.to_uint p)).
  { destruct (Pos.to_uint p); [contradiction | reflexivity ..]. }
  rewrite E, int_digits_start, int_digits_uint by exact Hnil.
  now rewrite DecimalPos.Unsigned.of_to.
Qed.

Lemma uint_head_digit (p : positive) :
  exists c s, NilZero.string_of_uint (Pos.to_uint p) = String c s
              /\ is_digit c = true.
Proof.
  pose proof (DecimalPos.Unsigned.to_uint_nonnil p) as Hnil.
  destruct (Pos.to_uint p); [contradiction | ..]; simpl; eauto.
Qed.

Lemma int_blank_isspace (c : ascii) : int_blank c = true -> isspace c = true.
Proof.
  destruct c as [[] [] [] [] [] [] [] []]; vm_compute; intros H;
    try discriminate H; reflexivity.
Qed.

Lemma int_strip_plain (s : string) :
  all_chars not_isspace s = true -> int_strip s = s.
Proof.
  intros H.
  assert (Hb : forall c, not_isspace c = true -> int_blank c = false).
  { intros c Hc. unfold not_isspace in Hc. apply negb_true_iff in Hc.
    destruct (int_blank c) eqn:E; [| reflexivity].
    apply int_blank_isspace in E. congruence. }
  assert (R : forall t, all_chars not_isspace t = true -> int_rstrip t = t).
  { induction t as [|c t IH]; simpl; [reflexivity |].
    intros Ht. apply andb_prop in Ht as [Hc Ht].
    rewrite (IH Ht), (Hb c Hc). now destruct t. }
  unfold int_strip.
  assert (L : int_lstrip s = s).
  { destruct s as [|c s]; [reflexivity |]. simpl in *.
    apply andb_prop in H as [Hc _]. now rewrite (Hb c Hc). }
  rewrite L. now apply R.
Qed.

(** [int] reads back what ["%d"] writes. *)
Lemma int_format_d (z : Z) : int (format_d z) = Return z.
Proof.
  unfold int. rewrite int_strip_plain.
  2:{ apply all_chars_impl with (p := is_num_char);
      [apply num_char_plain | apply format_d_chars]. }
  unfold format_d. destruct z as [|p|p]; simpl.
  - reflexivity.
  - destruct (uint_head_digit p) as (c & s & E & Hc).
    pose proof (int_digits_pos p) as Hp. rewrite E in *.
    assert (Hm : (c =? "-")%char = false /\ (c =? "+")%char = false).
    { destruct c as [[] [] [] [] [] [] [] []]; vm_compute in Hc;
        try discriminate Hc; split; reflexivity. }
    destruct Hm as [-> ->]. now rewrite Hp.
  - now rewrite int_digits_pos.
Qed.

(** *** Reading back the title attribute *)

Lemma split_space_plain (s : string) :
  all_chars not_space s = true -> split_space s = [s].
Proof.
  induction s as [|c s IH]; simpl; [reflexivity |].
  intros H. apply andb_prop in H as [Hc Hs].
  unfold not_space in Hc. apply negb_true_iff in Hc.
  now rewrite Hc, (IH Hs).
Qed.

Lemma split_space_app (s t : string) :
  all_chars not_space s = true ->
  split_space (s ++ String " " t) = s :: split_space t.
Proof.
  induction s as [|c s IH]; simpl; [reflexivity |].
  intros H. apply andb_prop in H as [Hc Hs].
  unfold not_space in Hc. apply negb_true_iff in Hc.
  now rewrite Hc, (IH Hs).
Qed.

Lemma split_semi_space_cons (c : ascii) (r : string) :
  not_semicolon c = true ->
  split_semi_space (String c r) = cons_head c (split_semi_space r).
Proof.
  intros Hc. unfold not_semicolon in Hc. apply negb_true_iff in Hc.
  destruct r; cbn [split_semi_space]; [reflexivity |].
  now rewrite Hc.
Qed.

Lemma split_semi_space_plain (s : string) :
  all_chars not_semicolon s = true -> split_semi_space s = [s].
Proof.
  induction s as [|c s IH]; [reflexivity |].
  cbn [all_chars]. intros H. apply andb_prop in H as [Hc Hs].
  now rewrite (split_semi_space_cons _ _ Hc), (IH Hs).
Qed.

Lemma split_semi_space_app (s t : string) :
  all_chars not_semicolon s = true ->
  split_semi_space (s ++ String ";" (String " " t)) = s :: split_semi_space t.
Proof.
  induction s as [|c s IH]; [reflexivity |].
  cbn [all_chars]. intros H. apply andb_prop in H as [Hc Hs].
  change (String c s ++ String ";" (String " " t))
    with (String c (s ++ String ";" (String " " t))).
  now rewrite (split_semi_space_cons _ _ Hc), (IH Hs).
Qed.

Lemma format_d_not_space (z : Z) : all_chars not_space (format_d z) = true.
Proof.
  apply all_chars_impl with (p := is_num_char); [| apply format_d_chars].
  intros c Hc. apply (num_char_plain c Hc).
Qed.

Lemma format_d_not_semicolon (z : Z) :
  all_chars not_semicolon (format_d z) = true.
Proof.
  apply all_chars_impl with (p := is_num_char); [| apply format_d_chars].
  intros c Hc. apply (num_char_plain c Hc).
Qed.

Lemma format_d_not_isspace (z : Z) :
  all_chars not_isspace (format_d z) = true.
Proof.
  apply all_chars_impl with (p := is_num_char); [| apply format_d_chars].
  intros c Hc. apply (num_char_plain c Hc).
Qed.

(** The two pieces of the title that [get_xml_tag] writes. *)
Lemma xml_title_pieces (b : Box.t) :
  split_semi_space (Box.xml_title b)
  = [ "bbox " ++ format_d (fst (fst (Box.position b))) ++ " "
              ++ format_d (snd (fst (Box.position b))) ++ " "
              ++ format_d (fst (snd (Box.position b))) ++ " "
              ++ format_d (snd (snd (Box.position b)));
      "x_wconf " ++ format_d (Box.confidence b) ].
Proof.
  unfold Box.xml_title.
  set (a := format_d (fst (fst (Box.position b)))).
  set (b' := format_d (snd (fst (Box.position b)))).
  set (c := format_d (fst (snd (Box.position b)))).
  set (d := format_d (snd (snd (Box.position b)))).
  set (e := format_d (Box.confidence b)).
  replace ("bbox " ++ a ++ " " ++ b' ++ " " ++ c ++ " " ++ d ++ "; x_wconf " ++ e)
    with (("bbox " ++ a ++ " " ++ b' ++ " " ++ c ++ " " ++ d)
          ++ String ";" (String " " ("x_wconf " ++ e))).
  2:{ rewrite !append_assoc. reflexivity. }
  rewrite split_semi_space_app.
  - rewrite split_semi_space_plain; [reflexivity |].
    rewrite all_chars_app. subst e. now rewrite format_d_not_semicolon.
  - rewrite !all_chars_app. subst a b' c d.
    now rewrite !format_d_not_semicolon.
Qed.

Lemma rstrip_app_nonempty (s t : string) :
  rstrip t <> "" -> rstrip (s ++ t) = s ++ rstrip t.
Proof.
  intros Ht. induction s as [|c s IH]; simpl; [reflexivity |].
  rewrite IH. destruct (s ++ rstrip t) eqn:E; [| reflexivity].
  destruct s; simpl in E; [contradiction | discriminate].
Qed.

Lemma strip_app_plain (c : ascii) (s t : string) :
  isspace c = false ->
  all_chars not_isspace t = true -> t <> "" ->
  strip (String c s ++ t) = String c s ++ t.
Proof.
  intros Hc Ht Hne. unfold strip.
  change (String c s ++ t) with (String c (s ++ t)).
  cbn [lstrip]. rewrite Hc.
  change (String c (s ++ t)) with (String c s ++ t).
  rewrite rstrip_app_nonempty; rewrite (rstrip_plain _ Ht); auto.
Qed.

Lemma bbox_piece_strip (a b c d : Z) :
  strip ("bbox " ++ format_d a ++ " " ++ format_d b ++ " "
                 ++ format_d c ++ " " ++ format_d d)
  = "bbox " ++ format_d a ++ " " ++ format_d b ++ " "
            ++ format_d c ++ " " ++ format_d d.
Proof.
  replace ("bbox " ++ format_d a ++ " " ++ format_d b ++ " "
                   ++ format_d c ++ " " ++ format_d d)
    with (("bbox " ++ format_d a ++ " " ++ format_d b ++ " "
                   ++ format_d c ++ " ") ++ format_d d)
    by (rewrite !append_assoc; reflexivity).
  apply (strip_app_plain "b");
    [reflexivity | apply format_d_not_isspace | apply format_d_nonempty].
Qed.

Lemma bbox_piece_split (a b c d : Z) :
  split_space ("bbox " ++ format_d a ++ " " ++ format_d b ++ " "
                       ++ format_d c ++ " " ++ format_d d)
  = ["bbox"; format_d a; format_d b; format_d c; format_d d].
Proof.
  change ("bbox " ++ format_d a ++ " " ++ format_d b ++ " "
                  ++ format_d c ++ " " ++ format_d d)
    with ("bbox" ++ String " " (format_d a ++ String " " (format_d b
            ++ String " " (format_d c ++ String " " (format_d d))))).
  rewrite split_space_app by reflexivity.
  rewrite !split_space_app by apply format_d_not_space.
  now rewrite split_space_plain by apply format_d_not_space.
Qed.

Lemma wconf_piece_strip (e : Z) :
  strip ("x_wconf " ++ format_d e) = "x_wconf " ++ format_d e.
Proof.
  apply (strip_app_plain "x");
    [reflexivity | apply format_d_not_isspace | apply format_d_nonempty].
Qed.

Lemma wconf_piece_split (e : Z) :
  split_space ("x_wconf " ++ format_d e) = ["x_wconf"; format_d e].
Proof.
  change ("x_wconf " ++ format_d e) with ("x_wconf" ++ String " " (format_d e)).
  rewrite split_space_app by reflexivity.
  now rewrite split_space_plain by apply format_d_not_space.
Qed.

(** [__parse_confidence] and [__parse_position] read back what
    [get_xml_tag] wrote into the title. *)
Lemma parse_confidence_xml_title (b : Box.t) :
  WordHTMLParser.__parse_confidence (Box.xml_title b)
  = Return (Box.confidence b).
Proof.
  unfold WordHTMLParser.__parse_confidence. rewrite xml_title_pieces.
  cbn [WordHTMLParser.parse_confidence_loop].
  rewrite bbox_piece_strip, wconf_piece_strip.
  change (startswith ("bbox " ++ ?s) "x_wconf") with false.
  change (startswith ("x_wconf " ++ ?s) "x_wconf") with true.
  cbn [negb]. rewrite wconf_piece_split. cbn [getitem nth_error bind].
  apply int_format_d.
Qed.

Lemma parse_position_xml_title (b : Box.t) :
  WordHTMLParser.__parse_position (Box.xml_title b)
  = Return (Box.position b).
Proof.
  unfold WordHTMLParser.__parse_position. rewrite xml_title_pieces.
  cbn [WordHTMLParser.parse_position_loop].
  rewrite bbox_piece_strip.
  change (startswith ("bbox " ++ ?s) "bbox") with true.
  cbn [negb]. rewrite bbox_piece_split. cbn [getitem nth_error bind].
  rewrite !int_format_d. cbn [bind].
  now destruct (Box.position b) as [[x1 y1] [x2 y2]].
Qed.

(** *** Writing boxes and reading them back *)

Lemma WordHTMLParser_feed_app (l1 l2 : list event) :
  forall st : WordHTMLParser.t,
    WordHTMLParser.feed st (l1 ++ l2)
    = (st' <- WordHTMLParser.feed st l1 ;; WordHTMLParser.feed st' l2).
Proof.
  induction l1 as [|ev l1 IH]; intros st; simpl; [reflexivity |].
  destruct (WordHTMLParser.dispatch st ev); simpl; [apply IH | reflexivity].
Qed.

Lemma word_starttag_xml (st : WordHTMLParser.t) (b : Box.t) :
  WordHTMLParser.handle_starttag
    st "span" [("class", Some "ocrx_word"); ("title", Some (Box.xml_title b))]
  = Return (WordHTMLParser.mk
              (WordHTMLParser.tag_types st ++ ["ocrx_word"])
              (Some (Box.position b))
              (Some "")
              (Some (Box.confidence b))
              (WordHTMLParser.boxes st)
              (WordHTMLParser.current_line_position st)
              (WordHTMLParser.current_line_content st)
              (WordHTMLParser.lines st)).
Proof.
  unfold WordHTMLParser.handle_starttag.
  change (negb ("span" =? "span")%string) with false. cbv iota.
  change (WordHTMLParser.scan_attrs _)
    with (Some (Box.xml_title b), Some "ocrx_word").
  cbv iota beta.
  change (("ocrx_word" =? "ocr_word")%string || ("ocrx_word" =? "ocrx_word")%string)
    with true.
  cbv iota.
  rewrite parse_confidence_xml_title. cbn [bind].
  rewrite parse_position_xml_title. reflexivity.
Qed.

(** One written box is read back as the same box. *)
Lemma feed_box_events (st : WordHTMLParser.t) (b : Box.t) :
  WordHTMLParser.current_box_text st = None ->
  WordHTMLParser.feed st (box_events b) = Return (after_box st b).
Proof.
  intros Htext. unfold box_events, Box_get_xml_tag.
  cbn [node_events flat_map map fst snd].
  destruct st as [tts pos text conf bs lpos lcont ls].
  cbn in Htext. subst text.
  destruct b as [content position confidence].
  cbn [Box.content].
  destruct (content =? "")%string eqn:Ec.
  - apply String.eqb_eq in Ec. subst content.
    cbn [List.app].
    cbn [WordHTMLParser.feed WordHTMLParser.dispatch].
    change (WordHTMLParser.handle_starttag ?s "p" []) with (Return s).
    cbn [bind]. rewrite word_starttag_xml. cbn [bind].
    unfold WordHTMLParser.handle_endtag at 1.
    change (negb ("span" =? "span")%string) with false. cbv iota.
    cbn [WordHTMLParser.tag_types]. rewrite pop_app_last. reflexivity.
  - cbn [List.app].
    cbn [WordHTMLParser.feed WordHTMLParser.dispatch].
    change (WordHTMLParser.handle_starttag ?s "p" []) with (Return s).
    cbn [bind]. rewrite word_starttag_xml. cbn [bind].
    unfold WordHTMLParser.handle_data at 1.
    cbn [WordHTMLParser.current_box_text WordHTMLParser.tag_types].
    unfold WordHTMLParser.handle_endtag at 1.
    change (negb ("span" =? "span")%string) with false. cbv iota.
    cbn [WordHTMLParser.tag_types]. rewrite pop_app_last. reflexivity.
Qed.

Lemma after_box_text (st : WordHTMLParser.t) (b : Box.t) :
  WordHTMLParser.current_box_text (after_box st b) = None.
Proof.
  reflexivity.
Qed.

Lemma feed_boxes_events (boxes : list Box.t) :
  forall st : WordHTMLParser.t,
    WordHTMLParser.current_box_text st = None ->
    exists st' : WordHTMLParser.t,
      WordHTMLParser.feed st (flat_map box_events boxes) = Return st'
      /\ WordHTMLParser.boxes st' = (WordHTMLParser.boxes st ++ boxes)%list
      /\ WordHTMLParser.current_box_text st' = None.
Proof.
  induction boxes as [|b boxes IH]; intros st Htext.
  - exists st. simpl. rewrite app_nil_r. auto.
  - cbn [flat_map]. rewrite WordHTMLParser_feed_app.
    rewrite (feed_box_events st b Htext). cbn [bind].
    destruct (IH (after_box st b) (after_box_text st b)) as (st' & Hf & Hb & Ht).
    exists st'. split; [exact Hf |]. split; [| exact Ht].
    rewrite Hb. cbn [after_box WordHTMLParser.boxes].
    now rewrite <- app_assoc.
Qed.

Lemma feed_ignored_events (st : WordHTMLParser.t) (evs : list event) :
  WordHTMLParser.current_box_text st = None ->
  Forall (fun ev => match ev with
                    | StartTag tag _ | EndTag tag => (tag =? "span")%string = false
                    | Data _ => True
                    end) evs ->
  WordHTMLParser.feed st evs = Return st.
Proof.
  intros Htext Hall. induction Hall as [|ev evs Hev Hall IH]; [reflexivity |].
  cbn [WordHTMLParser.feed].
  assert (E : WordHTMLParser.dispatch st ev = Return st).
  { destruct ev as [tag attrs|data|tag]; cbn [WordHTMLParser.dispatch].
    - unfold WordHTMLParser.handle_starttag. now rewrite Hev.
    - unfold WordHTMLParser.handle_data. now rewrite Htext.
    - unfold WordHTMLParser.handle_endtag. now rewrite Hev. }
  rewrite E. exact IH.
Qed.

(** The word-tag parser finds exactly the written boxes. *)
Lemma word_feed_write_file (boxes : list Box.t) :
  exists p : WordHTMLParser.t,
    WordHTMLParser.feed WordHTMLParser.__init__ (WordBoxBuilder.write_file boxes)
    = Return p
    /\ WordHTMLParser.boxes p = boxes.
Proof.
  unfold WordBoxBuilder.write_file.
  rewrite WordHTMLParser_feed_app.
  rewrite feed_ignored_events;
    [| reflexivity | unfold _XHTML_HEADER; repeat constructor].
  cbn [bind]. rewrite WordHTMLParser_feed_app.
  rewrite feed_ignored_events; [| reflexivity | repeat constructor].
  cbn [bind]. rewrite WordHTMLParser_feed_app.
  destruct (feed_boxes_events boxes WordHTMLParser.__init__ eq_refl)
    as (st' & Hf & Hb & Ht).
  change (flat_map _ boxes) with (flat_map box_events boxes).
  rewrite Hf. cbn [bind].
  rewrite feed_ignored_events; [| exact Ht | repeat constructor].
  exists st'. split; [reflexivity | exact Hb].
Qed.

Lemma pop_empty_last_spec (boxes : list Box.t) :
  pop_empty_last boxes = drop_empty_last boxes.
Proof.
  induction boxes as [|b boxes IH] using rev_ind; [reflexivity |].
  assert (D : forall l : list Box.t,
             drop_empty_last (l ++ [b])
             = if (Box.content b =? "")%string then l else (l ++ [b])%list).
  { clear. induction l as [|a l IHl]; [simpl; now destruct (_ =? _)%string |].
    change ((a :: l) ++ [b])%list with (a :: (l ++ [b]))%list.
    cbn [drop_empty_last]. rewrite IHl.
    destruct (l ++ [b])%list eqn:E; [now destruct l |].
    now destruct (_ =? _)%string. }
  rewrite D. unfold pop_empty_last. now rewrite pop_app_last.
Qed.

Lemma boxes_eq_refl (l : list Box.t) : boxes_eq l l = true.
Proof.
  induction l as [|b l IH]; simpl; [reflexivity |].
  rewrite IH, andb_true_r. unfold Box.__eq__. rewrite Box_cmp_tuple.
  now rewrite (proj2 (tuple_compare_eq _ _) eq_refl).
Qed.

(** C4: reading back what [WordBoxBuilder.write_file] wrote for any
    collection of boxes returns that collection without an empty-text last
    box: the same boxes in the same order, equal under [==] (and with the
    same text and confidence). *)
Theorem write_read_roundtrip (boxes : list Box.t) :
  exists parsed : list Box.t,
    WordBoxBuilder.read_file (WordBoxBuilder.write_file boxes) = Return parsed
    /\ boxes_eq parsed (drop_empty_last boxes) = true
    /\ parsed = drop_empty_last boxes.
Proof.
  exists (drop_empty_last boxes).
  split; [| split; [apply boxes_eq_refl | reflexivity]].
  destruct (word_feed_write_file boxes) as (p & Hfeed & Hboxes).
  unfold WordBoxBuilder.read_file. rewrite Hfeed. cbn [bind]. rewrite Hboxes.
  destruct boxes as [|b boxes].
  - reflexivity.
  - cbn [length Nat.ltb Nat.leb]. now rewrite pop_empty_last_spec.
Qed.

(** *** The order of regions as an order *)

Lemma tuple_compare_lt (k1 k2 : Z * Z * Z * Z) :
  tuple_compare k1 k2 = Lt <-> lex_lt k1 k2.
Proof.
  destruct k1 as [[[a1 a2] a3] a4], k2 as [[[b1 b2] b3] b4].
  unfold tuple_compare, lex_lt.
  destruct (Z.compare_spec a1 b1), (Z.compare_spec a2 b2),
    (Z.compare_spec a3 b3), (Z.compare_spec a4 b4);
    simpl; split; intros; try discriminate; try reflexivity;
    try lia; exfalso; lia.
Qed.

Lemma tuple_compare_antisym (k1 k2 : Z * Z * Z * Z) :
  tuple_compare k2 k1 = CompOpp (tuple_compare k1 k2).
Proof.
  destruct k1 as [[[a1 a2] a3] a4], k2 as [[[b1 b2] b3] b4].
  unfold tuple_compare.
  rewrite (Z.compare_antisym a1 b1), (Z.compare_antisym a2 b2),
    (Z.compare_antisym a3 b3), (Z.compare_antisym a4 b4).
  destruct (a1 ?= b1), (a2 ?= b2), (a3 ?= b3), (a4 ?= b4); reflexivity.
Qed.

Lemma lex_lt_trans (k1 k2 k3 : Z * Z * Z * Z) :
  lex_lt k1 k2 -> lex_lt k2 k3 -> lex_lt k1 k3.
Proof.
  destruct k1 as [[[a1 a2] a3] a4], k2 as [[[b1 b2] b3] b4],
    k3 as [[[c1 c2] c3] c4].
  unfold lex_lt. lia.
Qed.

Lemma Box_lt_lex (a b : Box.t) :
  Box.__lt__ a (Some b) = true
  <-> lex_lt (sort_key (Box.position a)) (sort_key (Box.position b)).
Proof.
  unfold Box.__lt__. rewrite Box_cmp_tuple, <- tuple_compare_lt.
  destruct (tuple_compare _ _); vm_compute; split; intros H;
    try discriminate H; reflexivity.
Qed.

Lemma LineBox_lt_lex (a b : LineBox.t) :
  LineBox.__lt__ a (Some b) = true
  <-> lex_lt (sort_key (LineBox.position a)) (sort_key (LineBox.position b)).
Proof.
  unfold LineBox.__lt__. rewrite LineBox_cmp_tuple, <- tuple_compare_lt.
  destruct (tuple_compare _ _); vm_compute; split; intros H;
    try discriminate H; reflexivity.
Qed.

(** X1: [<] between regions is transitive, for boxes and for lines: from
    [a < b] and [b < c] follows [a < c]. *)
Theorem region_lt_transitive
        (a b c : Box.t) (la lb lc : LineBox.t)
        (Hab : Box.__lt__ a (Some b) = true)
        (Hbc : Box.__lt__ b (Some c) = true)
        (Hlab : LineBox.__lt__ la (Some lb) = true)
        (Hlbc : LineBox.__lt__ lb (Some lc) = true) :
  Box.__lt__ a (Some c) = true /\ LineBox.__lt__ la (Some lc) = true.
Proof.
  split.
  - apply Box_lt_lex. eapply lex_lt_trans; apply Box_lt_lex; eassumption.
  - apply LineBox_lt_lex. eapply lex_lt_trans; apply LineBox_lt_lex; eassumption.
Qed.

Lemma region_lt_transitive_witness :
  let a := Box.new "a" ((0, 0), (5, 9)) 0 in
  let b := Box.new "b" ((7, 0), (9, 9)) 0 in
  let c := Box.new "c" ((0, 4), (5, 6)) 0 in
  let la := LineBox.new [a] ((0, 0), (9, 9)) in
  let lb := LineBox.new [b] ((0, 0), (9, 12)) in
  let lc := LineBox.new [c] ((0, 4), (5, 6)) in
  Box.__lt__ a (Some c) = true /\ LineBox.__lt__ la (Some lc) = true.
Proof.
  intros a b c la lb lc.
  apply (region_lt_transitive a b c la lb lc); reflexivity.
Defined.

Lemma mirror_ops (c : comparison) :
  (cmp_value c >? 0) = (cmp_value (CompOpp c) <? 0)
  /\ (cmp_value c >=? 0) = (cmp_value (CompOpp c) <=? 0)
  /\ (cmp_value c =? 0) = (cmp_value (CompOpp c) =? 0)
  /\ ((cmp_value c =? 0) = true <-> c = Eq).
Proof.
  destruct c; vm_compute; repeat split; intros H; try discriminate H;
    reflexivity.
Qed.

(** X2: the operators of one pair of regions fit together: [a > b] is
    [b < a], [a >= b] is [b <= a], [a == b] is [b == a], and [a == b] holds
    exactly when the two rectangles are the same.  For boxes and for
    lines. *)
Theorem region_operators_mirror (a b : Box.t) (la lb : LineBox.t) :
  (Box.__gt__ a (Some b) = Box.__lt__ b (Some a)
   /\ Box.__ge__ a (Some b) = Box.__le__ b (Some a)
   /\ Box.__eq__ a (Some b) = Box.__eq__ b (Some a)
   /\ (Box.__eq__ a (Some b) = true <-> Box.position a = Box.position b))
  /\ (LineBox.__gt__ la (Some lb) = LineBox.__lt__ lb (Some la)
      /\ LineBox.__ge__ la (Some lb) = LineBox.__le__ lb (Some la)
      /\ LineBox.__eq__ la (Some lb) = LineBox.__eq__ lb (Some la)
      /\ (LineBox.__eq__ la (Some lb) = true
          <-> LineBox.position la = LineBox.position lb)).
Proof.
  unfold Box.__gt__, Box.__lt__, Box.__ge__, Box.__le__, Box.__eq__,
    LineBox.__gt__, LineBox.__lt__, LineBox.__ge__, LineBox.__le__,
    LineBox.__eq__.
  rewrite !Box_cmp_tuple, !LineBox_cmp_tuple.
  rewrite (tuple_compare_antisym (sort_key (Box.position a))
                                 (sort_key (Box.position b))).
  rewrite (tuple_compare_antisym (sort_key (LineBox.position la))
                                 (sort_key (LineBox.position lb))).
  rewrite <- (tuple_compare_eq (Box.position a) (Box.position b)).
  rewrite <- (tuple_compare_eq (LineBox.position la) (LineBox.position lb)).
  split; apply mirror_ops.
Qed.

(** X3: the hash only sees the low byte of every coordinate: two boxes
    (or two lines) hash alike exactly when their four coordinates agree
    modulo 256, whatever their text. *)
Theorem hash_equal_iff_low_bytes
        (hash : string -> Z) (a b : Box.t) (la lb : LineBox.t) :
  (Box.__hash__ hash a = Box.__hash__ hash b
   <-> (fst (fst (Box.position a)) mod 256 = fst (fst (Box.position b)) mod 256
        /\ snd (fst (Box.position a)) mod 256 = snd (fst (Box.position b)) mod 256
        /\ fst (snd (Box.position a)) mod 256 = fst (snd (Box.position b)) mod 256
        /\ snd (snd (Box.position a)) mod 256
           = snd (snd (Box.position b)) mod 256))
  /\ (LineBox.__hash__ hash la = LineBox.__hash__ hash lb
      <-> (fst (fst (LineBox.position la)) mod 256
           = fst (fst (LineBox.position lb)) mod 256
           /\ snd (fst (LineBox.position la)) mod 256
              = snd (fst (LineBox.position lb)) mod 256
           /\ fst (snd (LineBox.position la)) mod 256
              = fst (snd (LineBox.position lb)) mod 256
           /\ snd (snd (LineBox.position la)) mod 256
              = snd (snd (LineBox.position lb)) mod 256)).
Proof.
  assert (G : forall p q : rect,
             pack_bytes p = pack_bytes q
             <-> (fst (fst p) mod 256 = fst (fst q) mod 256
                  /\ snd (fst p) mod 256 = snd (fst q) mod 256
                  /\ fst (snd p) mod 256 = fst (snd q) mod 256
                  /\ snd (snd p) mod 256 = snd (snd q) mod 256)).
  { intros p q. unfold pack_bytes.
    pose proof (Z.mod_pos_bound (fst (fst p)) 256 ltac:(lia)).
    pose proof (Z.mod_pos_bound (snd (fst p)) 256 ltac:(lia)).
    pose proof (Z.mod_pos_bound (fst (snd p)) 256 ltac:(lia)).
    pose proof (Z.mod_pos_bound (snd (snd p)) 256 ltac:(lia)).
    pose proof (Z.mod_pos_bound (fst (fst q)) 256 ltac:(lia)).
    pose proof (Z.mod_pos_bound (snd (fst q)) 256 ltac:(lia)).
    pose proof (Z.mod_pos_bound (fst (snd q)) 256 ltac:(lia)).
    pose proof (Z.mod_pos_bound (snd (snd q)) 256 ltac:(lia)).
    lia. }
  rewrite !Box_hash_pack, !LineBox_hash_pack. split; apply G.
Qed.

(** *** The text builder *)

Lemma join_cons_cons (sep w v : string) (ws : list string) :
  join sep (w :: v :: ws) = w ++ sep ++ join sep (v :: ws).
Proof.
  reflexivity.
Qed.

Lemma glue_join (ws : list string) :
  forall acc : string,
    acc <> "" -> Forall (fun w => w <> "") ws ->
    glue acc ws = join " " (acc :: ws).
Proof.
  induction ws as [|w ws IH]; intros acc Hacc Hws; [reflexivity |].
  apply Forall_cons_iff in Hws as [Hw Hws].
  cbn [glue]. apply String.eqb_neq in Hacc. rewrite Hacc. cbn [negb].
  rewrite IH; [| | exact Hws].
  - destruct ws as [|v ws].
    + cbn [join]. now rewrite append_assoc.
    + rewrite !join_cons_cons. now rewrite !append_assoc.
  - destruct acc; [discriminate Hacc | discriminate].
Qed.

Lemma glue_empty (ws : list string) :
  Forall (fun w => w <> "") ws -> glue "" ws = join " " ws.
Proof.
  destruct ws as [|w ws]; intros Hws; [reflexivity |].
  apply Forall_cons_iff in Hws as [Hw Hws].
  cbn [glue String.eqb negb append]. now apply glue_join.
Qed.

Lemma TextBuilder_add_words (words : list string) :
  forall (self : TextBuilder.t) (before : list string) (acc : string)
         (box : rect) (rest : list call),
    TextBuilder.built_text self = (before ++ [acc])%list ->
    TextBuilder_run self (map (fun w => AddWord w box 0) words ++ rest)
    = TextBuilder_run
        (TextBuilder.with_built_text self (before ++ [glue acc words])) rest.
Proof.
  induction words as [|w words IH]; intros self before acc box rest Hbt.
  - cbn [map List.app glue]. rewrite <- Hbt. now destruct self.
  - cbn [map List.app TextBuilder_run glue].
    unfold TextBuilder.add_word. rewrite Hbt, pop_app_last. cbn [bind].
    erewrite IH by reflexivity. reflexivity.
Qed.

Lemma TextBuilder_run_lines (lines : list (rect * list string)) :
  forall self : TextBuilder.t,
    Forall (fun l => Forall (fun w => w <> "") (snd l)) lines ->
    TextBuilder_run self (flat_map (fun l => line_calls (fst l) (snd l)) lines)
    = Return (TextBuilder.with_built_text
                self
                (TextBuilder.built_text self
                   ++ map (fun l => join " " (snd l)) lines)).
Proof.
  induction lines as [|[box words] lines IH]; intros self Hall.
  - cbn [flat_map map TextBuilder_run]. rewrite app_nil_r. now destruct self.
  - apply Forall_cons_iff in Hall as [Hwords Hall]. cbn [fst snd] in Hwords.
    cbn [flat_map fst snd]. unfold line_calls at 1.
    cbn [List.app TextBuilder_run]. rewrite <- app_assoc.
    rewrite (TextBuilder_add_words words _ (TextBuilder.built_text self) "");
      [| reflexivity].
    cbn [List.app TextBuilder_run]. unfold TextBuilder.end_line.
    rewrite IH by exact Hall.
    rewrite glue_empty by exact Hwords.
    unfold TextBuilder.with_built_text. cbn.
    now rewrite <- app_assoc.
Qed.

(** X4: handing lines of non-empty words to a text builder ([start_line],
    [add_word] for every word, [end_line]) makes [get_output] the text so
    far followed by the new lines: words joined by single spaces, lines
    separated by newlines. *)
Theorem text_builder_output
        (self : TextBuilder.t) (lines : list (rect * list string))
        (Hwords : Forall (fun l => Forall (fun w => w <> "") (snd l)) lines) :
  exists self' : TextBuilder.t,
    TextBuilder_run self (flat_map (fun l => line_calls (fst l) (snd l)) lines)
    = Return self'
    /\ TextBuilder.get_output self'
       = join nl (TextBuilder.built_text self
                    ++ map (fun l => join " " (snd l)) lines).
Proof.
  eexists. split; [apply TextBuilder_run_lines; exact Hwords | reflexivity].
Qed.

Lemma text_builder_output_witness :
  exists self' : TextBuilder.t,
    TextBuilder_run
      (TextBuilder.__init__ 3 false false false)
      (line_calls ((0, 0), (9, 9)) ["Hello"; "World"]
       ++ line_calls ((0, 10), (9, 19)) ["Second"; "line"])
    = Return self'
    /\ TextBuilder.get_output self'
       = "Hello World" ++ nl ++ "Second line".
Proof.
  destruct (text_builder_output
              (TextBuilder.__init__ 3 false false false)
              [ (((0, 0), (9, 9)), ["Hello"; "World"]);
                (((0, 10), (9, 19)), ["Second"; "line"]) ])
    as (self' & Hrun & Hout).
  - repeat constructor; discriminate.
  - exists self'. split; [exact Hrun | exact Hout].
Defined.

Lemma lstrip_head (s : string) :
  match lstrip s with
  | EmptyString => True
  | String c _ => isspace c = false
  end.
Proof.
  induction s as [|c s IH]; simpl; [exact I |].
  destruct (isspace c) eqn:E; [exact IH | exact E].
Qed.

Lemma rstrip_idempotent (s : string) : rstrip (rstrip s) = rstrip s.
Proof.
  induction s as [|c s IH]; simpl; [reflexivity |].
  destruct (rstrip s) as [|c' r] eqn:E.
  - destruct (isspace c) eqn:Ec; simpl; [reflexivity | now rewrite Ec].
  - cbn [rstrip] in IH |- *. cbn [rstrip]. 
    change (rstrip (String c (String c' r)))
      with (match rstrip (String c' r) with
            | EmptyString => if isspace c then EmptyString
                             else String c EmptyString
            | r0 => String c r0
            end).
    now rewrite IH.
Qed.

Lemma rstrip_keeps_head (c : ascii) (s : string) :
  isspace c = false ->
  exists r, rstrip (String c s) = String c r.
Proof.
  intros Hc. simpl. destruct (rstrip s); [rewrite Hc |]; eauto.
Qed.

(** X5: [TextBuilder.read_file] returns text without whitespace at either
    end, and writing that text back and reading it again returns it
    unchanged. *)
Theorem text_read_file_stable (content : string) :
  lstrip (TextBuilder.read_file content) = TextBuilder.read_file content
  /\ rstrip (TextBuilder.read_file content) = TextBuilder.read_file content
  /\ TextBuilder.read_file (TextBuilder.write_file (TextBuilder.read_file content))
     = TextBuilder.read_file content.
Proof.
  unfold TextBuilder.read_file, TextBuilder.write_file.
  assert (L : lstrip (strip content) = strip content).
  { unfold strip. pose proof (lstrip_head content) as Hh.
    destruct (lstrip content) as [|c s]; [reflexivity |].
    destruct (rstrip_keeps_head c s Hh) as [r ->]. simpl. now rewrite Hh. }
  assert (R : rstrip (strip content) = strip content)
    by apply rstrip_idempotent.
  split; [exact L |]. split; [exact R |].
  unfold strip at 1. now rewrite L, R.
Qed.

(** *** The line builder *)

Lemma pop_cases {A : Type} (l : list A) :
  (l = [] /\ pop l = Raise IndexError)
  \/ (exists before last, l = (before ++ [last])%list
                          /\ pop l = Return (last, before)).
Proof.
  destruct l as [|a l] using rev_ind.
  - left. split; reflexivity.
  - right. exists l, a. split; [reflexivity | apply pop_app_last].
Qed.

Lemma start_line_keeps (lines : list LineBox.t) (box : rect) :
  earlier_lines_nonempty lines ->
  earlier_lines_nonempty (LineBoxBuilder_start_line lines box).
Proof.
  intros Hinv. unfold LineBoxBuilder_start_line.
  destruct (pop_cases lines) as [[-> _] | (before & last & -> & ->)].
  - simpl. constructor.
  - unfold earlier_lines_nonempty in *. rewrite removelast_last in Hinv.
    rewrite length_app. cbn [length].
    replace (0 <? length before + 1)%nat with true
      by (symmetry; apply Nat.ltb_lt; lia).
    cbn [andb]. unfold to_unicode.
    destruct (LineBox.content last =? "")%string eqn:E.
    + now rewrite removelast_last.
    + rewrite removelast_last. apply Forall_app. split; [exact Hinv |].
      constructor; [| constructor]. now apply String.eqb_neq.
Qed.

Lemma add_word_keeps (lines lines' : list LineBox.t)
      (word : string) (box : rect) (confidence : Z) :
  earlier_lines_nonempty lines ->
  LineBoxBuilder_add_word lines word box confidence = Return lines' ->
  earlier_lines_nonempty lines'.
Proof.
  intros Hinv. unfold LineBoxBuilder_add_word.
  destruct (pop_cases lines) as [[-> ->] | (before & last & -> & ->)];
    [discriminate |].
  cbn [bind]. intros [= <-].
  unfold earlier_lines_nonempty in *.
  now rewrite removelast_last in *.
Qed.

Lemma LineBoxBuilder_run_keeps (calls : list call) :
  forall lines lines' : list LineBox.t,
    earlier_lines_nonempty lines ->
    LineBoxBuilder_run lines calls = Return lines' ->
    earlier_lines_nonempty lines'.
Proof.
  induction calls as [|c calls IH]; intros lines lines' Hinv Hrun.
  - injection Hrun as <-. exact Hinv.
  - destruct c as [box | word box confidence |]; cbn [LineBoxBuilder_run] in Hrun.
    + eapply IH; [| exact Hrun]. now apply start_line_keeps.
    + destruct (LineBoxBuilder_add_word lines word box confidence) as [l1|e]
        eqn:E; [| discriminate Hrun].
      eapply IH; [| exact Hrun]. eapply add_word_keeps; eauto.
    + eapply IH; eauto.
Qed.

(** X6: whatever calls a fresh line builder receives, as long as none of
    them raises, its output has no empty line except possibly the last:
    every line before the last one has non-empty content.  ([start_line]
    opens no new line while the last one is still empty.) *)
Theorem line_builder_no_empty_line (calls : list call) (lines : list LineBox.t)
        (Hrun : LineBoxBuilder_run [] calls = Return lines) :
  earlier_lines_nonempty lines.
Proof.
  eapply LineBoxBuilder_run_keeps; [| exact Hrun]. constructor.
Qed.

Lemma line_builder_no_empty_line_witness :
  earlier_lines_nonempty
    [ LineBox.new [Box.new "Hi" ((1, 1), (2, 2)) 7] ((0, 0), (9, 9));
      LineBox.new [] ((0, 20), (9, 29)) ].
Proof.
  apply (line_builder_no_empty_line
           [ StartLine ((0, 0), (9, 9)); StartLine ((0, 5), (9, 8));
             AddWord "Hi" ((1, 1), (2, 2)) 7; EndLine;
             StartLine ((0, 20), (9, 29)); StartLine ((0, 30), (9, 39)) ]).
  reflexivity.
Defined.

(** *** More of the word-tag parser *)

Lemma parse_confidence_loop_no_wconf (pieces : list string) :
  existsb (fun piece => startswith (strip piece) "x_wconf") pieces = false ->
  WordHTMLParser.parse_confidence_loop pieces = Return 0.
Proof.
  induction pieces as [|p pieces IH]; simpl; intros H; [reflexivity |].
  apply orb_false_elim in H as [Hp H]. rewrite Hp. simpl. now apply IH.
Qed.

(** X7: a word tag whose title has a readable bbox but no [x_wconf] piece
    still yields a box: its text is the data inside the tag, its rectangle
    the bbox, and its confidence 0. *)
Theorem word_tag_without_wconf
        (st : WordHTMLParser.t) (attrs : list attr) (title tag_type : string)
        (pos : rect) (data : string) (rest : list event)
        (Hscan : WordHTMLParser.scan_attrs attrs = (Some title, Some tag_type))
        (Hword : tag_type = "ocr_word" \/ tag_type = "ocrx_word")
        (Hwconf : has_wconf title = false)
        (Hpos : WordHTMLParser.__parse_position title = Return pos) :
  WordHTMLParser.feed
    st (StartTag "span" attrs :: Data data :: EndTag "span" :: rest)
  = WordHTMLParser.feed (after_box st (Box.new data pos 0)) rest.
Proof.
  assert (Ht : ((tag_type =? "ocr_word")%string
                || (tag_type =? "ocrx_word")%string) = true)
    by (destruct Hword as [-> | ->]; reflexivity).
  cbn [WordHTMLParser.feed WordHTMLParser.dispatch].
  unfold WordHTMLParser.handle_starttag.
  change (negb ("span" =? "span")%string) with false. cbv iota.
  rewrite Hscan, Ht.
  unfold WordHTMLParser.__parse_confidence.
  rewrite (parse_confidence_loop_no_wconf _ Hwconf). cbn [bind].
  rewrite Hpos. cbn [bind].
  unfold WordHTMLParser.handle_data at 1.
  cbn [WordHTMLParser.current_box_text].
  unfold WordHTMLParser.handle_endtag at 1.
  change (negb ("span" =? "span")%string) with false. cbv iota.
  cbn [WordHTMLParser.tag_types]. rewrite pop_app_last. cbn [bind].
  rewrite Ht. destruct st. reflexivity.
Qed.

Lemma word_tag_without_wconf_witness :
  WordBoxBuilder.read_file
    [ StartTag "span" [("class", Some "ocr_word"); ("title", Some "bbox 1 2 30 40")];
      Data "word"; EndTag "span" ]
  = Return [Box.new "word" ((1, 2), (30, 40)) 0].
Proof.
  unfold WordBoxBuilder.read_file.
  rewrite (word_tag_without_wconf
             WordHTMLParser.__init__
             [("class", Some "ocr_word"); ("title", Some "bbox 1 2 30 40")]
             "bbox 1 2 30 40" "ocr_word" ((1, 2), (30, 40)) "word" []
             eq_refl (or_introl eq_refl) eq_refl eq_refl).
  reflexivity.
Defined.

Lemma handle_data_tag_types (st : WordHTMLParser.t) (data : string) :
  WordHTMLParser.tag_types (WordHTMLParser.handle_data st data)
  = WordHTMLParser.tag_types st.
Proof.
  unfold WordHTMLParser.handle_data.
  now destruct (WordHTMLParser.current_box_text st).
Qed.

Lemma starttag_unclassified (st : WordHTMLParser.t) (attrs : list attr) :
  fst (WordHTMLParser.scan_attrs attrs) = None
  \/ snd (WordHTMLParser.scan_attrs attrs) = None ->
  WordHTMLParser.handle_starttag st "span" attrs = Return st.
Proof.
  intros H. unfold WordHTMLParser.handle_starttag.
  change (negb ("span" =? "span")%string) with false. cbv iota.
  destruct (WordHTMLParser.scan_attrs attrs) as [[title|] [tag_type|]];
    cbn [fst snd] in H; try reflexivity.
  destruct H; discriminate.
Qed.

Lemma endtag_empty_stack (st : WordHTMLParser.t) :
  WordHTMLParser.tag_types st = [] ->
  WordHTMLParser.handle_endtag st "span" = Raise IndexError.
Proof.
  intros H. unfold WordHTMLParser.handle_endtag.
  change (negb ("span" =? "span")%string) with false. cbv iota.
  now rewrite H.
Qed.

Lemma LineHTMLParser_feed_idle (html : list event) :
  Forall non_span html ->
  LineHTMLParser.feed LineHTMLParser.__init__ html
  = Return LineHTMLParser.__init__.
Proof.
  induction 1 as [|ev html Hev Hall IH]; [reflexivity |].
  cbn [LineHTMLParser.feed].
  assert (E : LineHTMLParser.dispatch LineHTMLParser.__init__ ev
              = Return LineHTMLParser.__init__).
  { destruct ev as [tag attrs|data|tag]; cbn [LineHTMLParser.dispatch];
      [| reflexivity | reflexivity].
    unfold LineHTMLParser.handle_starttag. simpl in Hev. now rewrite Hev. }
  rewrite E. exact IH.
Qed.

(** X8: a [span] that has no class or no title (or has one without a
    value) is not put on the tag stack, but its close tag pops the stack
    all the same.  When the stack is empty there, the parser raises
    [IndexError]; in a document that has no other span before it, both
    [read_file] methods end with that exception. *)
Theorem unclassified_span_raises
        (st : WordHTMLParser.t) (attrs : list attr) (data : string)
        (pre rest : list event)
        (Hstack : WordHTMLParser.tag_types st = [])
        (Hattrs : fst (WordHTMLParser.scan_attrs attrs) = None
                  \/ snd (WordHTMLParser.scan_attrs attrs) = None)
        (Hpre : Forall non_span pre) :
  WordHTMLParser.feed
    st (StartTag "span" attrs :: Data data :: EndTag "span" :: rest)
  = Raise IndexError
  /\ WordBoxBuilder.read_file
       (pre ++ StartTag "span" attrs :: Data data :: EndTag "span" :: rest)
     = Raise IndexError
  /\ LineBoxBuilder.read_file
       (pre ++ StartTag "span" attrs :: Data data :: EndTag "span" :: rest)
     = Raise IndexError.
Proof.
  assert (G : forall s : WordHTMLParser.t,
             WordHTMLParser.tag_types s = [] ->
             WordHTMLParser.feed
               s (StartTag "span" attrs :: Data data :: EndTag "span" :: rest)
             = Raise IndexError).
  { intros s Hs. cbn [WordHTMLParser.feed WordHTMLParser.dispatch].
    rewrite (starttag_unclassified s attrs Hattrs). cbn [bind].
    rewrite endtag_empty_stack; [reflexivity |].
    now rewrite handle_data_tag_types. }
  assert (F : WordHTMLParser.feed
                WordHTMLParser.__init__
                (pre ++ StartTag "span" attrs :: Data data :: EndTag "span" :: rest)
              = Raise IndexError).
  { rewrite WordHTMLParser_feed_app.
    rewrite (feed_ignored_events WordHTMLParser.__init__ pre eq_refl Hpre).
    cbn [bind]. now apply G. }
  split; [now apply G |].
  unfold WordBoxBuilder.read_file, LineBoxBuilder.read_file.
  rewrite F. split; reflexivity.
Qed.

Lemma unclassified_span_raises_witness :
  WordBoxBuilder.read_file
    [ StartTag "p" []; StartTag "span" [("id", Some "note")];
      Data "plain"; EndTag "span"; EndTag "p" ]
  = Raise IndexError.
Proof.
  destruct (unclassified_span_raises
              WordHTMLParser.__init__ [("id", Some "note")] "plain"
              [StartTag "p" []] [EndTag "p"]
              eq_refl (or_introl eq_refl)
              (Forall_cons (StartTag "p" []) (eq_refl : non_span (StartTag "p" []))
                           (Forall_nil non_span)))
    as (_ & H & _).
  exact H.
Defined.

(** X9: a [span] with a title and with a class other than [ocr_word],
    [ocrx_word] and [ocr_line] is pushed and popped and changes nothing
    else: the parser goes on as if only the text inside it had been
    there. *)
Theorem other_span_transparent
        (st : WordHTMLParser.t) (attrs : list attr) (title tag_type : string)
        (data : string) (rest : list event)
        (Hscan : WordHTMLParser.scan_attrs attrs = (Some title, Some tag_type))
        (Hother : tag_type <> "ocr_word" /\ tag_type <> "ocrx_word"
                  /\ tag_type <> "ocr_line") :
  WordHTMLParser.feed
    st (StartTag "span" attrs :: Data data :: EndTag "span" :: rest)
  = WordHTMLParser.feed (WordHTMLParser.handle_data st data) rest.
Proof.
  destruct Hother as (H1 & H2 & H3).
  apply String.eqb_neq in H1, H2, H3.
  cbn [WordHTMLParser.feed WordHTMLParser.dispatch].
  unfold WordHTMLParser.handle_starttag.
  change (negb ("span" =? "span")%string) with false. cbv iota.
  rewrite Hscan, H1, H2, H3. cbn [orb bind].
  unfold WordHTMLParser.handle_endtag.
  change (negb ("span" =? "span")%string) with false. cbv iota.
  destruct st as [tts pos [text|] conf bs lpos lcont ls];
    cbn [WordHTMLParser.handle_data WordHTMLParser.current_box_text
         WordHTMLParser.tag_types];
    rewrite pop_app_last; cbn [bind]; rewrite H1, H2, H3; reflexivity.
Qed.

Lemma other_span_transparent_witness :
  let st := WordHTMLParser.mk ["ocrx_word"] (Some ((1, 2), (3, 4)))
                              (Some "a") (Some 9) [] None [] [] in
  WordHTMLParser.feed
    st [ StartTag "span" [("class", Some "ocr_page");
                          ("title", Some "image x.png")];
         Data "b"; EndTag "span";
         Data "c"; EndTag "span" ]
  = Return (WordHTMLParser.mk [] (Some ((1, 2), (3, 4))) None (Some 9)
                              [Box.new "abc" ((1, 2), (3, 4)) 9] None
                              [Box.new "abc" ((1, 2), (3, 4)) 9] []).
Proof.
  intros st.
  rewrite (other_span_transparent
             st [("class", Some "ocr_page"); ("title", Some "image x.png")]
             "image x.png" "ocr_page" "b"
             [Data "c"; EndTag "span"] eq_refl).
  - reflexivity.
  - repeat split; discriminate.
Defined.

(** X10: a document without any [span] tag is no error for either
    builder: both [read_file] methods return the empty collection. *)
Theorem no_span_document_empty (html : list event)
        (Hnone : Forall non_span html) :
  WordBoxBuilder.read_file html = Return []
  /\ LineBoxBuilder.read_file html = Return [].
Proof.
  unfold WordBoxBuilder.read_file, LineBoxBuilder.read_file.
  rewrite (feed_ignored_events WordHTMLParser.__init__ html eq_refl Hnone).
  cbn [bind]. rewrite (LineHTMLParser_feed_idle html Hnone).
  split; reflexivity.
Qed.

Lemma no_span_document_empty_witness :
  WordBoxBuilder.read_file
    (_XHTML_HEADER ++ [StartTag "body" []; Data "no words"; EndTag "body"])
  = Return []
  /\ LineBoxBuilder.read_file
       (_XHTML_HEADER ++ [StartTag "body" []; Data "no words"; EndTag "body"])
     = Return [].
Proof.
  apply no_span_document_empty.
  unfold _XHTML_HEADER. repeat constructor.
Defined.

(** X11: when the word-tag parser finds no box in a document, the two
    builders agree on the character dialect: [LineBoxBuilder.read_file]
    returns what [WordBoxBuilder.read_file] returns, each box wrapped in a
    line of its own with the box's rectangle, and raises when it raises. *)
Theorem line_builder_wraps_words
        (html : list event) (p : WordHTMLParser.t)
        (Hfeed : WordHTMLParser.feed WordHTMLParser.__init__ html = Return p)
        (Hnone : WordHTMLParser.boxes p = []) :
  LineBoxBuilder.read_file html
  = (boxes <- WordBoxBuilder.read_file html ;;
     Return (map one_word_line boxes)).
Proof.
  unfold LineBoxBuilder.read_file, WordBoxBuilder.read_file.
  rewrite Hfeed. cbn [bind]. rewrite Hnone. cbn [length Nat.ltb Nat.leb].
  destruct (LineHTMLParser.feed LineHTMLParser.__init__ html) as [q|e];
    [| reflexivity].
  cbn [bind].
  destruct (LineHTMLParser.boxes q); reflexivity.
Qed.

Lemma line_builder_wraps_words_witness :
  LineBoxBuilder.read_file doc_hi_x
  = Return [ one_word_line (Box.new "Hi" ((1, 1), (7, 9)) 0);
             one_word_line (Box.new "x" ((10, 11), (12, 13)) 0) ].
Proof.
  rewrite (line_builder_wraps_words
             doc_hi_x
             (WordHTMLParser.mk
                [] None None None [] (Some ((0, 0), (20, 10))) []
                [LineBox.new [] ((0, 0), (20, 10))])
             eq_refl eq_refl).
  reflexivity.
Defined.

(** *** The two views of the word-tag parser *)

Lemma starttag_line_words (st st' : WordHTMLParser.t) (tag : string)
      (attrs : list attr) :
  line_words_in_boxes st ->
  WordHTMLParser.handle_starttag st tag attrs = Return st' ->
  line_words_in_boxes st'.
Proof.
  intros Hinv. unfold WordHTMLParser.handle_starttag.
  destruct (negb (tag =? "span")%string); [now intros [= <-] |].
  destruct (WordHTMLParser.scan_attrs attrs) as [[title|] [tag_type|]];
    try (now intros [= <-]).
  destruct ((tag_type =? "ocr_word")%string || (tag_type =? "ocrx_word")%string).
  - destruct (confidence <- WordHTMLParser.__parse_confidence title;;
              position <- WordHTMLParser.__parse_position title;;
              Return (confidence, position)) as [[c p]|e];
      intros [= <-]; exact Hinv.
  - destruct (tag_type =? "ocr_line")%string.
    + destruct (WordHTMLParser.__parse_position title) as [p|e]; simpl;
        [| discriminate].
      intros [= <-] b [Hb | []]. apply Hinv. now left.
    + intros [= <-]; exact Hinv.
Qed.

Lemma endtag_line_words (st st' : WordHTMLParser.t) (tag : string) :
  line_words_in_boxes st ->
  WordHTMLParser.handle_endtag st tag = Return st' ->
  line_words_in_boxes st'.
Proof.
  intros Hinv. unfold WordHTMLParser.handle_endtag.
  destruct (negb (tag =? "span")%string); [now intros [= <-] |].
  destruct (pop (WordHTMLParser.tag_types st)) as [[tag_type tts]|e];
    simpl; [| discriminate].
  destruct ((tag_type =? "ocr_word")%string || (tag_type =? "ocrx_word")%string).
  - destruct (WordHTMLParser.current_box_text st) as [text|].
    + destruct (WordHTMLParser.current_box_position st),
        (WordHTMLParser.current_box_confidence st); try discriminate.
      intros [= <-] b Hb. cbn in Hb |- *. apply in_or_app.
      destruct Hb as [Hb | Hb].
      * left. apply Hinv. now left.
      * apply in_app_or in Hb as [Hb | Hb]; [| now right].
        left. apply Hinv. now right.
    + intros [= <-]; exact Hinv.
  - destruct (tag_type =? "ocr_line")%string.
    + destruct (WordHTMLParser.current_line_position st); [| discriminate].
      intros [= <-] b Hb. cbn in Hb |- *. apply Hinv.
      destruct Hb as [Hb | []].
      rewrite flat_map_app in Hb. apply in_app_or in Hb as [Hb | Hb];
        [now left |].
      cbn in Hb. rewrite app_nil_r in Hb. now right.
    + intros [= <-]; exact Hinv.
Qed.

Lemma feed_line_words (html : list event) :
  forall st st' : WordHTMLParser.t,
    line_words_in_boxes st ->
    WordHTMLParser.feed st html = Return st' ->
    line_words_in_boxes st'.
Proof.
  induction html as [|ev html IH]; simpl; intros st st' Hst.
  - now intros [= <-].
  - destruct (WordHTMLParser.dispatch st ev) as [st1|e] eqn:E; simpl;
      [| discriminate].
    apply IH. destruct ev as [tag attrs|data|tag]; simpl in E.
    + eapply starttag_line_words; eauto.
    + injection E as <-. unfold WordHTMLParser.handle_data.
      now destruct (WordHTMLParser.current_box_text st).
    + eapply endtag_line_words; eauto.
Qed.

(** X12: the two views of the word-tag parser fit together: after any
    document that it reads without raising, every word of every line in
    [lines] is also in the flat list [boxes]. *)
Theorem line_words_are_boxes
        (html : list event) (p : WordHTMLParser.t)
        (Hfeed : WordHTMLParser.feed WordHTMLParser.__init__ html = Return p) :
  forall (l : LineBox.t) (b : Box.t),
    In l (WordHTMLParser.lines p) ->
    In b (LineBox.word_boxes l) ->
    In b (WordHTMLParser.boxes p).
Proof.
  intros l b Hl Hb.
  assert (Hinv : line_words_in_boxes p).
  { eapply feed_line_words; [| exact Hfeed]. intros b0 [[] | []]. }
  apply Hinv. left. apply in_flat_map. now exists l.
Qed.

Lemma line_words_are_boxes_witness :
  In (Box.new "" ((0, 30), (40, 50)) 0)
     [Box.new "Hello" ((0, 0), (40, 20)) 90; Box.new "" ((0, 30), (40, 50)) 0].
Proof.
  apply (line_words_are_boxes
           doc_empty_last_word
           (WordHTMLParser.mk
              [] (Some ((0, 30), (40, 50))) None (Some 0)
              [Box.new "Hello" ((0, 0), (40, 20)) 90;
               Box.new "" ((0, 30), (40, 50)) 0]
              (Some ((0, 30), (100, 50))) []
              [LineBox.new [Box.new "Hello" ((0, 0), (40, 20)) 90]
                           ((0, 0), (100, 20));
               LineBox.new [Box.new "" ((0, 30), (40, 50)) 0]
                           ((0, 30), (100, 50))])
           eq_refl
           (LineBox.new [Box.new "" ((0, 30), (40, 50)) 0] ((0, 30), (100, 50)))).
  - right. left. reflexivity.
  - left. reflexivity.
Defined.

(** *** The boxes of the character dialect *)

Lemma split_space_words (s : string) :
  Forall (fun w => all_chars not_space w = true) (split_space s).
Proof.
  induction s as [|c s IH]; simpl; [repeat constructor |].
  destruct (c =? " ")%char eqn:Ec; [constructor; [reflexivity | exact IH] |].
  pose proof (split_space_nonempty s) as Hne.
  destruct (split_space s) as [|w ws]; [congruence |].
  apply Forall_cons_iff in IH as [Hw Hws]. simpl.
  constructor; [| exact Hws]. simpl. unfold not_space at 1. now rewrite Ec.
Qed.

Lemma words_loop_boxes (words : list string) :
  forall (cp cp' : option (list string)) (boxes boxes' : list Box.t),
    Forall (fun w => all_chars not_space w = true) words ->
    Forall char_dialect_box boxes ->
    LineHTMLParser.words_loop words cp boxes = Return (cp', boxes') ->
    Forall char_dialect_box boxes'.
Proof.
  induction words as [|w words IH]; intros cp cp' boxes boxes' Hw Hb.
  - simpl. now intros [= _ <-].
  - apply Forall_cons_iff in Hw as [Hw Hws].
    cbn [LineHTMLParser.words_loop].
    destruct (w =? "")%string eqn:Ew; [now apply IH |].
    destruct cp as [cp|]; [| discriminate].
    destruct (LineHTMLParser.column _ 0 _); [| discriminate]. cbn [bind].
    destruct (py_min _); [| discriminate]. cbn [bind].
    destruct (LineHTMLParser.column _ 1 _); [| discriminate]. cbn [bind].
    destruct (py_min _); [| discriminate]. cbn [bind].
    destruct (LineHTMLParser.column _ 2 _); [| discriminate]. cbn [bind].
    destruct (py_max _); [| discriminate]. cbn [bind].
    destruct (LineHTMLParser.column _ 3 _); [| discriminate]. cbn [bind].
    destruct (py_max _); [| discriminate]. cbn [bind].
    apply IH; [exact Hws |].
    apply Forall_app. split; [exact Hb |].
    constructor; [| constructor].
    split; [now apply String.eqb_neq | split; [exact Hw | reflexivity]].
Qed.

Lemma LineHTMLParser_feed_boxes (html : list event) :
  forall st st' : LineHTMLParser.t,
    Forall char_dialect_box (LineHTMLParser.boxes st) ->
    LineHTMLParser.feed st html = Return st' ->
    Forall char_dialect_box (LineHTMLParser.boxes st').
Proof.
  induction html as [|ev html IH]; simpl; intros st st' Hst.
  - now intros [= <-].
  - destruct (LineHTMLParser.dispatch st ev) as [st1|e] eqn:E; simpl;
      [| discriminate].
    apply IH. destruct ev as [tag attrs|data|tag]; simpl in E.
    + unfold LineHTMLParser.handle_starttag in E.
      destruct (negb (tag =? "span")%string); [now injection E as <- |].
      destruct (LineHTMLParser.scan_class attrs =? LineHTMLParser.TAG_TYPE_CONTENT);
        [now injection E as <- |].
      destruct (LineHTMLParser.scan_class attrs =? LineHTMLParser.TAG_TYPE_POSITIONS);
        [| now injection E as <-].
      destruct (LineHTMLParser.scan_title attrs (LineHTMLParser.char_positions st))
        as [[cp|]|e]; simpl in E; try discriminate.
      destruct (tl cp); simpl in E; [discriminate |].
      now injection E as <-.
    + injection E as <-. unfold LineHTMLParser.handle_data.
      now destruct (LineHTMLParser.line_text st).
    + unfold LineHTMLParser.handle_endtag in E.
      destruct (LineHTMLParser.line_text st) as [text|]; [| now injection E as <-].
      destruct (LineHTMLParser.positions_empty _); [now injection E as <- |].
      destruct (LineHTMLParser.words_loop _ _ _) as [[cp' boxes']|e] eqn:Eloop;
        simpl in E; [| discriminate].
      injection E as <-. simpl.
      eapply words_loop_boxes; [apply split_space_words | exact Hst | exact Eloop].
Qed.

Lemma pop_empty_last_nonempty (boxes : list Box.t) :
  Forall (fun b => Box.content b <> "") boxes ->
  pop_empty_last boxes = boxes.
Proof.
  intros Hall.
  destruct (pop_cases boxes) as [[-> _] | (before & last & -> & _)];
    [reflexivity |].
  apply pop_empty_last_keeps.
  apply Forall_app in Hall as [_ Hlast]. now inversion Hlast.
Qed.

(** X13: every box the character-dialect parser makes, in any document it
    reads without raising, has text that is not empty and holds no space,
    and has confidence 0.  The trim of an empty last box therefore never
    removes anything from its result. *)
Theorem char_dialect_boxes_plain
        (html : list event) (p : LineHTMLParser.t)
        (Hfeed : LineHTMLParser.feed LineHTMLParser.__init__ html = Return p) :
  Forall char_dialect_box (LineHTMLParser.boxes p)
  /\ pop_empty_last (LineHTMLParser.boxes p) = LineHTMLParser.boxes p.
Proof.
  assert (H : Forall char_dialect_box (LineHTMLParser.boxes p)).
  { eapply LineHTMLParser_feed_boxes; [| exact Hfeed]. constructor. }
  split; [exact H |].
  apply pop_empty_last_nonempty.
  eapply Forall_impl; [| exact H]. intros b Hb. apply Hb.
Qed.

Lemma char_dialect_boxes_plain_witness :
  Forall char_dialect_box
         [Box.new "Hi" ((1, 1), (7, 9)) 0; Box.new "x" ((10, 11), (12, 13)) 0].
Proof.
  apply (char_dialect_boxes_plain
           doc_hi_x
           (LineHTMLParser.mk
              [Box.new "Hi" ((1, 1), (7, 9)) 0;
               Box.new "x" ((10, 11), (12, 13)) 0]
              None (Some []))
           eq_refl).
Defined.

(** *** Writing lines and reading them back *)

Lemma parse_position_line_title (l : LineBox.t) :
  WordHTMLParser.__parse_position (LineBox_xml_title l)
  = Return (LineBox.position l).
Proof.
  unfold WordHTMLParser.__parse_position, LineBox_xml_title.
  rewrite split_semi_space_plain.
  2:{ rewrite !all_chars_app. now rewrite !format_d_not_semicolon. }
  cbn [WordHTMLParser.parse_position_loop].
  rewrite bbox_piece_strip.
  change (startswith ("bbox " ++ ?s) "bbox") with true.
  cbn [negb]. rewrite bbox_piece_split. cbn [getitem nth_error bind].
  rewrite !int_format_d. cbn [bind].
  now destruct (LineBox.position l) as [[x1 y1] [x2 y2]].
Qed.

Lemma feed_word_node (st : WordHTMLParser.t) (b : Box.t) :
  WordHTMLParser.current_box_text st = None ->
  WordHTMLParser.feed st (node_events (Box_get_xml_tag b))
  = Return (after_box st b).
Proof.
  intros Htext. unfold Box_get_xml_tag.
  cbn [node_events flat_map map fst snd].
  destruct st as [tts pos text conf bs lpos lcont ls].
  cbn in Htext. subst text.
  destruct b as [content position confidence].
  cbn [Box.content].
  destruct (content =? "")%string eqn:Ec.
  - apply String.eqb_eq in Ec. subst content.
    cbn [List.app].
    cbn [WordHTMLParser.feed WordHTMLParser.dispatch].
    rewrite word_starttag_xml. cbn [bind].
    unfold WordHTMLParser.handle_endtag at 1.
    change (negb ("span" =? "span")%string) with false. cbv iota.
    cbn [WordHTMLParser.tag_types]. rewrite pop_app_last. reflexivity.
  - cbn [List.app].
    cbn [WordHTMLParser.feed WordHTMLParser.dispatch].
    rewrite word_starttag_xml. cbn [bind].
    unfold WordHTMLParser.handle_data at 1.
    cbn [WordHTMLParser.current_box_text WordHTMLParser.tag_types].
    unfold WordHTMLParser.handle_endtag at 1.
    change (negb ("span" =? "span")%string) with false. cbv iota.
    cbn [WordHTMLParser.tag_types]. rewrite pop_app_last. reflexivity.
Qed.

Lemma after_boxes_fields (wbs : list Box.t) :
  forall st : WordHTMLParser.t,
    WordHTMLParser.current_box_text st = None ->
    let st' := fold_left after_box wbs st in
    WordHTMLParser.tag_types st' = WordHTMLParser.tag_types st
    /\ WordHTMLParser.current_box_text st' = None
    /\ WordHTMLParser.boxes st' = (WordHTMLParser.boxes st ++ wbs)%list
    /\ WordHTMLParser.current_line_position st'
       = WordHTMLParser.current_line_position st
    /\ WordHTMLParser.current_line_content st'
       = (WordHTMLParser.current_line_content st ++ wbs)%list
    /\ WordHTMLParser.lines st' = WordHTMLParser.lines st.
Proof.
  induction wbs as [|b wbs IH]; intros st Htext; cbn [fold_left].
  - rewrite !app_nil_r. auto 10.
  - destruct (IH (after_box st b) eq_refl) as (H1 & H2 & H3 & H4 & H5 & H6).
    cbv zeta in *. rewrite H1, H2, H3, H4, H5, H6.
    cbn [after_box WordHTMLParser.tag_types WordHTMLParser.boxes
         WordHTMLParser.current_line_position
         WordHTMLParser.current_line_content WordHTMLParser.lines].
    rewrite <- !app_assoc. auto 10.
Qed.

Lemma feed_line_children (wbs : list Box.t) :
  forall st : WordHTMLParser.t,
    WordHTMLParser.current_box_text st = None ->
    WordHTMLParser.feed st (line_children_events wbs)
    = Return (fold_left after_box wbs st).
Proof.
  unfold line_children_events.
  induction wbs as [|b wbs IH]; intros st Htext; [reflexivity |].
  cbn [flat_map List.app fold_left].
  change (node_events (Text " ")) with [Data " "].
  cbn [List.app WordHTMLParser.feed WordHTMLParser.dispatch].
  unfold WordHTMLParser.handle_data at 1. rewrite Htext. cbn [bind].
  rewrite WordHTMLParser_feed_app, (feed_word_node st b Htext). cbn [bind].
  now apply IH.
Qed.

Lemma feed_line_events (st : WordHTMLParser.t) (l : LineBox.t) :
  WordHTMLParser.current_box_text st = None ->
  exists st' : WordHTMLParser.t,
    WordHTMLParser.feed st (line_events l) = Return st'
    /\ WordHTMLParser.current_box_text st' = None
    /\ WordHTMLParser.boxes st'
       = (WordHTMLParser.boxes st ++ LineBox.word_boxes l)%list
    /\ WordHTMLParser.lines st' = (WordHTMLParser.lines st ++ [l])%list.
Proof.
  intros Htext. unfold line_events, LineBox_get_xml_tag.
  cbn [node_events map fst snd].
  change (flat_map node_events
            (flat_map (fun box => [Text " "; Box_get_xml_tag box])
                      (LineBox.word_boxes l)))
    with (line_children_events (LineBox.word_boxes l)).
  cbn [List.app WordHTMLParser.feed WordHTMLParser.dispatch].
  change (WordHTMLParser.handle_starttag st "p" []) with (Return st).
  cbn [bind].
  unfold WordHTMLParser.handle_starttag at 1.
  change (negb ("span" =? "span")%string) with false. cbv iota.
  change (WordHTMLParser.scan_attrs _)
    with (Some (LineBox_xml_title l), Some "ocr_line").
  cbv iota beta.
  change (("ocr_line" =? "ocr_word")%string || ("ocr_line" =? "ocrx_word")%string)
    with false.
  change ("ocr_line" =? "ocr_line")%string with true. cbv iota.
  rewrite parse_position_line_title. cbn [bind].
  rewrite <- app_assoc, WordHTMLParser_feed_app.
  set (st1 := WordHTMLParser.mk _ _ _ _ _ _ _ _).
  assert (Htext1 : WordHTMLParser.current_box_text st1 = None) by exact Htext.
  rewrite (feed_line_children _ st1 Htext1). cbn [bind].
  destruct (after_boxes_fields (LineBox.word_boxes l) st1 Htext1)
    as (H1 & H2 & H3 & H4 & H5 & H6).
  cbv zeta in *. set (st2 := fold_left after_box (LineBox.word_boxes l) st1) in *.
  cbn [List.app WordHTMLParser.feed WordHTMLParser.dispatch].
  unfold WordHTMLParser.handle_endtag at 1.
  change (negb ("span" =? "span")%string) with false. cbv iota.
  rewrite H1. subst st1. cbn [WordHTMLParser.tag_types].
  rewrite pop_app_last. cbn [bind].
  change (("ocr_line" =? "ocr_word")%string || ("ocr_line" =? "ocrx_word")%string)
    with false.
  change ("ocr_line" =? "ocr_line")%string with true. cbv iota.
  rewrite H4. cbn [WordHTMLParser.current_line_position].
  cbn [bind].
  change (WordHTMLParser.handle_endtag ?s "p") with (Return s).
  cbn [bind]. unfold WordHTMLParser.handle_data.
  cbn [WordHTMLParser.current_box_text]. rewrite H2.
  eexists. split; [reflexivity |].
  cbn [WordHTMLParser.current_box_text WordHTMLParser.boxes WordHTMLParser.lines].
  split; [reflexivity |]. split.
  - rewrite H3. reflexivity.
  - rewrite H5, H6. cbn. destruct l as [wbs lpos]. reflexivity.
Qed.

Lemma feed_lines_events (lines : list LineBox.t) :
  forall st : WordHTMLParser.t,
    WordHTMLParser.current_box_text st = None ->
    exists st' : WordHTMLParser.t,
      WordHTMLParser.feed st (flat_map line_events lines) = Return st'
      /\ WordHTMLParser.current_box_text st' = None
      /\ WordHTMLParser.boxes st'
         = (WordHTMLParser.boxes st ++ flat_map LineBox.word_boxes lines)%list
      /\ WordHTMLParser.lines st' = (WordHTMLParser.lines st ++ lines)%list.
Proof.
  induction lines as [|l lines IH]; intros st Htext.
  - exists st. simpl. rewrite !app_nil_r. auto.
  - cbn [flat_map]. rewrite WordHTMLParser_feed_app.
    destruct (feed_line_events st l Htext) as (st1 & Hf1 & Ht1 & Hb1 & Hl1).
    rewrite Hf1. cbn [bind].
    destruct (IH st1 Ht1) as (st' & Hf & Ht & Hb & Hl).
    exists st'. split; [exact Hf |]. split; [exact Ht |].
    rewrite Hb, Hl, Hb1, Hl1, <- !app_assoc. auto.
Qed.

(** The word-tag parser finds the written lines and all their words. *)
Lemma word_feed_write_lines (lines : list LineBox.t) :
  exists p : WordHTMLParser.t,
    WordHTMLParser.feed WordHTMLParser.__init__ (LineBoxBuilder_write_file lines)
    = Return p
    /\ WordHTMLParser.boxes p = flat_map LineBox.word_boxes lines
    /\ WordHTMLParser.lines p = lines.
Proof.
  unfold LineBoxBuilder_write_file.
  rewrite WordHTMLParser_feed_app.
  rewrite feed_ignored_events;
    [| reflexivity | unfold _XHTML_HEADER; repeat constructor].
  cbn [bind]. rewrite WordHTMLParser_feed_app.
  rewrite feed_ignored_events; [| reflexivity | repeat constructor].
  cbn [bind]. rewrite WordHTMLParser_feed_app.
  destruct (feed_lines_events lines WordHTMLParser.__init__ eq_refl)
    as (st' & Hf & Ht & Hb & Hl).
  change (WordHTMLParser.feed ?s (flat_map _ lines))
    with (WordHTMLParser.feed s (flat_map line_events lines)).
  rewrite Hf. cbn [bind].
  rewrite feed_ignored_events; [| exact Ht | repeat constructor].
  exists st'. split; [reflexivity |]. split; [exact Hb | exact Hl].
Qed.

Lemma dispatch_idle (st st' : LineHTMLParser.t) (ev : event) :
  not_cinfo ev -> line_idle st ->
  LineHTMLParser.dispatch st ev = Return st' ->
  line_idle st'.
Proof.
  intros Hev Hst. pose proof Hst as [Hb Hi].
  destruct ev as [tag attrs|data|tag]; cbn [LineHTMLParser.dispatch].
  - unfold LineHTMLParser.handle_starttag.
    destruct (negb (tag =? "span")%string) eqn:Etag.
    { intros E. injection E as <-. exact Hst. }
    destruct Hev as [Hev | Hev];
      [apply negb_false_iff in Etag; congruence |].
    destruct (LineHTMLParser.scan_class attrs =? LineHTMLParser.TAG_TYPE_CONTENT).
    { intros E. injection E as <-. split; [exact Hb | now right]. }
    destruct (LineHTMLParser.scan_class attrs =? LineHTMLParser.TAG_TYPE_POSITIONS)
      eqn:E; [apply Z.eqb_eq in E; contradiction |].
    intros E'. injection E' as <-. exact Hst.
  - intros E. injection E as <-. unfold LineHTMLParser.handle_data.
    destruct (LineHTMLParser.line_text st) eqn:Et; [| exact Hst].
    split; [exact Hb |]. destruct Hi as [Hi | Hi]; [discriminate | now right].
  - unfold LineHTMLParser.handle_endtag.
    destruct (LineHTMLParser.line_text st) eqn:Et.
    2:{ intros E. injection E as <-. exact Hst. }
    destruct Hi as [Hi | Hi]; [discriminate |]. rewrite Hi.
    cbn [LineHTMLParser.positions_empty]. intros E. injection E as <-.
    exact Hst.
Qed.

Lemma dispatch_idle_returns (st : LineHTMLParser.t) (ev : event) :
  not_cinfo ev -> line_idle st ->
  exists st' : LineHTMLParser.t, LineHTMLParser.dispatch st ev = Return st'.
Proof.
  intros Hev [Hb Hi]. destruct ev as [tag attrs|data|tag];
    cbn [LineHTMLParser.dispatch]; [| eauto |].
  - unfold LineHTMLParser.handle_starttag.
    destruct (negb (tag =? "span")%string) eqn:Etag; [eauto |].
    destruct Hev as [Hev | Hev];
      [apply negb_false_iff in Etag; congruence |].
    destruct (LineHTMLParser.scan_class attrs =? LineHTMLParser.TAG_TYPE_CONTENT);
      [eauto |].
    destruct (LineHTMLParser.scan_class attrs =? LineHTMLParser.TAG_TYPE_POSITIONS)
      eqn:E; [apply Z.eqb_eq in E; contradiction | eauto].
  - unfold LineHTMLParser.handle_endtag.
    destruct (LineHTMLParser.line_text st) eqn:Et; [| eauto].
    destruct Hi as [Hi | Hi]; [discriminate |]. rewrite Hi.
    cbn [LineHTMLParser.positions_empty]. eauto.
Qed.

Lemma feed_idle (html : list event) :
  Forall not_cinfo html ->
  forall st : LineHTMLParser.t,
    line_idle st ->
    exists st' : LineHTMLParser.t,
      LineHTMLParser.feed st html = Return st' /\ line_idle st'.
Proof.
  induction 1 as [|ev html Hev Hall IH]; intros st Hst.
  - exists st. now split.
  - cbn [LineHTMLParser.feed].
    destruct (dispatch_idle_returns st ev Hev Hst) as [st1 E].
    rewrite E. cbn [bind]. apply IH.
    eapply dispatch_idle; eauto.
Qed.

Lemma word_node_not_cinfo (b : Box.t) :
  Forall not_cinfo (node_events (Box_get_xml_tag b)).
Proof.
  unfold Box_get_xml_tag. cbn [node_events flat_map map fst snd].
  constructor; [right; vm_compute; discriminate |].
  rewrite app_nil_r. apply Forall_app. split; [| repeat constructor].
  destruct (Box.content b =? "")%string; repeat constructor.
Qed.

Lemma line_events_not_cinfo (l : LineBox.t) : Forall not_cinfo (line_events l).
Proof.
  unfold line_events, LineBox_get_xml_tag. cbn [node_events map fst snd].
  apply Forall_app. split; [repeat constructor; now left |].
  apply Forall_app. split; [| repeat constructor; now left].
  constructor; [right; vm_compute; discriminate |].
  apply Forall_app. split; [| repeat constructor].
  induction (LineBox.word_boxes l) as [|b wbs IH]; [constructor |].
  cbn [flat_map List.app].
  change (node_events (Text " ")) with [Data " "].
  cbn [List.app]. constructor; [exact I |].
  apply Forall_app. split; [apply word_node_not_cinfo | exact IH].
Qed.

Lemma write_lines_not_cinfo (lines : list LineBox.t) :
  Forall not_cinfo (LineBoxBuilder_write_file lines).
Proof.
  unfold LineBoxBuilder_write_file.
  apply Forall_app. split;
    [unfold _XHTML_HEADER; repeat constructor; now left |].
  apply Forall_app. split; [repeat constructor; now left |].
  apply Forall_app. split; [| repeat constructor; now left].
  induction lines as [|l lines IH]; [constructor |].
  cbn [flat_map]. apply Forall_app. split; [| exact IH].
  apply (line_events_not_cinfo l).
Qed.

(** X14: reading back what [LineBoxBuilder.write_file] wrote returns the
    same lines - same rectangles, same words with their text, rectangle
    and confidence, empty lines included - as long as the lines hold at
    least one word between them.  When no line has any word, the word-tag
    parser reports no box, the character dialect finds nothing either, and
    [read_file] returns the empty collection instead of the lines. *)
Theorem lines_write_read_roundtrip (lines : list LineBox.t) :
  LineBoxBuilder.read_file (LineBoxBuilder_write_file lines)
  = Return (match flat_map LineBox.word_boxes lines with
            | [] => []
            | _ :: _ => lines
            end).
Proof.
  destruct (word_feed_write_lines lines) as (p & Hfeed & Hboxes & Hlines).
  unfold LineBoxBuilder.read_file. rewrite Hfeed. cbn [bind].
  rewrite Hboxes, Hlines.
  destruct (flat_map LineBox.word_boxes lines) as [|b bs]; [| reflexivity].
  cbn [length Nat.ltb Nat.leb].
  destruct (feed_idle _ (write_lines_not_cinfo lines) LineHTMLParser.__init__)
    as (q & Hq & Hb & _).
  - split; [reflexivity | now left].
  - rewrite Hq. cbn [bind]. rewrite Hb. reflexivity.
Qed.

(** *** The box-file line of a box *)

Lemma split_space_append (s t : string) :
  split_space (s ++ String " " t) = (split_space s ++ split_space t)%list.
Proof.
  induction s as [|c s IH]; simpl; [reflexivity |].
  rewrite IH. destruct (c =? " ")%char; [reflexivity |].
  pose proof (split_space_nonempty s) as Hne.
  destruct (split_space s); [congruence | reflexivity].
Qed.

Lemma join_split_space (s : string) : join " " (split_space s) = s.
Proof.
  induction s as [|c s IH]; [reflexivity |].
  cbn [split_space].
  pose proof (split_space_nonempty s) as Hne.
  destruct (c =? " ")%char eqn:Ec.
  - apply Ascii.eqb_eq in Ec. subst c.
    destruct (split_space s) as [|w ws]; [congruence |].
    rewrite join_cons_cons, IH. reflexivity.
  - destruct (split_space s) as [|w ws]; [congruence |].
    cbn [cons_head]. destruct ws as [|v ws].
    + cbn [join] in *. now rewrite IH.
    + rewrite join_cons_cons in *. rewrite <- IH. reflexivity.
Qed.

(** X15: the line [get_unicode_string] makes for a box can be taken apart
    again: split on single spaces, its last four tokens read back as the
    four coordinates, and the tokens before them, joined by spaces, are the
    text of the box. *)
Theorem box_unicode_string_parses_back (b : Box.t) :
  exists (toks : list string) (t1 t2 t3 t4 : string),
    split_space (Box_get_unicode_string b) = (toks ++ [t1; t2; t3; t4])%list
    /\ join " " toks = Box.content b
    /\ int t1 = Return (fst (fst (Box.position b)))
    /\ int t2 = Return (snd (fst (Box.position b)))
    /\ int t3 = Return (fst (snd (Box.position b)))
    /\ int t4 = Return (snd (snd (Box.position b))).
Proof.
  exists (split_space (Box.content b)),
    (format_d (fst (fst (Box.position b)))),
    (format_d (snd (fst (Box.position b)))),
    (format_d (fst (snd (Box.position b)))),
    (format_d (snd (snd (Box.position b)))).
  split; [| split; [apply join_split_space | repeat split; apply int_format_d]].
  unfold Box_get_unicode_string.
  change (Box.content b ++ " " ++ ?a ++ " " ++ ?b' ++ " " ++ ?c ++ " " ++ ?d)
    with (Box.content b
            ++ String " " (a ++ String " " (b' ++ String " " (c ++ String " " d)))).
  rewrite split_space_append. f_equal.
  rewrite !split_space_app by apply format_d_not_space.
  now rewrite split_space_plain by apply format_d_not_space.
Qed.

(** *** The two box builders side by side *)

Lemma flat_words_last (before : list LineBox.t) (l : LineBox.t) :
  flat_map LineBox.word_boxes (before ++ [l])
  = (flat_map LineBox.word_boxes before ++ LineBox.word_boxes l)%list.
Proof.
  rewrite flat_map_app. cbn [flat_map]. now rewrite app_nil_r.
Qed.

Lemma start_line_words (lines : list LineBox.t) (box : rect) :
  flat_map LineBox.word_boxes (LineBoxBuilder_start_line lines box)
  = flat_map LineBox.word_boxes lines.
Proof.
  unfold LineBoxBuilder_start_line.
  destruct ((0 <? length lines)%nat && _); [reflexivity |].
  rewrite flat_words_last. cbn [LineBox.word_boxes]. apply app_nil_r.
Qed.

Lemma add_word_words (lines lines' : list LineBox.t)
      (word : string) (box : rect) (confidence : Z) :
  LineBoxBuilder_add_word lines word box confidence = Return lines' ->
  flat_map LineBox.word_boxes lines'
  = WordBoxBuilder_add_word (flat_map LineBox.word_boxes lines)
                            word box confidence.
Proof.
  unfold LineBoxBuilder_add_word, WordBoxBuilder_add_word.
  destruct (pop_cases lines) as [[-> ->] | (before & last & -> & ->)];
    [discriminate |].
  cbn [bind]. intros [= <-].
  rewrite !flat_words_last. cbn [LineBox.word_boxes].
  now rewrite app_assoc.
Qed.

Lemma line_builder_words (calls : list call) :
  forall lines lines' : list LineBox.t,
    LineBoxBuilder_run lines calls = Return lines' ->
    flat_map LineBox.word_boxes lines'
    = WordBoxBuilder_run (flat_map LineBox.word_boxes lines) calls.
Proof.
  induction calls as [|c calls IH]; intros lines lines' Hrun.
  - now injection Hrun as <-.
  - destruct c as [box | word box confidence |];
      cbn [LineBoxBuilder_run WordBoxBuilder_run] in *.
    + rewrite (IH _ _ Hrun). now rewrite start_line_words.
    + destruct (LineBoxBuilder_add_word lines word box confidence) as [l1|e]
        eqn:E; [| discriminate Hrun].
      cbn [bind] in Hrun. rewrite (IH _ _ Hrun).
      now rewrite (add_word_words _ _ _ _ _ E).
    + now apply IH.
Qed.

(** X16: given the same calls, the line builder loses no word and invents
    none: whenever it raises nothing, the words of its lines, taken line
    after line, are exactly the output of the word builder, in the same
    order. *)
Theorem line_builder_keeps_words (calls : list call) (lines : list LineBox.t)
        (Hrun : LineBoxBuilder_run [] calls = Return lines) :
  flat_map LineBox.word_boxes lines = WordBoxBuilder_run [] calls.
Proof.
  exact (line_builder_words calls [] lines Hrun).
Qed.

Lemma line_builder_keeps_words_witness :
  flat_map LineBox.word_boxes
           [ LineBox.new [Box.new "Hi" ((1, 1), (2, 2)) 7;
                          Box.new "you" ((3, 1), (5, 2)) 8]
                         ((0, 0), (9, 9));
             LineBox.new [Box.new "there" ((1, 21), (6, 28)) 9]
                         ((0, 20), (9, 29)) ]
  = [ Box.new "Hi" ((1, 1), (2, 2)) 7; Box.new "you" ((3, 1), (5, 2)) 8;
      Box.new "there" ((1, 21), (6, 28)) 9 ].
Proof.
  apply (line_builder_keeps_words
           [ StartLine ((0, 0), (9, 9));
             AddWord "Hi" ((1, 1), (2, 2)) 7; AddWord "you" ((3, 1), (5, 2)) 8;
             EndLine;
             StartLine ((0, 20), (9, 29));
             AddWord "there" ((1, 21), (6, 28)) 9; EndLine ]).
  reflexivity.
Defined.
